(** * Authorization and caching core of the backend API

    A shallow embedding of the TypeScript sources:
    - [src/lib/redis.ts]            ([RedisClient])
    - [src/services/cache.service.ts] ([CacheService])
    - [role.service.ts], [admin.service.ts], [user.service.ts]
    - [src/utils/jwt.util.ts]
    - [auth.middleware.ts]

    JavaScript [async] functions run to completion one after the other
    here: a computation is a function from the state of the world (the
    database tables, the Redis server, the clock) to a result and a new
    world.  A [throw] keeps the effects that happened before it, so the
    monad is state-then-exception, not exception-then-state. *)

From Stdlib Require Import ZArith Lia Bool List String Ascii.
From stdpp Require Import base gmap strings list pretty.
Import ListNotations.
Open Scope string_scope.
Open Scope Z_scope.

(** ** JavaScript values *)

#[local] Set Warnings "-register-all".

(** The JSON-shaped part of the JavaScript value universe.  Numbers are
    integers here: the code only stores counts, ids and timestamps. *)
Inductive jsval : Type :=
| JNull
| JBool (b : bool)
| JNum (n : Z)
| JStr (s : string)
| JArr (items : list jsval)
| JObj (fields : list (string * jsval)).

(** [if (v)] *)
Definition truthy (v : jsval) : bool :=
  match v with
  | JNull => false
  | JBool b => b
  | JNum n => negb (n =? 0)
  | JStr s => negb (String.eqb s "")
  | JArr _ | JObj _ => true
  end.

(** [if (s)] for a value known to be a string *)
Definition truthy_string (s : string) : bool := negb (String.eqb s "").

(** [a || b] on numbers where [a] may be [undefined] *)
Definition num_or (a : option Z) (b : Z) : Z :=
  match a with
  | Some n => if n =? 0 then b else n
  | None => b
  end.

(** ** Data model *)

Module Role.
Record t := mk {
  id : string;
  name : string;
  slug : string;
  description : option string;
  permissions : option string;   (* JSON text, or null *)
  isDefault : bool;
  isActive : bool;
}.
End Role.

Module Admin.
Record t := mk {
  id : string;
  email : string;
  password : string;
  name : string;
  phone : option string;
  avatar : option string;
  role : string;
  permissions : option string;
  isActive : bool;
}.
End Admin.

Module User.
Record t := mk {
  id : string;
  email : string;
  password : string;
  name : string;
  phone : option string;
  avatar : option string;
  roleId : string;
  isActive : bool;
}.
End User.

Module Session.
Record t := mk {
  token : string;
  userId : string;
  userType : string;
  expiresAt : Z;
}.
End Session.

(** [JwtPayload] of [src/types/index.ts].  [type] is ['user' | 'admin'] for
    the compiler; at run time it is whatever string the token or the
    session row carries. *)
Module JwtPayload.
Record t := mk {
  id : string;
  email : string;
  role : string;
  roleId : option string;
  type : string;
}.
End JwtPayload.

(** The object held in [req.user]: the declared fields of [JwtPayload],
    and the registered claims [iat] and [exp] when the object was decoded
    from a token. *)
Record Principal := mkPrincipal {
  claims : JwtPayload.t;
  iat : option Z;
  exp : option Z;
}.

(** [config] of [src/config/index.ts]; [jwt_expiresIn] is the configured
    validity already converted to seconds, [cache_ttl] the parsed
    [CACHE_TTL] (0 also stands for a [NaN]: both are falsy). *)
Record Config := mkConfig {
  apiKey : string;
  jwt_secret : string;
  jwt_expiresIn : Z;
  cache_ttl : Z;
}.

(** Column defaults of [prisma/schema.prisma], which is not under src/. *)
Record Schema := mkSchema {
  role_isActive_default : bool;
  admin_role_default : string;
  admin_isActive_default : bool;
  user_isActive_default : bool;
}.

(** What the JavaScript runtime and the npm packages provide.  None of it
    is code of the repository, so it is a parameter of everything below. *)
Class Platform := {
  (** [JSON.stringify] on JSON-shaped values *)
  JSON_stringify : jsval -> string;
  (** [JSON.parse]; [None] is a thrown [SyntaxError] *)
  JSON_parse : string -> option jsval;
  (** [hashPassword] of [utils/password.util] (bcrypt) *)
  hashPassword : string -> string;
  (** base64url(JSON(...)) of the claims segment of a token, and back *)
  segment_encode : Principal -> string;
  segment_decode : string -> option Principal;
  (** the keyed tag over the signing input, base64url *)
  hmac : string -> string -> string;
}.

(** ** The world: database, Redis, clock, and the trace of external calls *)

Inductive RedisCommand :=
| GET (key : string)
| SET (key : string)
| SETEX (key : string) (seconds : Z)
| DEL (key : string)
| KEYS (pattern : string)
| FLUSHALL.

Inductive Event :=
| DbRead (model : string)
| DbWrite (model action : string)
| Redis (cmd : RedisCommand)
| Called (label : string).

(** A key held by the Redis server, with the time at which it expires. *)
Record entry := mkEntry { e_data : string; e_expiry : option Z }.

Record World := mkWorld {
  roles : list Role.t;
  admins : list Admin.t;
  users : list User.t;
  sessions : list Session.t;
  dbDown : bool;                (* every Prisma call rejects *)
  store : gmap string entry;    (* the keys of the Redis server *)
  isConnected : bool;           (* [RedisClient.isConnected] *)
  redisDown : bool;             (* every Redis command rejects *)
  clock : Z;                    (* seconds *)
  trace : list Event;
}.

Definition log (e : Event) (w : World) : World :=
  mkWorld (roles w) (admins w) (users w) (sessions w) (dbDown w)
          (store w) (isConnected w) (redisDown w) (clock w) (trace w ++ [e]).

Definition with_store (s : gmap string entry) (w : World) : World :=
  mkWorld (roles w) (admins w) (users w) (sessions w) (dbDown w)
          s (isConnected w) (redisDown w) (clock w) (trace w).

Definition with_roles (l : list Role.t) (w : World) : World :=
  mkWorld l (admins w) (users w) (sessions w) (dbDown w)
          (store w) (isConnected w) (redisDown w) (clock w) (trace w).

Definition with_admins (l : list Admin.t) (w : World) : World :=
  mkWorld (roles w) l (users w) (sessions w) (dbDown w)
          (store w) (isConnected w) (redisDown w) (clock w) (trace w).

Definition with_users (l : list User.t) (w : World) : World :=
  mkWorld (roles w) (admins w) l (sessions w) (dbDown w)
          (store w) (isConnected w) (redisDown w) (clock w) (trace w).

Definition with_sessions (l : list Session.t) (w : World) : World :=
  mkWorld (roles w) (admins w) (users w) l (dbDown w)
          (store w) (isConnected w) (redisDown w) (clock w) (trace w).

(** ** Computations that may throw *)

Inductive Exn :=
| ApiError (message : string) (statusCode : Z)
| PrismaError (code : string)
| RedisError
| SyntaxError
| TypeError.

Inductive Result (A : Type) :=
| Ok (a : A)
| Throw (e : Exn).
Arguments Ok {A} a.
Arguments Throw {A} e.

Definition M (A : Type) : Type := World -> Result A * World.

Definition ret {A} (a : A) : M A := fun w => (Ok a, w).

Definition throw {A} (e : Exn) : M A := fun w => (Throw e, w).

Definition bind {A B} (c : M A) (k : A -> M B) : M B :=
  fun w =>
    match c w with
    | (Ok a, w') => k a w'
    | (Throw e, w') => (Throw e, w')
    end.

(** [try { c } catch (error) { h }] *)
Definition try_catch {A} (c : M A) (h : Exn -> M A) : M A :=
  fun w =>
    match c w with
    | (Ok a, w') => (Ok a, w')
    | (Throw e, w') => h e w'
    end.

Notation "x <- c ;; k" := (bind c (fun x => k))
  (at level 100, c at next level, right associativity).
Notation "c ;; k" := (bind c (fun _ => k))
  (at level 100, right associativity).

Definition emit (e : Event) : M unit := fun w => (Ok tt, log e w).

Definition now : M Z := fun w => (Ok (clock w), w).

(** [for (const x of xs) { await body(x) }] *)
Fixpoint for_of {A} (xs : list A) (body : A -> M unit) : M unit :=
  match xs with
  | [] => ret tt
  | x :: rest => body x ;; for_of rest body
  end.

(** ** [JSON] *)

Module JSON.
Section JSON.
Context `{Platform}.

(** [JSON.parse(text)], which throws on malformed text *)
Definition parse (text : string) : M jsval :=
  match JSON_parse text with
  | Some v => ret v
  | None => throw SyntaxError
  end.

Definition stringify (v : jsval) : string := JSON_stringify v.

End JSON.
End JSON.

(** ** [src/lib/redis.ts] and the Redis server *)

Module redis.

(** Modelled from the spec: the glob of Redis [KEYS], which is not under
    src/.  Section 4.2 gives it a single wildcard covering "zero or more
    characters".  Every pattern in the sources is a literal prefix followed
    by [*]. *)
Fixpoint glob (p s : list ascii) : bool :=
  match p with
  | [] => match s with [] => true | _ => false end
  | c :: p' =>
      if Ascii.eqb c "*" then
        (fix star (s : list ascii) : bool :=
           glob p' s || match s with [] => false | _ :: s' => star s' end) s
      else
        match s with
        | [] => false
        | d :: s' => Ascii.eqb c d && glob p' s'
        end
  end.

Definition matches (pattern key : string) : bool :=
  glob (list_ascii_of_string pattern) (list_ascii_of_string key).

Definition live (t : Z) (e : entry) : bool :=
  match e_expiry e with
  | None => true
  | Some deadline => t <? deadline
  end.

(** A command sent to the server: it is traced, and rejects when the
    server is unreachable. *)
Definition command {A} (c : RedisCommand) (run : World -> A * World) : M A :=
  fun w =>
    let w1 := log (Redis c) w in
    if redisDown w1 then (Throw RedisError, w1)
    else let (a, w2) := run w1 in (Ok a, w2).

Definition isReady : M bool := fun w => (Ok (isConnected w), w).

Definition get (key : string) : M (option string) :=
  command (GET key) (fun w =>
    (match store w !! key with
     | Some e => if live (clock w) e then Some (e_data e) else None
     | None => None
     end, w)).

(** [SETEX] rejects a non-positive time to live. *)
Definition setEx (key : string) (seconds : Z) (value : string) : M unit :=
  fun w =>
    let w1 := log (Redis (SETEX key seconds)) w in
    if redisDown w1 || (seconds <=? 0) then (Throw RedisError, w1)
    else (Ok tt,
          with_store (<[key := mkEntry value (Some (clock w1 + seconds))]> (store w1)) w1).

Definition set_plain (key value : string) : M unit :=
  command (SET key) (fun w =>
    (tt, with_store (<[key := mkEntry value None]> (store w)) w)).

Definition set (key value : string) (ttlSeconds : Z) : M unit :=
  if negb (ttlSeconds =? 0) then setEx key ttlSeconds value
  else set_plain key value.

Definition del (key : string) : M unit :=
  command (DEL key) (fun w => (tt, with_store (base.delete key (store w)) w)).

Definition flush : M unit :=
  command FLUSHALL (fun w => (tt, with_store ∅ w)).

Definition keys (pattern : string) : M (list string) :=
  command (KEYS pattern) (fun w =>
    (List.filter (matches pattern)
       (List.map fst
          (List.filter (fun kv => live (clock w) (snd kv))
             (map_to_list (store w)))), w)).

End redis.

(** ** [src/services/cache.service.ts] *)

Module CacheService.
Section CacheService.
Context `{Platform}.
Variable config : Config.

Definition defaultTTL : Z := cache_ttl config.

Definition get (key : string) : M jsval :=
  ready <- redis.isReady ;;
  if negb ready then ret JNull
  else
    try_catch
      (data <- redis.get key ;;
       match data with
       | Some d => if truthy_string d then JSON.parse d else ret JNull
       | None => ret JNull
       end)
      (fun _ => ret JNull).

Definition set (key : string) (value : jsval) (ttlSeconds : option Z) : M unit :=
  ready <- redis.isReady ;;
  if negb ready then ret tt
  else
    try_catch
      (redis.set key (JSON.stringify value) (num_or ttlSeconds defaultTTL))
      (fun _ => ret tt).

Definition delete (key : string) : M unit :=
  ready <- redis.isReady ;;
  if negb ready then ret tt
  else try_catch (redis.del key) (fun _ => ret tt).

Definition deletePattern (pattern : string) : M unit :=
  ready <- redis.isReady ;;
  if negb ready then ret tt
  else
    try_catch
      (ks <- redis.keys pattern ;;
       for_of ks redis.del)
      (fun _ => ret tt).

Definition clear : M unit :=
  ready <- redis.isReady ;;
  if negb ready then ret tt
  else try_catch redis.flush (fun _ => ret tt).

Definition getOrSet (key : string) (fetcher : M jsval) (ttlSeconds : option Z)
  : M jsval :=
  cached <- get key ;;
  if truthy cached then ret cached
  else
    data <- fetcher ;;
    set key data ttlSeconds ;;
    ret data.

End CacheService.
End CacheService.

(** ** The Prisma client *)

Module prisma.

(** A table of the database as the client sees it. *)
Record Table (A : Type) := mkTable {
  model : string;
  rows : World -> list A;
  put : list A -> World -> World;
  key : A -> string;
}.
Arguments model {A} _.
Arguments rows {A} _ _.
Arguments put {A} _ _ _.
Arguments key {A} _ _.

Definition role : Table Role.t := mkTable _ "role" roles with_roles Role.id.
Definition admin : Table Admin.t := mkTable _ "admin" admins with_admins Admin.id.
Definition user : Table User.t := mkTable _ "user" users with_users User.id.
Definition session : Table Session.t :=
  mkTable _ "session" sessions with_sessions Session.token.

(** A call to the database: it is traced, and rejects when the database is
    unreachable. *)
Definition query {A} (e : Event) (run : World -> Result A * World) : M A :=
  fun w =>
    let w1 := log e w in
    if dbDown w1 then (Throw (PrismaError "P1001"), w1) else run w1.

Definition has_id {A} (tb : Table A) (i : string) (r : A) : bool :=
  String.eqb (key tb r) i.

(** [findFirst({ where })] and [findUnique({ where })] *)
Definition findFirst {A} (tb : Table A) (where_ : A -> bool) : M (option A) :=
  query (DbRead (model tb)) (fun w => (Ok (List.find where_ (rows tb w)), w)).

Definition findUnique {A} (tb : Table A) (where_ : A -> bool) : M (option A) :=
  findFirst tb where_.

(** [count({ where })] *)
Definition count {A} (tb : Table A) (where_ : A -> bool) : M Z :=
  query (DbRead (model tb)) (fun w =>
    (Ok (Z.of_nat (List.length (List.filter where_ (rows tb w)))), w)).

(** [create({ data })]: [row] is the record as the database completes it
    (generated id, column defaults). *)
Definition create {A} (tb : Table A) (row : A) : M A :=
  query (DbWrite (model tb) "create") (fun w =>
    (Ok row, put tb (rows tb w ++ [row]) w)).

(** [update({ where: { id }, data })]; rejects with P2025 when no record
    has this id. *)
Definition update {A} (tb : Table A) (i : string) (data : A -> A) : M A :=
  query (DbWrite (model tb) "update") (fun w =>
    match List.find (has_id tb i) (rows tb w) with
    | None => (Throw (PrismaError "P2025"), w)
    | Some r =>
        (Ok (data r),
         put tb (List.map (fun x => if has_id tb i x then data x else x) (rows tb w)) w)
    end).

(** [updateMany({ where, data })] *)
Definition updateMany {A} (tb : Table A) (where_ : A -> bool) (data : A -> A)
  : M unit :=
  query (DbWrite (model tb) "updateMany") (fun w =>
    (Ok tt,
     put tb (List.map (fun x => if where_ x then data x else x) (rows tb w)) w)).

(** [delete({ where: { id } })] *)
Definition delete {A} (tb : Table A) (i : string) : M A :=
  query (DbWrite (model tb) "delete") (fun w =>
    match List.find (has_id tb i) (rows tb w) with
    | None => (Throw (PrismaError "P2025"), w)
    | Some r =>
        (Ok r, put tb (List.filter (fun x => negb (has_id tb i x)) (rows tb w)) w)
    end).

(** [role.findUnique({ where: { id }, include: { _count: { select:
    { users: true } } } })] *)
Definition role_with_count (i : string) : M (option (Role.t * Z)) :=
  query (DbRead "role") (fun w =>
    (Ok (match List.find (has_id role i) (roles w) with
         | None => None
         | Some r =>
             Some (r, Z.of_nat (List.length
                       (List.filter (fun u => String.eqb (User.roleId u) i) (users w))))
         end), w)).

(** [user.findUnique({ where: { id }, include: { role: ... } })]: the user
    and the role row its [roleId] points to ([None] when no such row). *)
Definition user_with_role (i : string) : M (option (User.t * option Role.t)) :=
  query (DbRead "user") (fun w =>
    (Ok (match List.find (has_id user i) (users w) with
         | None => None
         | Some u => Some (u, List.find (has_id role (User.roleId u)) (roles w))
         end), w)).

End prisma.

(** ** Request bodies ([src/types/index.ts]) *)

Module CreateRoleDto.
Record t := mk {
  name : string;
  slug : string;
  description : option string;
  permissions : option (list string);
  isDefault : option bool;
}.
End CreateRoleDto.

Module UpdateRoleDto.
Record t := mk {
  name : option string;
  description : option string;
  permissions : option (list string);
  isActive : option bool;
}.
End UpdateRoleDto.

Module CreateAdminDto.
Record t := mk {
  email : string;
  password : string;
  name : string;
  phone : option string;
  role : option string;
  permissions : option (list string);
}.
End CreateAdminDto.

Module UpdateAdminDto.
Record t := mk {
  name : option string;
  phone : option string;
  avatar : option string;
  permissions : option (list string);
}.
End UpdateAdminDto.

Module CreateUserDto.
Record t := mk {
  email : string;
  password : string;
  name : string;
  phone : option string;
  roleId : option string;
}.
End CreateUserDto.

Module UpdateUserDto.
Record t := mk {
  name : option string;
  phone : option string;
  avatar : option string;
  roleId : option string;
}.
End UpdateUserDto.

(** [x ?? old] for an optional field of an update: [undefined] leaves the
    column as it is. *)
Definition or_keep {A} (x : option A) (old : A) : A :=
  match x with Some v => v | None => old end.

Definition or_keep_opt {A} (x : option A) (old : option A) : option A :=
  match x with Some v => Some v | None => old end.

(** [if (x)] for an optional string: [undefined] and [""] are falsy *)
Definition opt_truthy (x : option string) : bool :=
  match x with Some s => truthy_string s | None => false end.

Definition opt_str (x : option string) : jsval :=
  match x with Some s => JStr s | None => JNull end.

(** ** The services *)

Section Permissions.
Context `{Platform}.

(** [data.permissions ? JSON.stringify(data.permissions) : null]; an array
    is truthy even when empty. *)
Definition permissions_text (ps : option (list string)) : option string :=
  match ps with
  | Some l => Some (JSON.stringify (JArr (List.map JStr l)))
  | None => None
  end.

(** [row.permissions ? JSON.parse(row.permissions) : []] *)
Definition permissions_value (text : option string) : M jsval :=
  match text with
  | Some s => if truthy_string s then JSON.parse s else ret (JArr [])
  | None => ret (JArr [])
  end.

End Permissions.

(** *** [RoleService] *)

Module RoleService.
Section RoleService.
Context `{Platform}.
Variable config : Config.
Variable schema : Schema.

Definition role_json (r : Role.t) (perms : jsval) : list (string * jsval) :=
  [ ("id", JStr (Role.id r)); ("name", JStr (Role.name r));
    ("slug", JStr (Role.slug r)); ("description", opt_str (Role.description r));
    ("permissions", perms); ("isDefault", JBool (Role.isDefault r));
    ("isActive", JBool (Role.isActive r)) ].

Definition create (newId : string) (data : CreateRoleDto.t)
  : M (Role.t * jsval) :=
  existingRole <- prisma.findFirst prisma.role (fun r =>
      String.eqb (Role.name r) (CreateRoleDto.name data)
      || String.eqb (Role.slug r) (CreateRoleDto.slug data)) ;;
  match existingRole with
  | Some _ => throw (ApiError "Role with this name or slug already exists" 400)
  | None =>
      role <- prisma.create prisma.role
        (Role.mk newId (CreateRoleDto.name data) (CreateRoleDto.slug data)
           (CreateRoleDto.description data)
           (permissions_text (CreateRoleDto.permissions data))
           (match CreateRoleDto.isDefault data with Some b => b || false | None => false end)
           (role_isActive_default schema)) ;;
      CacheService.deletePattern "roles:*" ;;
      perms <- permissions_value (Role.permissions role) ;;
      ret (role, perms)
  end.

Definition getById (id : string) : M jsval :=
  let cacheKey := "role:" ++ id in
  CacheService.getOrSet config cacheKey
    (role <- prisma.role_with_count id ;;
     match role with
     | None => throw (ApiError "Role not found" 404)
     | Some (r, n) =>
         perms <- permissions_value (Role.permissions r) ;;
         ret (JObj (role_json r perms
                    ++ [("_count", JObj [("users", JNum n)]); ("userCount", JNum n)]))
     end)
    None.

Definition getDefaultRole : M (option Role.t) :=
  prisma.findFirst prisma.role (fun r => Role.isDefault r && Role.isActive r).

Definition update (id : string) (data : UpdateRoleDto.t)
  : M (Role.t * jsval) :=
  role <- prisma.update prisma.role id (fun r =>
      Role.mk (Role.id r)
        (or_keep (UpdateRoleDto.name data) (Role.name r))
        (Role.slug r)
        (or_keep_opt (UpdateRoleDto.description data) (Role.description r))
        (or_keep_opt (permissions_text (UpdateRoleDto.permissions data)) (Role.permissions r))
        (Role.isDefault r)
        (or_keep (UpdateRoleDto.isActive data) (Role.isActive r))) ;;
  CacheService.delete ("role:" ++ id) ;;
  CacheService.deletePattern "roles:*" ;;
  perms <- permissions_value (Role.permissions role) ;;
  ret (role, perms).

Definition delete (id : string) : M string :=
  role <- prisma.role_with_count id ;;
  match role with
  | None => throw (ApiError "Role not found" 404)
  | Some (_, n) =>
      if n >? 0 then throw (ApiError "Cannot delete role with assigned users" 400)
      else
        prisma.delete prisma.role id ;;
        CacheService.delete ("role:" ++ id) ;;
        CacheService.deletePattern "roles:*" ;;
        ret "Role deleted successfully"
  end.

Definition set_isDefault (b : bool) (r : Role.t) : Role.t :=
  Role.mk (Role.id r) (Role.name r) (Role.slug r) (Role.description r)
          (Role.permissions r) b (Role.isActive r).

Definition setDefault (id : string) : M Role.t :=
  prisma.updateMany prisma.role Role.isDefault (set_isDefault false) ;;
  role <- prisma.update prisma.role id (set_isDefault true) ;;
  CacheService.deletePattern "roles:*" ;;
  ret role.

End RoleService.
End RoleService.

(** *** [AdminService] *)

Module AdminService.
Section AdminService.
Context `{Platform}.
Variable config : Config.
Variable schema : Schema.

Definition create (newId : string) (data : CreateAdminDto.t)
  : M Admin.t :=
  existingAdmin <- prisma.findUnique prisma.admin (fun a =>
      String.eqb (Admin.email a) (CreateAdminDto.email data)) ;;
  match existingAdmin with
  | Some _ => throw (ApiError "Admin with this email already exists" 400)
  | None =>
      let hashedPassword := hashPassword (CreateAdminDto.password data) in
      admin <- prisma.create prisma.admin
        (Admin.mk newId (CreateAdminDto.email data) hashedPassword
           (CreateAdminDto.name data) (CreateAdminDto.phone data) None
           (or_keep (CreateAdminDto.role data) (admin_role_default schema))
           (permissions_text (CreateAdminDto.permissions data))
           (admin_isActive_default schema)) ;;
      CacheService.deletePattern "admins:*" ;;
      ret admin
  end.

Definition update (id : string) (data : UpdateAdminDto.t)
  : M (Admin.t * jsval) :=
  admin <- prisma.update prisma.admin id (fun a =>
      Admin.mk (Admin.id a) (Admin.email a) (Admin.password a)
        (or_keep (UpdateAdminDto.name data) (Admin.name a))
        (or_keep_opt (UpdateAdminDto.phone data) (Admin.phone a))
        (or_keep_opt (UpdateAdminDto.avatar data) (Admin.avatar a))
        (Admin.role a)
        (or_keep_opt (permissions_text (UpdateAdminDto.permissions data)) (Admin.permissions a))
        (Admin.isActive a)) ;;
  CacheService.delete ("admin:" ++ id) ;;
  perms <- permissions_value (Admin.permissions admin) ;;
  ret (admin, perms).

Definition delete (id : string) : M string :=
  prisma.delete prisma.admin id ;;
  CacheService.delete ("admin:" ++ id) ;;
  CacheService.deletePattern "admins:*" ;;
  ret "Admin deleted successfully".

Definition set_isActive (b : bool) (u : User.t) : User.t :=
  User.mk (User.id u) (User.email u) (User.password u) (User.name u)
          (User.phone u) (User.avatar u) (User.roleId u) b.

Definition toggleUserStatus (userId : string) : M User.t :=
  user <- prisma.findUnique prisma.user (prisma.has_id prisma.user userId) ;;
  match user with
  | None => throw (ApiError "User not found" 404)
  | Some u =>
      updatedUser <- prisma.update prisma.user userId
                       (set_isActive (negb (User.isActive u))) ;;
      CacheService.delete ("user:" ++ userId) ;;
      ret updatedUser
  end.

End AdminService.
End AdminService.

(** *** [UserService] *)

Module UserService.
Section UserService.
Context `{Platform}.
Variable config : Config.
Variable schema : Schema.

Definition create (newId : string) (data : CreateUserDto.t)
  : M User.t :=
  existingUser <- prisma.findUnique prisma.user (fun u =>
      String.eqb (User.email u) (CreateUserDto.email data)) ;;
  match existingUser with
  | Some _ => throw (ApiError "User with this email already exists" 400)
  | None =>
      roleId <-
        (if opt_truthy (CreateUserDto.roleId data)
         then ret (or_keep (CreateUserDto.roleId data) "")
         else
           defaultRole <- RoleService.getDefaultRole ;;
           match defaultRole with
           | None =>
               throw (ApiError "No default role found. Please create a default role first." 400)
           | Some d => ret (Role.id d)
           end) ;;
      let hashedPassword := hashPassword (CreateUserDto.password data) in
      user <- prisma.create prisma.user
        (User.mk newId (CreateUserDto.email data) hashedPassword
           (CreateUserDto.name data) (CreateUserDto.phone data) None roleId
           (user_isActive_default schema)) ;;
      CacheService.deletePattern "users:*" ;;
      ret user
  end.

Definition update (id : string) (data : UpdateUserDto.t) : M User.t :=
  user <- prisma.update prisma.user id (fun u =>
      User.mk (User.id u) (User.email u) (User.password u)
        (or_keep (UpdateUserDto.name data) (User.name u))
        (or_keep_opt (UpdateUserDto.phone data) (User.phone u))
        (or_keep_opt (UpdateUserDto.avatar data) (User.avatar u))
        (or_keep (UpdateUserDto.roleId data) (User.roleId u))
        (User.isActive u)) ;;
  CacheService.delete ("user:" ++ id) ;;
  ret user.

Definition delete (id : string) : M string :=
  prisma.delete prisma.user id ;;
  CacheService.delete ("user:" ++ id) ;;
  CacheService.deletePattern "users:*" ;;
  ret "User deleted successfully".

Definition changeRole (userId roleId : string) : M User.t :=
  RoleService.getById config roleId ;;
  user <- prisma.update prisma.user userId (fun u =>
      User.mk (User.id u) (User.email u) (User.password u) (User.name u)
        (User.phone u) (User.avatar u) roleId (User.isActive u)) ;;
  CacheService.delete ("user:" ++ userId) ;;
  ret user.

End UserService.
End UserService.

(** ** The [jsonwebtoken] package *)

Module jwt.

Inductive VerifyError :=
| TokenExpiredError
| JsonWebTokenError (message : string).

(** [token.split('.')] *)
Fixpoint segments (s : string) : list string :=
  match s with
  | EmptyString => [""]
  | String c rest =>
      if Ascii.eqb c "." then "" :: segments rest
      else
        match segments rest with
        | seg :: more => String c seg :: more
        | [] => [String c ""]
        end
  end.

(** base64url of [{"alg":"HS256","typ":"JWT"}] *)
Definition header : string := "eyJhbGciOiJIUzI1NiIsInR5cCI6IkpXVCJ9".

Section jwt.
Context `{Platform}.

(** Modelled from the spec: [jwt.sign] of the jsonwebtoken package, which
    [jwt.util.ts] imports and which is not under src/.  Section 3 makes the
    token "a signed, time-bounded claim set encoding exactly the
    Principal's fields [...] plus an issued-at and expiry", section 4.1 an
    "opaque string encoding claims plus expiry now + ttl,
    integrity-protected with a shared secret".  The string has the three
    dot-separated segments of a compact JWS: header, claims, tag. *)
Definition sign (payload : JwtPayload.t) (secret : string) (expiresIn : Z) (t : Z)
  : string :=
  let input :=
    header ++ "." ++ segment_encode (mkPrincipal payload (Some t) (Some (t + expiresIn))) in
  input ++ "." ++ hmac secret input.

(** Modelled from the spec: [jwt.verify] of the jsonwebtoken package, not
    under src/.  Section 4.1: it "checks signature integrity and expiry;
    returns the decoded claims only if both hold".  The package reports
    which check failed through the class and message of the error it
    throws. *)
Definition verify (token secret : string) (t : Z) : Principal + VerifyError :=
  match segments token with
  | [h; p; s] =>
      match segment_decode p with
      | None => inr (JsonWebTokenError "invalid token")
      | Some decoded =>
          if String.eqb s (hmac secret (h ++ "." ++ p)) then
            match exp decoded with
            | Some e =>
                if e <=? t then inr TokenExpiredError else inl decoded
            | None => inl decoded
            end
          else inr (JsonWebTokenError "invalid signature")
      end
  | _ => inr (JsonWebTokenError "jwt malformed")
  end.

End jwt.
End jwt.

(** ** [src/utils/jwt.util.ts] *)

Section JwtUtil.
Context `{Platform}.
Variable config : Config.

Definition generateToken (payload : JwtPayload.t) : M string :=
  t <- now ;;
  ret (jwt.sign payload (jwt_secret config) (jwt_expiresIn config) t).

(** ['30d'] *)
Definition generateRefreshToken (payload : JwtPayload.t) : M string :=
  t <- now ;;
  ret (jwt.sign payload (jwt_secret config) (30 * 24 * 60 * 60) t).

Definition verifyToken (token : string) : M (option Principal) :=
  t <- now ;;
  match jwt.verify token (jwt_secret config) t with
  | inl decoded => ret (Some decoded)
  | inr _ => ret None
  end.

Definition extractTokenFromHeader (authHeader : option string) : option string :=
  match authHeader with
  | None => None
  | Some h =>
      if negb (truthy_string h) || negb (String.prefix "Bearer " h) then None
      else Some (String.substring 7 (String.length h - 7) h)
  end.

End JwtUtil.

(** ** [auth.middleware.ts] *)

(** The part of an Express request that the middleware reads and writes. *)
Record Request := mkRequest {
  authorization : option string;   (* [req.headers.authorization] *)
  x_api_key : option string;       (* [req.headers['x-api-key']] *)
  user : option Principal;         (* [req.user] *)
}.

Definition set_user (p : Principal) (req : Request) : Request :=
  mkRequest (authorization req) (x_api_key req) (Some p).

(** What a middleware does with the request: call [next()], or answer. *)
Inductive Outcome :=
| Next (req : Request)
| Respond (status : Z) (message : string).

(** [response.helper.ts] *)
Definition sendUnauthorized (message : string) : Outcome := Respond 401 message.
Definition sendForbidden (message : string) : Outcome := Respond 403 message.

Definition system_principal : Principal :=
  mkPrincipal (JwtPayload.mk "system" "api@system.local" "api" None "admin") None None.

Definition session_principal (s : Session.t) : Principal :=
  mkPrincipal (JwtPayload.mk (Session.userId s) "api-user" "api" None (Session.userType s))
              None None.

(** [array.includes(x)] on strings *)
Definition includes (l : list string) (x : string) : bool :=
  List.existsb (String.eqb x) l.

(** [permissions.includes(perm)] on whatever [JSON.parse] returned: array
    membership, substring search on a string, and a [TypeError] on a value
    that has no [includes]. *)
Definition js_includes (permissions : jsval) (perm : string) : M bool :=
  match permissions with
  | JArr items =>
      ret (List.existsb
             (fun v => match v with JStr s => String.eqb s perm | _ => false end)
             items)
  | JStr s =>
      ret (match String.index 0 perm s with Some _ => true | None => false end)
  | _ => throw TypeError
  end.

(** [xs.every(test)] *)
Fixpoint every {A} (xs : list A) (test : A -> M bool) : M bool :=
  match xs with
  | [] => ret true
  | x :: rest =>
      b <- test x ;;
      if b then every rest test else ret false
  end.

Module auth.
Section auth.
Context `{Platform}.
Variable config : Config.

Definition authenticate (req : Request) : M Outcome :=
  match extractTokenFromHeader (authorization req) with
  | None => ret (sendUnauthorized "Access token is required")
  | Some token =>
      if negb (truthy_string token) then ret (sendUnauthorized "Access token is required")
      else
        decoded <- verifyToken config token ;;
        match decoded with
        | None => ret (sendUnauthorized "Invalid or expired token")
        | Some d => ret (Next (set_user d req))
        end
  end.

(** The session lookup of both key-based variants, with its [try]/[catch]:
    the matching row, if there is one and the database answers. *)
Definition find_session (apiKey : string) : M (option Session.t) :=
  try_catch
    (t <- now ;;
     prisma.findFirst prisma.session (fun s =>
       String.eqb (Session.token s) apiKey && (t <=? Session.expiresAt s)))
    (fun _ => ret None).

Definition authenticateApiKey (req : Request) : M Outcome :=
  if negb (opt_truthy (x_api_key req)) then ret (sendUnauthorized "API key is required")
  else
    let apiKey_ := or_keep (x_api_key req) "" in
    if truthy_string (apiKey config) && String.eqb apiKey_ (apiKey config)
    then ret (Next (set_user system_principal req))
    else
      session <- find_session apiKey_ ;;
      match session with
      | Some s => ret (Next (set_user (session_principal s) req))
      | None => ret (sendUnauthorized "Invalid API key")
      end.

(** The bearer attempt of [multiAuth] and [optionalAuth]. *)
Definition try_bearer (req : Request) : M (option Principal) :=
  match extractTokenFromHeader (authorization req) with
  | None => ret None
  | Some token =>
      if truthy_string token then verifyToken config token else ret None
  end.

Definition multiAuth (req : Request) : M Outcome :=
  decoded <- try_bearer req ;;
  match decoded with
  | Some d => ret (Next (set_user d req))
  | None =>
      if opt_truthy (x_api_key req) then
        let apiKey_ := or_keep (x_api_key req) "" in
        if truthy_string (apiKey config) && String.eqb apiKey_ (apiKey config)
        then ret (Next (set_user system_principal req))
        else
          session <- find_session apiKey_ ;;
          match session with
          | Some s => ret (Next (set_user (session_principal s) req))
          | None =>
              ret (sendUnauthorized "Authentication required. Provide JWT token or API key")
          end
      else ret (sendUnauthorized "Authentication required. Provide JWT token or API key")
  end.

Definition authorizeType (allowedTypes : list string) (req : Request) : Outcome :=
  match user req with
  | None => sendUnauthorized "Authentication required"
  | Some u =>
      if negb (includes allowedTypes (JwtPayload.type (claims u)))
      then sendForbidden "You do not have permission to access this resource"
      else Next req
  end.

Definition authorizeRole (allowedRoles : list string) (req : Request) : Outcome :=
  match user req with
  | None => sendUnauthorized "Authentication required"
  | Some u =>
      if negb (includes allowedRoles (JwtPayload.role (claims u)))
      then sendForbidden "You do not have permission to access this resource"
      else Next req
  end.

Definition authorizePermission (requiredPermissions : list string) (req : Request)
  : M Outcome :=
  match user req with
  | None => ret (sendUnauthorized "Authentication required")
  | Some u =>
      if String.eqb (JwtPayload.role (claims u)) "api" then ret (Next req)
      else
        try_catch
          (found <- prisma.user_with_role (JwtPayload.id (claims u)) ;;
           match found with
           | None => ret (sendUnauthorized "User not found")
           | Some (_, role) =>
               text <- match role with
                       | Some r => ret (Role.permissions r)
                       | None => throw TypeError
                       end ;;
               permissions <- permissions_value text ;;
               hasAllPermissions <-
                 every requiredPermissions (fun perm => js_includes permissions perm) ;;
               if negb hasAllPermissions
               then ret (sendForbidden "Insufficient permissions")
               else ret (Next req)
           end)
          (fun _ => ret (sendForbidden "Permission check failed"))
  end.

Definition optionalAuth (req : Request) : M Outcome :=
  decoded <- try_bearer req ;;
  match decoded with
  | Some d => ret (Next (set_user d req))
  | None => ret (Next req)
  end.

End auth.
End auth.

(** ** A concrete platform for the examples *)

Module Demo.

Definition quote : string := String "034" "".

(** [JSON.stringify] without string escapes *)
Fixpoint print (v : jsval) : string :=
  match v with
  | JNull => "null"
  | JBool b => if b then "true" else "false"
  | JNum n => pretty n
  | JStr s => quote ++ s ++ quote
  | JArr items => "[" ++ String.concat "," (List.map print items) ++ "]"
  | JObj fields =>
      "{" ++ String.concat ","
               (List.map (fun '(k, x) => quote ++ k ++ quote ++ ":" ++ print x) fields)
          ++ "}"
  end.

(** The JSON texts that the examples read back. *)
Definition texts : list jsval :=
  [ JNull; JBool false; JBool true; JNum 0; JNum 1; JNum 42; JStr ""; JStr "ok";
    JArr []; JArr [JStr "read:users"];
    JArr [JStr "read:users"; JStr "read:comments"];
    JArr [JStr "read:users"; JStr "write:comments"];
    JObj [("id", JStr "r1"); ("isDefault", JBool false)] ].

Definition parse (text : string) : option jsval :=
  List.find (fun v => String.eqb (print v) text) texts.

Definition opt_num (x : option Z) : string :=
  match x with Some n => pretty n | None => "-" end.

(** A dot-free rendering of the claims segment. *)
Definition encode (p : Principal) : string :=
  JwtPayload.id (claims p) ++ "_" ++ JwtPayload.role (claims p) ++ "_"
  ++ JwtPayload.type (claims p) ++ "_" ++ opt_num (iat p) ++ "_" ++ opt_num (exp p).

Definition alice : JwtPayload.t :=
  JwtPayload.mk "u1" "alice@example.com" "editor" (Some "r1") "user".

Definition root : JwtPayload.t :=
  JwtPayload.mk "a1" "root@example.com" "SUPER_ADMIN" None "admin".

Definition decodable : list Principal :=
  [ mkPrincipal alice (Some 1000) (Some 4600);
    mkPrincipal root (Some 1000) (Some 4600);
    mkPrincipal alice (Some 0) (Some 10) ].

Definition decode (segment : string) : option Principal :=
  List.find (fun p => String.eqb (encode p) segment) decodable.

Fixpoint undot (s : string) : string :=
  match s with
  | EmptyString => EmptyString
  | String c rest => String (if Ascii.eqb c "." then "~"%char else c) (undot rest)
  end.

Definition tag (secret input : string) : string :=
  "tag-" ++ secret ++ "-" ++ undot input.

Definition platform : Platform :=
  {| JSON_stringify := print;
     JSON_parse := parse;
     hashPassword := fun s => "hash:" ++ s;
     segment_encode := encode;
     segment_decode := decode;
     hmac := tag |}.

Definition config : Config := mkConfig "static-key" "jwt-secret" 3600 3600.

Definition schema : Schema := mkSchema true "ADMIN" true true.

Definition empty_world : World :=
  mkWorld [] [] [] [] false ∅ true false 1000 [].

End Demo.

(** ** Vocabulary of the properties *)

(** What [redis.get] answers in a world: the text under the key, unless
    the key is absent or has expired. *)
Definition stored (key : string) (w : World) : option string :=
  match store w !! key with
  | Some e => if redis.live (clock w) e then Some (e_data e) else None
  | None => None
  end.

(** A producer that leaves a mark in the trace each time it runs. *)
Definition marked (label : string) (v : jsval) : M jsval :=
  emit (Called label) ;; ret v.

(** The path of [getOrSet] that runs the producer: produce, write back,
    return. *)
Definition compute_and_store `{Platform} (config : Config)
    (key : string) (fetcher : M jsval) (ttl : option Z) : M jsval :=
  data <- fetcher ;;
  CacheService.set config key data ttl ;;
  ret data.

(** Only the Redis keys and the trace differ between the two worlds. *)
Definition cache_step (w w' : World) : Prop :=
  roles w' = roles w /\ admins w' = admins w /\ users w' = users w
  /\ sessions w' = sessions w /\ dbDown w' = dbDown w /\ clock w' = clock w
  /\ isConnected w' = isConnected w /\ redisDown w' = redisDown w.

(** The roles that hold [isDefault = true]. *)
Definition defaults (w : World) : list Role.t :=
  List.filter Role.isDefault (roles w).

(** *** Worlds of the examples *)

Definition flag_world : World :=
  with_store (<["feature:beta" := mkEntry "false" None]> ∅) Demo.empty_world.

Definition offline_world : World :=
  mkWorld [] [] [] [] false ∅ false true 0 [].

Definition editor_role : Role.t :=
  Role.mk "r1" "Editor" "editor" None
          (Some (Demo.print (JArr [JStr "read:users"; JStr "read:comments"])))
          true true.

(** The permission set of a role, as [authorizePermission] reads it from
    the [permissions] column: empty when the column is null or empty,
    otherwise the array that the text parses to. *)
Definition permission_set `{Platform} (text : option string) (items : list jsval)
  : Prop :=
  (opt_truthy text = false /\ items = [])
  \/ (exists s, text = Some s /\ truthy_string s = true
                /\ JSON_parse s = Some (JArr items)).

(** [items.includes(perm)] *)
Definition holds (items : list jsval) (perm : string) : bool :=
  List.existsb (fun v => match v with JStr s => String.eqb s perm | _ => false end)
               items.

(** A row that the session lookup can return. *)
Definition live_session (key : string) (w : World) (s : Session.t) : Prop :=
  s ∈ sessions w /\ Session.token s = key /\ clock w <= Session.expiresAt s.

Definition request_of (u : Principal) : Request := mkRequest None None (Some u).

Definition alice_user : User.t :=
  User.mk "u1" "alice@example.com" "hash:pw" "Alice" None None "r1" true.

(** Alice, an editor who may read users and comments, in the database. *)
Definition alice_world : World :=
  with_users [alice_user] (with_roles [editor_role] Demo.empty_world).

Definition alice_principal : Principal := mkPrincipal Demo.alice None None.


(** A request with a bearer token that does not verify and the configured
    static key. *)
Definition key_and_bad_bearer : Request :=
  mkRequest (Some "Bearer not-a-token") (Some "static-key") None.

Definition key_only : Request := mkRequest None (Some "static-key") None.

Definition no_key_config : Config := mkConfig "" "jwt-secret" 3600 3600.

Definition session_k1 : Session.t := Session.mk "k1" "u1" "user" 2000.

Definition session_world : World := with_sessions [session_k1] Demo.empty_world.

Definition session_request : Request := mkRequest None (Some "k1") None.

(** *** Tokens *)

(** The claim set that signing [payload] at time [t] for [ttl] seconds puts
    in the token. *)
Definition signed_claims (payload : JwtPayload.t) (t ttl : Z) : Principal :=
  mkPrincipal payload (Some t) (Some (t + ttl)).

(** No character of the string is a dot. *)
Fixpoint dotfree (s : string) : bool :=
  match s with
  | EmptyString => true
  | String c rest => negb (Ascii.eqb c ".") && dotfree rest
  end.

(** The second string is the first with exactly one character replaced by
    a different one. *)
Fixpoint altered1 (s s' : string) : bool :=
  match s, s' with
  | String c r, String d r' =>
      if Ascii.eqb c d then altered1 r r' else String.eqb r r'
  | _, _ => false
  end.

(** The part of a three-segment token that the tag is computed over. *)
Definition signing_input (token : string) : string :=
  match jwt.segments token with
  | [h; p; _] => h ++ "." ++ p
  | _ => ""
  end.

(** Alice's token, signed at time 1000 for 3600 seconds, and the same token
    with the first character of her id changed. *)
Definition alice_token : string :=
  @jwt.sign Demo.platform Demo.alice "jwt-secret" 3600 1000.

Definition alice_token_altered : string :=
  "eyJhbGciOiJIUzI1NiIsInR5cCI6IkpXVCJ9.v1_editor_user_1000_4600.tag-jwt-secret-eyJhbGciOiJIUzI1NiIsInR5cCI6IkpXVCJ9~u1_editor_user_1000_4600".

Definition later_world : World :=
  mkWorld [] [] [] [] false ∅ true false 4600 [].

(** *** Write paths *)

(** The entity write paths of the three services. *)
Inductive WritePath :=
| RoleCreate (newId : string) (data : CreateRoleDto.t)
| RoleUpdate (id : string) (data : UpdateRoleDto.t)
| RoleDelete (id : string)
| RoleSetDefault (id : string)
| AdminCreate (newId : string) (data : CreateAdminDto.t)
| AdminUpdate (id : string) (data : UpdateAdminDto.t)
| AdminDelete (id : string)
| AdminToggleUserStatus (userId : string)
| UserCreate (newId : string) (data : CreateUserDto.t)
| UserUpdate (id : string) (data : UpdateUserDto.t)
| UserDelete (id : string)
| UserChangeRole (userId roleId : string).

Definition run `{Platform} (config : Config) (schema : Schema) (p : WritePath)
  : M unit :=
  match p with
  | RoleCreate newId data => RoleService.create schema newId data ;; ret tt
  | RoleUpdate id data => RoleService.update id data ;; ret tt
  | RoleDelete id => RoleService.delete id ;; ret tt
  | RoleSetDefault id => RoleService.setDefault id ;; ret tt
  | AdminCreate newId data => AdminService.create schema newId data ;; ret tt
  | AdminUpdate id data => AdminService.update id data ;; ret tt
  | AdminDelete id => AdminService.delete id ;; ret tt
  | AdminToggleUserStatus userId => AdminService.toggleUserStatus userId ;; ret tt
  | UserCreate newId data => UserService.create schema newId data ;; ret tt
  | UserUpdate id data => UserService.update id data ;; ret tt
  | UserDelete id => UserService.delete id ;; ret tt
  | UserChangeRole userId roleId => UserService.changeRole config userId roleId ;; ret tt
  end.

(** The cache key of the entity that a path writes, and the pattern of the
    listings derived from its table. *)
Definition entity_key (p : WritePath) : string :=
  match p with
  | RoleCreate id _ | RoleUpdate id _ | RoleDelete id | RoleSetDefault id =>
      "role:" ++ id
  | AdminCreate id _ | AdminUpdate id _ | AdminDelete id => "admin:" ++ id
  | AdminToggleUserStatus id | UserCreate id _ | UserUpdate id _ | UserDelete id
  | UserChangeRole id _ => "user:" ++ id
  end.

Definition collection_pattern (p : WritePath) : string :=
  match p with
  | RoleCreate _ _ | RoleUpdate _ _ | RoleDelete _ | RoleSetDefault _ => "roles:*"
  | AdminCreate _ _ | AdminUpdate _ _ | AdminDelete _ => "admins:*"
  | AdminToggleUserStatus _ | UserCreate _ _ | UserUpdate _ _ | UserDelete _
  | UserChangeRole _ _ => "users:*"
  end.

Definition is_mutation (e : Event) : bool :=
  match e with DbWrite _ _ => true | _ => false end.

Definition is_invalidation (e : Event) : bool :=
  match e with Redis (DEL _) | Redis (KEYS _) => true | _ => false end.

Definition is_del (key : string) (e : Event) : bool :=
  match e with Redis (DEL k) => String.eqb k key | _ => false end.

Definition is_keys (pattern : string) (e : Event) : bool :=
  match e with Redis (KEYS p) => String.eqb p pattern | _ => false end.

(** From the first invalidation on, the database is not written. *)
Fixpoint settled (evs : list Event) : bool :=
  match evs with
  | [] => true
  | e :: rest =>
      if is_invalidation e then List.forallb (fun x => negb (is_mutation x)) rest
      else settled rest
  end.

(** The database is written, and only before the cache is invalidated. *)
Definition mutation_first (evs : list Event) : bool :=
  List.existsb is_mutation evs && settled evs.

Definition invalidates_key (key : string) (evs : list Event) : bool :=
  List.existsb (is_del key) evs.

Definition invalidates_pattern (pattern : string) (evs : list Event) : bool :=
  List.existsb (is_keys pattern) evs.

(** The key is deleted, and after that the pattern. *)
Fixpoint key_then_pattern (key pattern : string) (evs : list Event) : bool :=
  match evs with
  | [] => false
  | e :: rest =>
      if is_del key e then invalidates_pattern pattern rest
      else key_then_pattern key pattern rest
  end.

(** The invalidation commands that each write path sends (what they
    remove is a matter of the store, not of the trace): the [DEL] of the
    entity key and then the [KEYS] of the collection pattern, for the
    update of a role and for every delete; the [KEYS] of the pattern, for
    the paths that create a record and for [setDefault]; the [DEL] of the
    entity key, for the other updates. *)
Definition invalidation (p : WritePath) (evs : list Event) : bool :=
  match p with
  | RoleUpdate _ _ | RoleDelete _ | AdminDelete _ | UserDelete _ =>
      key_then_pattern (entity_key p) (collection_pattern p) evs
  | RoleCreate _ _ | AdminCreate _ _ | UserCreate _ _ | RoleSetDefault _ =>
      invalidates_pattern (collection_pattern p) evs
  | AdminUpdate _ _ | AdminToggleUserStatus _ | UserUpdate _ _ | UserChangeRole _ _ =>
      invalidates_key (entity_key p) evs
  end.

(** The role r1 while it is not the default, alone in the table, and
    nothing in Redis. *)
Definition plain_editor : Role.t := RoleService.set_isDefault false editor_role.

Definition editor_only_world : World := with_roles [plain_editor] Demo.empty_world.

(** The view of r1 that [getById] builds in that world. *)
Definition editor_view : jsval :=
  JObj (RoleService.role_json plain_editor
          (JArr [JStr "read:users"; JStr "read:comments"])
        ++ [("_count", JObj [("users", JNum 0)]); ("userCount", JNum 0)]).

(** The demo platform, reading back that view as well. *)
Definition view_platform : Platform :=
  {| JSON_stringify := Demo.print;
     JSON_parse := fun text =>
       List.find (fun v => String.eqb (Demo.print v) text) (editor_view :: Demo.texts);
     hashPassword := fun s => "hash:" ++ s;
     segment_encode := Demo.encode;
     segment_decode := Demo.decode;
     hmac := Demo.tag |}.

(** [value[name]] on an object *)
Definition field (name : string) (v : jsval) : option jsval :=
  match v with
  | JObj fields =>
      option_map snd (List.find (fun kv => String.eqb (fst kv) name) fields)
  | _ => None
  end.

(** A change of the name of a role. *)
Definition new_name_dto : UpdateRoleDto.t :=
  UpdateRoleDto.mk (Some "Chief") None None None.

(** The same store with a cached listing of the roles beside it. *)
Definition with_listing (w : World) : World :=
  with_store (<["roles:page:1" := mkEntry "[]" None]> (store w)) w.

(** The second world is the first after the events [evs], and the adapter
    reports the same readiness. *)
Definition steps (w w' : World) (evs : list Event) : Prop :=
  trace w' = (trace w ++ evs)%list /\ isConnected w' = isConnected w.

(** Writing the rows of a table touches neither the trace nor Redis. *)
Definition plain_table {A} (tb : prisma.Table A) : Prop :=
  forall l w,
    trace (prisma.put tb l w) = trace w
    /\ isConnected (prisma.put tb l w) = isConnected w.

(** Neither a database write nor a cache invalidation. *)
Definition quiet (e : Event) : bool :=
  negb (is_mutation e) && negb (is_invalidation e).

Definition del_events (ks : list string) : list Event :=
  List.map (fun k => Redis (DEL k)) ks.

Definition root_admin : Admin.t :=
  Admin.mk "a1" "root@example.com" "hash:pw" "root" None None "SUPER_ADMIN" None true.

Definition admin_world : World := with_admins [root_admin] Demo.empty_world.


(** The database rejects every call. *)
Definition db_down_world : World :=
  mkWorld [editor_role] [] [alice_user] [] true ∅ true false 1000 [].


Definition api_principal : Principal := session_principal session_k1.

(** ** More of the services *)

Module LoginDto.
Record t := mk {
  email : string;
  password : string;
}.
End LoginDto.

(** [user.findUnique({ where: { email }, include: { role: ... } })] *)
Definition user_by_email_with_role (email : string)
  : M (option (User.t * option Role.t)) :=
  prisma.query (DbRead "user") (fun w =>
    (Ok (match List.find (fun u => String.eqb (User.email u) email) (users w) with
         | None => None
         | Some u =>
             Some (u, List.find (prisma.has_id prisma.role (User.roleId u)) (roles w))
         end), w)).

Section MoreServices.
Context `{Platform}.
Variable config : Config.

(** [comparePassword] of [utils/password.util] (bcrypt): the plain password
    against the stored hash. *)
Variable comparePassword : string -> string -> bool.

Definition AdminService_login (data : LoginDto.t) : M (Admin.t * string * string) :=
  admin <- prisma.findUnique prisma.admin (fun a =>
      String.eqb (Admin.email a) (LoginDto.email data)) ;;
  match admin with
  | None => throw (ApiError "Invalid credentials" 401)
  | Some a =>
      if negb (Admin.isActive a) then throw (ApiError "Invalid credentials" 401)
      else if negb (comparePassword (LoginDto.password data) (Admin.password a))
      then throw (ApiError "Invalid credentials" 401)
      else
        let payload :=
          JwtPayload.mk (Admin.id a) (Admin.email a) (Admin.role a) None "admin" in
        token <- generateToken config payload ;;
        refreshToken <- generateRefreshToken config payload ;;
        ret (a, token, refreshToken)
  end.

Definition UserService_login (data : LoginDto.t) : M (User.t * string * string) :=
  user <- user_by_email_with_role (LoginDto.email data) ;;
  match user with
  | None => throw (ApiError "Invalid credentials" 401)
  | Some (u, role) =>
      if negb (User.isActive u) then throw (ApiError "Invalid credentials" 401)
      else if negb (comparePassword (LoginDto.password data) (User.password u))
      then throw (ApiError "Invalid credentials" 401)
      else
        match role with
        | None => throw TypeError
        | Some r =>
            let payload :=
              JwtPayload.mk (User.id u) (User.email u) (Role.slug r)
                            (Some (Role.id r)) "user" in
            token <- generateToken config payload ;;
            refreshToken <- generateRefreshToken config payload ;;
            ret (u, token, refreshToken)
        end
  end.

Definition admin_json (a : Admin.t) (perms : jsval) : list (string * jsval) :=
  [ ("id", JStr (Admin.id a)); ("email", JStr (Admin.email a));
    ("name", JStr (Admin.name a)); ("phone", opt_str (Admin.phone a));
    ("avatar", opt_str (Admin.avatar a)); ("role", JStr (Admin.role a));
    ("permissions", perms) ].

Definition AdminService_getById (id : string) : M jsval :=
  let cacheKey := "admin:" ++ id in
  CacheService.getOrSet config cacheKey
    (admin <- prisma.findUnique prisma.admin (prisma.has_id prisma.admin id) ;;
     match admin with
     | None => throw (ApiError "Admin not found" 404)
     | Some a =>
         perms <- permissions_value (Admin.permissions a) ;;
         ret (JObj (admin_json a perms))
     end)
    None.

Definition UserService_getById (id : string) : M jsval :=
  let cacheKey := "user:" ++ id in
  CacheService.getOrSet config cacheKey
    (user <- prisma.user_with_role id ;;
     match user with
     | None => throw (ApiError "User not found" 404)
     | Some (u, role) =>
         match role with
         | None => throw TypeError
         | Some r =>
             perms <- permissions_value (Role.permissions r) ;;
             ret (JObj [ ("id", JStr (User.id u)); ("email", JStr (User.email u));
                         ("name", JStr (User.name u)); ("phone", opt_str (User.phone u));
                         ("avatar", opt_str (User.avatar u));
                         ("role", JObj [ ("id", JStr (Role.id r));
                                         ("name", JStr (Role.name r));
                                         ("slug", JStr (Role.slug r));
                                         ("permissions", perms) ]) ])
         end
     end)
    None.

End MoreServices.

(** ** [simpleRateLimit] of [request.middleware.ts] *)

Module RateLimit.

(** The numbers of the source are IEEE doubles.  The model is over whole
    numbers: [Date.now()], the window, the maximum and the counts are
    whole, and on whole numbers the comparisons of the code are exact,
    so the verdicts of the model are those of the code.  The sum
    [now + windowMs] and the quotient behind [retryAfter] are those of
    the code as long as the numbers stay within the safe integers, where
    double arithmetic on whole numbers does not round; beyond them the
    code rounds and the model does not.  The property that names these
    values carries the bound. *)

(** [Number.MAX_SAFE_INTEGER] *)
Definition max_safe_integer : Z := 2 ^ 53 - 1.

Definition safe_integer (z : Z) : Prop :=
  - max_safe_integer <= z <= max_safe_integer.

(** An entry of the [requestCounts] map; times are in milliseconds. *)
Record record := mkRecord { count : Z; resetTime : Z }.

Inductive Verdict :=
| Pass                         (* [next()] *)
| TooMany (retryAfter : Z).    (* status 429 *)

(** [Math.ceil(ms / 1000)] on a whole number of milliseconds.  For
    [0 <= ms <= max_safe_integer] the double quotient is below [2 ^ 44],
    where doubles are at most [2 ^ -9] apart, and a quotient that is not
    whole is at least [1 / 1000] away from the whole numbers, so rounding
    the quotient does not move it across one: the ceiling of the double
    is the ceiling of the exact quotient. *)
Definition ceil_seconds (ms : Z) : Z := - ((- ms) / 1000).

(** One request from [ip] at time [t]: the verdict and the map
    afterwards. *)
Definition simpleRateLimit (maxRequests windowMs : Z) (ip : string) (t : Z)
    (requestCounts : gmap string record) : Verdict * gmap string record :=
  match requestCounts !! ip with
  | None => (Pass, <[ip := mkRecord 1 (t + windowMs)]> requestCounts)
  | Some r =>
      if t >? resetTime r
      then (Pass, <[ip := mkRecord 1 (t + windowMs)]> requestCounts)
      else if count r >=? maxRequests
      then (TooMany (ceil_seconds (resetTime r - t)), requestCounts)
      else (Pass, <[ip := mkRecord (count r + 1) (resetTime r)]> requestCounts)
  end.

(** The requests of one address at the given times, in order. *)
Fixpoint serve (maxRequests windowMs : Z) (ip : string) (times : list Z)
    (requestCounts : gmap string record) : list Verdict * gmap string record :=
  match times with
  | [] => ([], requestCounts)
  | t :: rest =>
      let (v, m1) := simpleRateLimit maxRequests windowMs ip t requestCounts in
      let (vs, m2) := serve maxRequests windowMs ip rest m1 in
      (v :: vs, m2)
  end.

Definition passed (v : Verdict) : bool :=
  match v with Pass => true | TooMany _ => false end.

End RateLimit.

(** ** [src/middleware/cache.middleware.ts] *)

(** What the route handler hands to [res.json]: the status set on the
    response and the body. *)
Record HttpResponse := mkResponse { statusCode : Z; payload : jsval }.

(** How the lookup of [cacheMiddleware] ends. *)
Inductive Lookup :=
| Hit (parsed : jsval)
| Miss
| Failed.

Section CacheMiddleware.
Context `{Platform}.
Variable config : Config.

(** The [try] block up to the decision, with its [catch]. *)
Definition lookup_response (cacheKey : string) : M Lookup :=
  try_catch
    (cachedResponse <- redis.get cacheKey ;;
     match cachedResponse with
     | Some d =>
         if truthy_string d then parsed <- JSON.parse d ;; ret (Hit parsed)
         else ret Miss
     | None => ret Miss
     end)
    (fun _ => ret Failed).

(** The replacement of [res.json]: a response with a 2xx status is written
    to Redis (the promise is not awaited and its rejection is only logged;
    here the write completes at once), then the body goes out. *)
Definition caching_json (cacheKey : string) (ttlSeconds : option Z)
    (r : HttpResponse) : M HttpResponse :=
  (if (200 <=? statusCode r) && (statusCode r <? 300)
   then try_catch
          (redis.set cacheKey (JSON.stringify (payload r))
                     (num_or ttlSeconds (cache_ttl config)))
          (fun _ => ret tt)
   else ret tt) ;;
  ret r.

(** [cacheMiddleware(ttlSeconds)] in front of a handler [next] that answers
    through [res.json] once. *)
Definition cacheMiddleware (ttlSeconds : option Z) (method originalUrl : string)
    (next : M HttpResponse) : M HttpResponse :=
  if negb (String.eqb method "GET") then next
  else
    ready <- redis.isReady ;;
    if negb ready then next
    else
      let cacheKey := "cache:" ++ originalUrl in
      found <- lookup_response cacheKey ;;
      match found with
      | Hit parsed => ret (mkResponse 200 parsed)
      | Miss => r <- next ;; caching_json cacheKey ttlSeconds r
      | Failed => next
      end.

End CacheMiddleware.

(** ** Routes: middleware in a row *)

(** [response.helper.ts]: the status and the JSON envelope.  A field that
    is [undefined] is left out by [res.json]. *)
Definition sendSuccess (data : jsval) (message : string) (status : Z) : HttpResponse :=
  mkResponse status
    (JObj [("success", JBool true); ("message", JStr message); ("data", data)]).

Definition sendError (message : string) (status : Z) : HttpResponse :=
  mkResponse status (JObj [("success", JBool false); ("message", JStr message)]).

(** Express runs the next middleware of a route only when the one before
    called [next()]. *)
Definition and_then (o : Outcome) (k : Request -> M Outcome) : M Outcome :=
  match o with
  | Next req => k req
  | Respond _ _ => ret o
  end.

Section Routes.
Context `{Platform}.
Variable config : Config.

(** [router.post('/create', authenticate, authorizeType('admin'),
    authorizeRole('SUPER_ADMIN'), ...)] of [admin.routes.ts], up to the
    validation of the body. *)
Definition admin_create_guard (req : Request) : M Outcome :=
  o <- auth.authenticate config req ;;
  and_then o (fun r1 =>
    and_then (auth.authorizeType ["admin"] r1) (fun r2 =>
      ret (auth.authorizeRole ["SUPER_ADMIN"] r2))).

(** [getProfile] of the admin controller *)
Definition getProfile (req : Request) : M HttpResponse :=
  match user req with
  | None => ret (sendError "Unauthorized" 401)
  | Some u =>
      admin <- AdminService_getById config (JwtPayload.id (claims u)) ;;
      ret (sendSuccess admin "Profile retrieved successfully" 200)
  end.

(** [router.get('/profile', authenticate, authorizeType('admin'),
    cacheMiddleware(60), adminController.getProfile)] *)
Definition admin_profile_route (originalUrl : string) (req : Request)
  : M HttpResponse :=
  o <- auth.authenticate config req ;;
  match o with
  | Respond status message => ret (sendError message status)
  | Next r1 =>
      match auth.authorizeType ["admin"] r1 with
      | Respond status message => ret (sendError message status)
      | Next r2 => cacheMiddleware config (Some 60) "GET" originalUrl (getProfile r2)
      end
  end.

End Routes.

(** ** Vocabulary of the further properties *)

(** The same world at another time. *)
Definition with_clock (t : Z) (w : World) : World :=
  mkWorld (roles w) (admins w) (users w) (sessions w) (dbDown w)
          (store w) (isConnected w) (redisDown w) t (trace w).

(** The users that reference a role. *)
Definition members (roleId : string) (w : World) : list User.t :=
  List.filter (fun u => String.eqb (User.roleId u) roleId) (users w).

(** A request with a bearer token and nothing else. *)
Definition bearer (token : string) : Request :=
  mkRequest (Some ("Bearer " ++ token)) None None.

(** What the token properties ask of the platform for one claim set: the
    claims segment decodes to what was encoded, and neither that segment
    nor the tag holds a dot. *)
Definition codec_ok `{Platform} (secret : string) (payload : JwtPayload.t)
    (t ttl : Z) : Prop :=
  segment_decode (segment_encode (signed_claims payload t ttl))
    = Some (signed_claims payload t ttl)
  /\ dotfree (segment_encode (signed_claims payload t ttl)) = true
  /\ dotfree (hmac secret
               (jwt.header ++ "." ++ segment_encode (signed_claims payload t ttl)))
     = true.

(** ['30d'] in seconds *)
Definition thirty_days : Z := 30 * 24 * 60 * 60.

(** The claims of an admin row, as [login] builds them. *)
Definition admin_claims (a : Admin.t) : JwtPayload.t :=
  JwtPayload.mk (Admin.id a) (Admin.email a) (Admin.role a) None "admin".

(** A computation that neither reads nor changes the world. *)
Definition stateless {A} (c : M A) : Prop :=
  exists r, forall w, c w = (r, w).

(** A key that [cacheMiddleware] does not use. *)
Definition service_key (key : string) : Prop :=
  forall url, key <> "cache:" ++ url.

(** The cached responses are as they were, and so are the clock and the
    state of the connection. *)
Definition keeps_responses (w w' : World) : Prop :=
  (forall url, store w' !! ("cache:" ++ url) = store w !! ("cache:" ++ url))
  /\ clock w' = clock w /\ isConnected w' = isConnected w
  /\ redisDown w' = redisDown w.

Definition leaves_responses {A} (c : M A) : Prop :=
  forall w, keeps_responses w (snd (c w)).

(** *** Worlds and requests of the further examples *)

(** The Redis server rejects every command, and the client has not noticed. *)
Definition redis_down_world : World :=
  mkWorld [] [] [] [] false ∅ true true 1000 [].

(** Two keys of the role listing and the view of the role r1. *)
Definition listing_world : World :=
  with_store
    (<["roles:page:1" := mkEntry "[]" (Some 4000)]>
       (<["roles:page:2" := mkEntry "[]" None]>
          (<["role:r1" := mkEntry "42" (Some 4000)]> ∅)))
    Demo.empty_world.

(** Two roles, the first one the default, and Alice as an editor. *)
Definition author_role : Role.t :=
  Role.mk "r2" "Author" "author" None None false true.

Definition two_roles_world : World :=
  with_users [alice_user] (with_roles [editor_role; author_role] Demo.empty_world).

Definition taken_role_dto : CreateRoleDto.t :=
  CreateRoleDto.mk "Editor" "chief" None None None.

Definition chief_role_dto : CreateRoleDto.t :=
  CreateRoleDto.mk "Chief" "chief" None (Some ["read:users"]) None.

Definition rename_dto : UpdateRoleDto.t :=
  UpdateRoleDto.mk (Some "Chief") None None None.

Definition alice_again_dto : CreateUserDto.t :=
  CreateUserDto.mk "alice@example.com" "pw" "Alice" None None.

Definition bob_dto : CreateUserDto.t :=
  CreateUserDto.mk "bob@example.com" "pw" "Bob" None (Some "").

(** The demo platform, reading back refresh tokens as well. *)
Definition refresh_platform : Platform :=
  {| JSON_stringify := Demo.print;
     JSON_parse := Demo.parse;
     hashPassword := fun s => "hash:" ++ s;
     segment_encode := Demo.encode;
     segment_decode := fun segment =>
       List.find (fun p => String.eqb (Demo.encode p) segment)
                 (Demo.decodable
                  ++ [mkPrincipal Demo.root (Some 1000) (Some (1000 + thirty_days))]);
     hmac := Demo.tag |}.

(** A password check for the examples: the stored hash is the password
    behind [hash:]. *)
Definition demo_compare (password hash : string) : bool :=
  String.eqb hash ("hash:" ++ password).

Definition root_login : LoginDto.t := LoginDto.mk "root@example.com" "pw".

Definition root_bad_login : LoginDto.t := LoginDto.mk "root@example.com" "guess".

Definition alice_login : LoginDto.t := LoginDto.mk "alice@example.com" "pw".

Definition alice_bad_login : LoginDto.t := LoginDto.mk "alice@example.com" "guess".

(** The token of the admin a1, signed at time 1000 for 3600 seconds. *)
Definition root_token : string :=
  @jwt.sign Demo.platform Demo.root "jwt-secret" 3600 1000.

(** Alice's token next to a key that no one has. *)
Definition alice_bearer_wrong_key : Request :=
  mkRequest (Some ("Bearer " ++ alice_token)) (Some "wrong") None.

(** Handlers that answer at once. *)
Definition created : M HttpResponse := ret (mkResponse 201 (JStr "ok")).

Definition not_found : M HttpResponse := ret (mkResponse 404 (JStr "ok")).

(** A body that an earlier response left in the cache. *)
Definition cached_body : jsval :=
  JObj [("id", JStr "r1"); ("isDefault", JBool false)].

Definition profile_cached_world : World :=
  with_store (<["cache:/api/admin/profile" := mkEntry (Demo.print cached_body) (Some 1060)]> ∅)
             Demo.empty_world.

(** A body cached for the listing of the roles while the role r1 was
    still named Editor. *)
Definition roles_listing : jsval := JArr [JStr "read:users"].

Definition cached_listing_world : World :=
  with_store (<["cache:/api/roles" := mkEntry (Demo.print roles_listing) (Some 1300)]> ∅)
             (with_roles [editor_role] Demo.empty_world).

(** A text under the key of [/api/roles] that is not JSON. *)
Definition garbled_world : World :=
  with_store (<["cache:/api/roles" := mkEntry "{" None]> ∅) Demo.empty_world.

(** An address that has used up a maximum of five in a window that ends
    at one minute. *)
Definition busy_counts : gmap string RateLimit.record :=
  <["10.0.0.1" := RateLimit.mkRecord 5 60000]> ∅.

(** * Properties *)

Open Scope list_scope.

(** ** Running a computation step by step *)

Lemma bind_Ok {A B} (c : M A) (k : A -> M B) w b w2 :
  bind c k w = (Ok b, w2) ->
  exists a w1, c w = (Ok a, w1) /\ k a w1 = (Ok b, w2).
Proof.
  unfold bind. destruct (c w) as [[a|e] w1]; [eauto|discriminate].
Qed.

Lemma bind_step {A B} (c : M A) (k : A -> M B) w a w1 :
  c w = (Ok a, w1) -> bind c k w = k a w1.
Proof. intros E. unfold bind. rewrite E. reflexivity. Qed.

Lemma bind_throw {A B} (c : M A) (k : A -> M B) w e w1 :
  c w = (Throw e, w1) -> bind c k w = (Throw e, w1).
Proof. intros E. unfold bind. rewrite E. reflexivity. Qed.

Lemma ret_Ok {A} (a b : A) w w1 : ret a w = (Ok b, w1) -> b = a /\ w1 = w.
Proof. unfold ret. intros E. injection E as <- <-. auto. Qed.

(** A query that completes found the database up, and ran on the world
    with the call traced. *)
Lemma query_Ok {A} e (run : World -> Result A * World) w a w1 :
  prisma.query e run w = (Ok a, w1) ->
  dbDown w = false /\ run (log e w) = (Ok a, w1).
Proof.
  unfold prisma.query. cbn. destruct (dbDown w); [discriminate|auto].
Qed.


Lemma query_up {A} e (run : World -> Result A * World) w :
  dbDown w = false -> prisma.query e run w = run (log e w).
Proof. intros E. unfold prisma.query. cbn. rewrite E. reflexivity. Qed.
(** ** The cache-aside service *)

Section CacheProperties.
Context `{Platform}.
Variable config : Config.

Lemma get_not_ready key w :
  isConnected w = false -> CacheService.get key w = (Ok JNull, w).
Proof.
  intros Hc. unfold CacheService.get, bind, redis.isReady. rewrite Hc. reflexivity.
Qed.

Lemma set_not_ready key v ttl w :
  isConnected w = false -> CacheService.set config key v ttl w = (Ok tt, w).
Proof.
  intros Hc. unfold CacheService.set, bind, redis.isReady. rewrite Hc. reflexivity.
Qed.

Lemma get_ready key w :
  isConnected w = true -> redisDown w = false ->
  CacheService.get key w =
    (Ok (match stored key w with
         | Some d =>
             if truthy_string d
             then match JSON_parse d with Some v => v | None => JNull end
             else JNull
         | None => JNull
         end),
     log (Redis (GET key)) w).
Proof.
  intros Hc Hd.
  unfold CacheService.get, bind, try_catch, redis.isReady, redis.get, redis.command.
  rewrite Hc. cbn. rewrite Hd. unfold stored. cbn.
  destruct (store w !! key) as [e|]; [|reflexivity].
  destruct (redis.live (clock w) e); [|reflexivity].
  destruct (truthy_string (e_data e)); [|reflexivity].
  unfold JSON.parse. destruct (JSON_parse (e_data e)); reflexivity.
Qed.

(** A hit on a truthy value: the value comes back and the producer has no
    part in the result. *)
Lemma getOrSet_hit key d v w fetcher ttl :
  isConnected w = true -> redisDown w = false ->
  stored key w = Some d -> d <> "" -> JSON_parse d = Some v -> truthy v = true ->
  CacheService.getOrSet config key fetcher ttl w = (Ok v, log (Redis (GET key)) w).
Proof.
  intros Hc Hd Hs Hne Hp Ht.
  unfold CacheService.getOrSet, bind. rewrite get_ready by assumption.
  rewrite Hs, Hp.
  assert (truthy_string d = true) as ->.
  { unfold truthy_string. apply negb_true_iff, String.eqb_neq. exact Hne. }
  rewrite Ht. reflexivity.
Qed.

(** A miss: nothing usable under the key. *)
Lemma getOrSet_miss key w fetcher ttl :
  isConnected w = true -> redisDown w = false ->
  stored key w = None ->
  CacheService.getOrSet config key fetcher ttl w =
    compute_and_store config key fetcher ttl (log (Redis (GET key)) w).
Proof.
  intros Hc Hd Hs.
  unfold CacheService.getOrSet, compute_and_store.
  unfold bind at 1. rewrite get_ready by assumption. rewrite Hs. reflexivity.
Qed.

(** A stored value that is falsy is treated as a miss as well. *)
Lemma getOrSet_falsy key d v w fetcher ttl :
  isConnected w = true -> redisDown w = false ->
  stored key w = Some d -> JSON_parse d = Some v -> truthy v = false ->
  CacheService.getOrSet config key fetcher ttl w =
    compute_and_store config key fetcher ttl (log (Redis (GET key)) w).
Proof.
  intros Hc Hd Hs Hp Ht.
  unfold CacheService.getOrSet, compute_and_store.
  unfold bind at 1. rewrite get_ready by assumption. rewrite Hs, Hp.
  destruct (truthy_string d); [rewrite Ht|]; reflexivity.
Qed.

(** After a successful write-back the text of the value is under the key,
    for the given time to live. *)
Lemma set_stores key v ttl w :
  isConnected w = true -> redisDown w = false -> 0 < num_or ttl (cache_ttl config) ->
  exists w',
    CacheService.set config key v ttl w = (Ok tt, w')
    /\ store w' !! key
       = Some (mkEntry (JSON_stringify v) (Some (clock w + num_or ttl (cache_ttl config))))
    /\ clock w' = clock w /\ isConnected w' = true /\ redisDown w' = false.
Proof.
  intros Hc Hd Hpos.
  unfold CacheService.set, bind, try_catch, redis.isReady, redis.set, redis.setEx,
    CacheService.defaultTTL.
  rewrite Hc. cbn.
  destruct (Z.eqb_spec (num_or ttl (cache_ttl config)) 0) as [E|E]; [lia|]. cbn.
  rewrite Hd. cbn.
  destruct (Z.leb_spec (num_or ttl (cache_ttl config)) 0); [lia|]. cbn.
  eexists. split; [reflexivity|]. cbn.
  rewrite lookup_insert_eq. auto.
Qed.

(** The read-through cycle on a miss: the producer runs once on the world
    left by the lookup, its result is written under the key with the time
    to live, and is returned. *)
Lemma getOrSet_miss_stores key fetcher ttl w v w1 :
  isConnected w = true -> redisDown w = false ->
  stored key w = None ->
  fetcher (log (Redis (GET key)) w) = (Ok v, w1) ->
  isConnected w1 = true -> redisDown w1 = false ->
  0 < num_or ttl (cache_ttl config) ->
  exists w2,
    CacheService.getOrSet config key fetcher ttl w = (Ok v, w2)
    /\ store w2 !! key
       = Some (mkEntry (JSON_stringify v) (Some (clock w1 + num_or ttl (cache_ttl config)))).
Proof.
  intros Hc Hd Hs Hf Hc1 Hd1 Hpos.
  rewrite getOrSet_miss by assumption. unfold compute_and_store.
  rewrite (bind_step _ _ _ _ _ Hf).
  destruct (set_stores key v ttl w1 Hc1 Hd1 Hpos) as (w2 & Hset & Hst & _).
  rewrite (bind_step _ _ _ _ _ Hset). exists w2. split; [reflexivity|exact Hst].
Qed.

(** A later call that finds this entry before it expires returns the value
    again, whatever its producer is, provided the value survives the
    round trip through its JSON text and is truthy. *)
Lemma getOrSet_second_call key fetcher ttl w v deadline :
  isConnected w = true -> redisDown w = false ->
  store w !! key = Some (mkEntry (JSON_stringify v) (Some deadline)) ->
  clock w < deadline ->
  JSON_stringify v <> "" -> JSON_parse (JSON_stringify v) = Some v -> truthy v = true ->
  CacheService.getOrSet config key fetcher ttl w = (Ok v, log (Redis (GET key)) w).
Proof.
  intros Hc Hd Hst Hlive Hne Hp Ht.
  apply getOrSet_hit with (d := JSON_stringify v); try assumption.
  unfold stored. rewrite Hst. unfold redis.live. cbn.
  destruct (Z.ltb_spec (clock w) deadline); [reflexivity|lia].
Qed.

(** C9.  When the adapter reports not-ready (before the producer runs and
    still after it), [getOrSet] is exactly one run of the producer: its
    result or its exception, its effects, and nothing else; no Redis
    command is sent. *)
Theorem getOrSet_not_ready key fetcher ttl w :
  isConnected w = false ->
  isConnected (snd (fetcher w)) = false ->
  CacheService.getOrSet config key fetcher ttl w = fetcher w.
Proof.
  intros Hc Hc'.
  unfold CacheService.getOrSet. unfold bind at 1.
  rewrite get_not_ready by assumption. cbn.
  unfold bind. destruct (fetcher w) as [[a|e] w1]; simpl in Hc'; [|reflexivity].
  simpl truthy. cbv iota.
  rewrite set_not_ready by assumption. reflexivity.
Qed.

End CacheProperties.

(** C1, at the failing input.  The key holds the text of [false]; the call
    does not return the stored value: the producer runs and [true] comes
    back, and the entry is overwritten. *)
Theorem getOrSet_stored_false_runs_producer :
  @stored "feature:beta" flag_world = Some "false"
  /\ @JSON_parse Demo.platform "false" = Some (JBool false)
  /\ exists w',
       @CacheService.getOrSet Demo.platform Demo.config "feature:beta"
         (marked "producer" (JBool true)) None flag_world = (Ok (JBool true), w')
       /\ trace w' = [Redis (GET "feature:beta"); Called "producer";
                      Redis (SETEX "feature:beta" 3600)]
       /\ store w' !! "feature:beta" = Some (mkEntry "true" (Some 4600)).
Proof.
  split; [reflexivity|]. split; [reflexivity|].
  eexists. split; [vm_compute; reflexivity|]. split; reflexivity.
Qed.

Lemma getOrSet_not_ready_witness :
  isConnected offline_world = false
  /\ @CacheService.getOrSet Demo.platform Demo.config "k" (marked "p" (JNum 1)) None
       offline_world
     = marked "p" (JNum 1) offline_world.
Proof.
  split; [reflexivity|].
  apply (@getOrSet_not_ready Demo.platform); reflexivity.
Defined.

(** ** Steps of the cache service *)

Lemma for_of_del_spec ks w :
  redisDown w = false ->
  exists w',
    for_of ks redis.del w = (Ok tt, w') /\ cache_step w w'
    /\ trace w' = trace w ++ List.map (fun k => Redis (DEL k)) ks
    /\ forall k, store w' !! k = if bool_decide (k ∈ ks) then None else store w !! k.
Proof.
  revert w. induction ks as [|k ks IH]; intros w Hd.
  - exists w. cbn. rewrite app_nil_r. unfold cache_step. repeat split; auto.
  - cbn [for_of]. unfold bind, redis.del at 1, redis.command. cbn. rewrite Hd.
    set (w1 := with_store _ _).
    destruct (IH w1 Hd) as (w' & Hrun & Hstep & Htr & Hst).
    exists w'. rewrite Hrun. split; [reflexivity|]. split; [|split].
    + unfold cache_step in *. cbn in Hstep. exact Hstep.
    + rewrite Htr. cbn. rewrite <- app_assoc. reflexivity.
    + intros k'. rewrite Hst. cbn.
      destruct (decide (k' = k)) as [->|Hne].
      * rewrite lookup_delete_eq.
        rewrite (bool_decide_eq_true_2 (k ∈ k :: ks)) by constructor.
        destruct (bool_decide (k ∈ ks)); reflexivity.
      * rewrite lookup_delete_ne by congruence.
        destruct (bool_decide (k' ∈ ks)) eqn:E.
        -- apply bool_decide_eq_true in E.
           rewrite bool_decide_eq_true_2 by (constructor; exact E). reflexivity.
        -- apply bool_decide_eq_false in E.
           rewrite bool_decide_eq_false_2; [reflexivity|].
           intros Hin. apply elem_of_cons in Hin as [?|?]; [congruence|auto].
Qed.

Lemma delete_spec key w :
  exists w',
    CacheService.delete key w = (Ok tt, w') /\ cache_step w w'
    /\ trace w' = trace w ++ (if isConnected w then [Redis (DEL key)] else []).
Proof.
  unfold CacheService.delete, bind, try_catch, redis.isReady, redis.del, redis.command.
  destruct (isConnected w) eqn:Hc; cbn.
  - destruct (redisDown w) eqn:Hd; cbn; eexists; (split; [reflexivity|]);
      unfold cache_step; cbn; auto 10.
  - exists w. rewrite app_nil_r. unfold cache_step. auto 10.
Qed.

Lemma deletePattern_spec pattern w :
  exists w' ks,
    CacheService.deletePattern pattern w = (Ok tt, w') /\ cache_step w w'
    /\ trace w' = trace w ++
         (if isConnected w
          then Redis (KEYS pattern) :: List.map (fun k => Redis (DEL k)) ks
          else []).
Proof.
  unfold CacheService.deletePattern, redis.isReady.
  unfold bind at 1. cbn.
  destruct (isConnected w) eqn:Hc; cbn.
  - unfold try_catch, bind, redis.keys, redis.command. cbn.
    destruct (redisDown w) eqn:Hd; cbn.
    + eexists. exists []. split; [reflexivity|]. unfold cache_step. cbn. auto 10.
    + set (ks := List.filter _ _). set (w1 := log _ w).
      destruct (for_of_del_spec ks w1 Hd) as (w' & Hrun & Hstep & Htr & _).
      rewrite Hrun. exists w', ks. split; [reflexivity|]. split.
      * unfold cache_step in *. cbn in Hstep. rewrite Hc. 
        destruct Hstep as (?&?&?&?&?&?&?&?). repeat split; congruence.
      * rewrite Htr. cbn. rewrite <- app_assoc. reflexivity.
  - exists w, []. rewrite app_nil_r. unfold cache_step. auto 10.
Qed.

(** Behind a ready cache and a reachable server, [delete] removes the key
    and [deletePattern] removes every key that matches the pattern, and
    only those. *)
Lemma delete_removes key w :
  isConnected w = true -> redisDown w = false ->
  forall k,
    stored k (snd (CacheService.delete key w))
    = if String.eqb k key then None else stored k w.
Proof.
  intros Hc Hd k.
  unfold CacheService.delete, bind, try_catch, redis.isReady, redis.del, redis.command.
  rewrite Hc. cbn. rewrite Hd. cbn. unfold stored. cbn.
  destruct (String.eqb_spec k key) as [->|Hne].
  - rewrite lookup_delete_eq. reflexivity.
  - rewrite lookup_delete_ne by congruence. reflexivity.
Qed.

Lemma deletePattern_removes pattern w :
  isConnected w = true -> redisDown w = false ->
  forall k,
    stored k (snd (CacheService.deletePattern pattern w))
    = if redis.matches pattern k then None else stored k w.
Proof.
  intros Hc Hd k.
  unfold CacheService.deletePattern, redis.isReady.
  unfold bind at 1. cbn. rewrite Hc. cbn.
  unfold try_catch, bind, redis.keys, redis.command. cbn. rewrite Hd. cbn.
  set (ks := List.filter _ _). set (w1 := log _ w).
  destruct (for_of_del_spec ks w1 Hd) as (w' & Hrun & Hstep & _ & Hst).
  rewrite Hrun. cbn. unfold stored. rewrite Hst.
  destruct Hstep as (_ & _ & _ & _ & _ & Hclock & _). rewrite Hclock. cbn.
  destruct (bool_decide (k ∈ ks)) eqn:Hk.
  - apply bool_decide_eq_true in Hk. unfold ks in Hk.
    apply list_elem_of_In, filter_In in Hk as [_ Hm]. rewrite Hm. reflexivity.
  - apply bool_decide_eq_false in Hk.
    destruct (redis.matches pattern k) eqn:Hm; [|reflexivity].
    destruct (store w !! k) as [e|] eqn:He; [|reflexivity].
    destruct (redis.live (clock w) e) eqn:Hl; [|reflexivity].
    exfalso. apply Hk. unfold ks. apply list_elem_of_In, filter_In. split; [|exact Hm].
    apply in_map_iff. exists (k, e). split; [reflexivity|].
    apply filter_In. split; [|exact Hl].
    apply list_elem_of_In, elem_of_map_to_list. exact He.
Qed.

(** ** The role service and the default role *)

Lemma filter_isDefault_cleared (l : list Role.t) :
  List.filter Role.isDefault
    (List.map (fun x => if Role.isDefault x then RoleService.set_isDefault false x else x) l) = [].
Proof.
  induction l as [|x l IH]; [reflexivity|]. cbn.
  destruct (Role.isDefault x) eqn:E; cbn; [|rewrite E]; exact IH.
Qed.

Lemma map_cleared_ids (l : list Role.t) :
  List.map Role.id
    (List.map (fun x => if Role.isDefault x then RoleService.set_isDefault false x else x) l)
  = List.map Role.id l.
Proof.
  induction l as [|x l IH]; [reflexivity|]. cbn. rewrite IH.
  destruct (Role.isDefault x); reflexivity.
Qed.

Lemma filter_isDefault_set_one (l : list Role.t) i r0 :
  NoDup (List.map Role.id l) ->
  List.filter Role.isDefault l = [] ->
  List.find (prisma.has_id prisma.role i) l = Some r0 ->
  List.filter Role.isDefault
    (List.map (fun x => if prisma.has_id prisma.role i x then RoleService.set_isDefault true x else x) l)
  = [RoleService.set_isDefault true r0].
Proof.
  induction l as [|x l IH]; intros Hnd Hnone Hfind; [discriminate|].
  cbn in Hnd. apply NoDup_cons in Hnd as [Hnotin Hnd].
  cbn in Hnone. destruct (Role.isDefault x) eqn:Ex; [discriminate|].
  cbn in Hfind. cbn [List.map].
  unfold prisma.has_id in *. cbn [prisma.key prisma.role] in *.
  destruct (String.eqb_spec (Role.id x) i) as [Hid|Hid].
  - injection Hfind as <-. cbn. f_equal.
    (* no other row has this id *)
    clear IH. induction l as [|y l IHl]; [reflexivity|].
    cbn in Hnone. destruct (Role.isDefault y) eqn:Ey; [discriminate|].
    cbn. destruct (String.eqb_spec (Role.id y) i) as [Hy|Hy].
    + exfalso. apply Hnotin. cbn. rewrite Hid, <- Hy. constructor.
    + rewrite Ey. apply IHl; [|apply NoDup_cons in Hnd as [_ Hnd]; exact Hnd|assumption].
      intros Hin. apply Hnotin. cbn. constructor. exact Hin.
  - cbn. rewrite Ex. apply IH; assumption.
Qed.

(** After a completed [setDefault(id)] exactly one role is the default,
    and it is the role with this id.  (Ids are unique in the table.) *)
Lemma setDefault_exactly_one id w r w' :
  NoDup (List.map Role.id (roles w)) ->
  RoleService.setDefault id w = (Ok r, w') ->
  defaults w' = [r] /\ Role.id r = id /\ Role.isDefault r = true.
Proof.
  intros Hnd Hrun. unfold RoleService.setDefault in Hrun.
  apply bind_Ok in Hrun as (u & w1 & Hmany & Hrun).
  apply query_Ok in Hmany as [Hdb Hmany]. injection Hmany as _ <-.
  apply bind_Ok in Hrun as (r1 & w2 & Hupd & Hrun).
  apply query_Ok in Hupd as [_ Hupd].
  cbn [prisma.rows prisma.role prisma.put roles with_roles log] in Hupd.
  set (cleared := List.map (fun x => if Role.isDefault x then _ else x) (roles w)) in *.
  destruct (List.find (prisma.has_id prisma.role id) cleared) as [r0|] eqn:Hfind;
    [|discriminate].
  injection Hupd as <- <-.
  apply bind_Ok in Hrun as (u2 & w3 & Hdel & Hrun).
  apply ret_Ok in Hrun as [-> ->].
  match type of Hdel with
  | _ ?w0 = _ => destruct (deletePattern_spec "roles:*" w0) as (w2 & ks & Hdel' & Hstep & _)
  end.
  rewrite Hdel' in Hdel. injection Hdel as _ <-.
  destruct Hstep as (Hroles & _). cbn in Hroles.
  unfold defaults. rewrite Hroles. split; [|split].
  - apply filter_isDefault_set_one; [|apply filter_isDefault_cleared|exact Hfind].
    unfold cleared. rewrite map_cleared_ids. exact Hnd.
  - apply find_some in Hfind as [_ Hid]. unfold prisma.has_id in Hid. cbn in Hid.
    apply String.eqb_eq in Hid. exact Hid.
  - reflexivity.
Qed.

Lemma permissions_value_pure `{Platform} text w v w1 :
  permissions_value text w = (Ok v, w1) -> w1 = w.
Proof.
  unfold permissions_value, JSON.parse.
  destruct text as [s|]; [destruct (truthy_string s); [destruct (JSON_parse s)|]|];
    cbn; intros E; try discriminate; injection E as _ <-; reflexivity.
Qed.

(** [update] cannot touch the flag: the defaults are the same rows, as
    updated. *)
Lemma update_keeps_defaults `{Platform} id data w r w' :
  RoleService.update id data w = (Ok r, w') ->
  List.map Role.isDefault (roles w') = List.map Role.isDefault (roles w).
Proof.
  intros Hrun. unfold RoleService.update in Hrun.
  apply bind_Ok in Hrun as (r1 & w1 & Hupd & Hrun).
  apply query_Ok in Hupd as [_ Hupd].
  cbn [prisma.rows prisma.role prisma.put roles with_roles log] in Hupd.
  destruct (List.find _ _); [|discriminate]. injection Hupd as _ <-.
  apply bind_Ok in Hrun as (u1 & w2 & Hdel & Hrun).
  apply bind_Ok in Hrun as (u2 & w3 & Hpat & Hrun).
  apply bind_Ok in Hrun as (perms & w4 & Hperm & Hrun).
  apply ret_Ok in Hrun as [_ ->].
  apply permissions_value_pure in Hperm as ->.
  match type of Hdel with
  | _ ?w0 = _ => destruct (delete_spec ("role:" +:+ id) w0) as (wa & Ea & Sa & _)
  end.
  rewrite Ea in Hdel. injection Hdel as _ <-.
  destruct (deletePattern_spec "roles:*" wa) as (wb & ks & Eb & Sb & _).
  rewrite Eb in Hpat. injection Hpat as _ <-.
  destruct Sa as (Ra & _). destruct Sb as (Rb & _). rewrite Rb, Ra. cbn.
  rewrite List.map_map. apply List.map_ext. intros x.
  match goal with |- context [if ?b then _ else _] => destruct b end; reflexivity.
Qed.

(** C2, at the failing input.  A default role exists; creating a second
    role with [isDefault: true] completes and leaves two roles with
    [isDefault = true]: [create] sets the flag without clearing the others,
    which [setDefault] does. *)
Theorem create_default_role_leaves_two_defaults :
  let w := with_roles [editor_role] Demo.empty_world in
  let data := CreateRoleDto.mk "Author" "author" None None (Some true) in
  defaults w = [editor_role]
  /\ exists r perms w',
       @RoleService.create Demo.platform Demo.schema "r2" data w = (Ok (r, perms), w')
       /\ defaults w' = [editor_role; r]
       /\ Role.id r = "r2".
Proof.
  cbn zeta. split; [reflexivity|].
  eexists _, _, _. split; [vm_compute; reflexivity|]. split; reflexivity.
Qed.

(** ** Authentication *)

Section Authentication.
Context `{Platform}.
Variable config : Config.

Lemma verifyToken_run token w :
  verifyToken config token w =
    (Ok (match jwt.verify token (jwt_secret config) (clock w) with
         | inl d => Some d
         | inr _ => None
         end), w).
Proof.
  unfold verifyToken, bind, now.
  destruct (jwt.verify token (jwt_secret config) (clock w)); reflexivity.
Qed.

(** The bearer attempt leaves the world as it is. *)
Lemma try_bearer_pure req w : snd (auth.try_bearer config req w) = w.
Proof.
  unfold auth.try_bearer.
  destruct (extractTokenFromHeader (authorization req)) as [tok|]; [|reflexivity].
  destruct (truthy_string tok); [|reflexivity].
  rewrite verifyToken_run. reflexivity.
Qed.

Lemma try_bearer_absent req w :
  extractTokenFromHeader (authorization req) = None ->
  auth.try_bearer config req w = (Ok None, w).
Proof. intros E. unfold auth.try_bearer. rewrite E. reflexivity. Qed.

Lemma try_bearer_invalid req tok e w :
  extractTokenFromHeader (authorization req) = Some tok ->
  jwt.verify tok (jwt_secret config) (clock w) = inr e ->
  auth.try_bearer config req w = (Ok None, w).
Proof.
  intros E V. unfold auth.try_bearer. rewrite E.
  destruct (truthy_string tok); [|reflexivity].
  rewrite verifyToken_run, V. reflexivity.
Qed.

Lemma multiAuth_static_key req w :
  auth.try_bearer config req w = (Ok None, w) ->
  apiKey config <> "" ->
  x_api_key req = Some (apiKey config) ->
  auth.multiAuth config req w = (Ok (Next (set_user system_principal req)), w).
Proof.
  intros Hb Hk Hx. unfold auth.multiAuth.
  rewrite (bind_step _ _ _ _ _ Hb). rewrite Hx. cbn [opt_truthy or_keep].
  assert (truthy_string (apiKey config) = true) as ->.
  { unfold truthy_string. apply negb_true_iff, String.eqb_neq. exact Hk. }
  rewrite String.eqb_refl. reflexivity.
Qed.

(** C3 (amended).  In [multiAuth], a request with the configured static key
    is admitted as the system principal both when it carries no bearer
    token and when the bearer token it carries fails verification: the
    fallback to the key is reached in either case. *)
Theorem multiAuth_falls_back_to_key req w :
  apiKey config <> "" ->
  x_api_key req = Some (apiKey config) ->
  (extractTokenFromHeader (authorization req) = None ->
   auth.multiAuth config req w = (Ok (Next (set_user system_principal req)), w))
  /\ (forall tok e,
        extractTokenFromHeader (authorization req) = Some tok ->
        jwt.verify tok (jwt_secret config) (clock w) = inr e ->
        auth.multiAuth config req w = (Ok (Next (set_user system_principal req)), w)).
Proof.
  intros Hk Hx. split.
  - intros E. apply multiAuth_static_key; auto using try_bearer_absent.
  - intros tok e E V. apply multiAuth_static_key; eauto using try_bearer_invalid.
Qed.

Lemma find_session_run key w :
  auth.find_session key w =
    (Ok (if dbDown w then None
         else List.find (fun s => String.eqb (Session.token s) key
                                  && (clock w <=? Session.expiresAt s)) (sessions w)),
     log (DbRead "session") w).
Proof.
  unfold auth.find_session, try_catch, bind, now, prisma.findFirst, prisma.query.
  cbn. destruct (dbDown w); reflexivity.
Qed.

Lemma find_session_live key w s w' :
  auth.find_session key w = (Ok (Some s), w') -> live_session key w s.
Proof.
  rewrite find_session_run. intros E. injection E as E _.
  destruct (dbDown w); [discriminate|].
  apply find_some in E as [Hin Hc]. apply andb_true_iff in Hc as [Ht He].
  unfold live_session. split; [apply list_elem_of_In; exact Hin|]. split.
  - apply String.eqb_eq. exact Ht.
  - lia.
Qed.


(** C10.  With no static key configured, the static-key test is false for
    every presented key, the empty one included; a request that
    [authenticateApiKey] admits was matched by an unexpired session row and
    carries that row's principal, and a request that [multiAuth] admits was
    admitted by its bearer token or by such a row. *)
Theorem no_static_key_configured :
  apiKey config = "" ->
  (forall key, truthy_string (apiKey config) && String.eqb key (apiKey config) = false)
  /\ (forall req w req' w',
        auth.authenticateApiKey config req w = (Ok (Next req'), w') ->
        exists key s,
          x_api_key req = Some key /\ live_session key w s
          /\ req' = set_user (session_principal s) req)
  /\ (forall req w req' w',
        auth.multiAuth config req w = (Ok (Next req'), w') ->
        (exists d, auth.try_bearer config req w = (Ok (Some d), w)
                   /\ req' = set_user d req)
        \/ (exists key s,
              x_api_key req = Some key /\ live_session key w s
              /\ req' = set_user (session_principal s) req)).
Proof.
  intros Hk. rewrite Hk. split; [|split].
  - intros key. reflexivity.
  - intros req w req' w' Hrun. unfold auth.authenticateApiKey in Hrun.
    rewrite Hk in Hrun. cbn [truthy_string String.eqb negb andb] in Hrun.
    destruct (x_api_key req) as [key|] eqn:Hx; cbn [opt_truthy or_keep] in Hrun;
      [|discriminate].
    destruct (truthy_string key); cbn [negb] in Hrun; [|discriminate].
    apply bind_Ok in Hrun as (s & w1 & Hfind & Hrun).
    destruct s as [s|]; [|discriminate].
    injection Hrun as <- <-.
    exists key, s. split; [reflexivity|]. split; [|reflexivity].
    eapply find_session_live. exact Hfind.
  - intros req w req' w' Hrun. unfold auth.multiAuth in Hrun.
    apply bind_Ok in Hrun as (d & w1 & Hb & Hrun).
    pose proof (try_bearer_pure req w) as Hpure. rewrite Hb in Hpure. cbn in Hpure.
    subst w1. destruct d as [d|].
    + injection Hrun as <- <-. left. exists d. auto.
    + right. rewrite Hk in Hrun. cbn [truthy_string String.eqb negb andb] in Hrun.
      destruct (x_api_key req) as [key|] eqn:Hx; cbn [opt_truthy or_keep] in Hrun;
        [|discriminate].
      destruct (truthy_string key); [|discriminate].
      apply bind_Ok in Hrun as (s & w1 & Hfind & Hrun).
      destruct s as [s|]; [|discriminate].
      injection Hrun as <- <-.
      exists key, s. split; [reflexivity|]. split; [|reflexivity].
      eapply find_session_live. exact Hfind.
Qed.

End Authentication.

Lemma multiAuth_falls_back_to_key_witness :
  apiKey Demo.config <> ""
  /\ x_api_key key_and_bad_bearer = Some (apiKey Demo.config)
  /\ extractTokenFromHeader (authorization key_and_bad_bearer) = Some "not-a-token"
  /\ @auth.multiAuth Demo.platform Demo.config key_and_bad_bearer Demo.empty_world
     = (Ok (Next (set_user system_principal key_and_bad_bearer)), Demo.empty_world)
  /\ extractTokenFromHeader (authorization key_only) = None
  /\ @auth.multiAuth Demo.platform Demo.config key_only Demo.empty_world
     = (Ok (Next (set_user system_principal key_only)), Demo.empty_world).
Proof.
  split; [discriminate|]. split; [reflexivity|]. split; [reflexivity|]. split.
  - refine (proj2 (@multiAuth_falls_back_to_key Demo.platform Demo.config
                     key_and_bad_bearer Demo.empty_world _ _)
                  "not-a-token" (jwt.JsonWebTokenError "jwt malformed") _ _);
      [discriminate|reflexivity|reflexivity|reflexivity].
  - split; [reflexivity|].
    refine (proj1 (@multiAuth_falls_back_to_key Demo.platform Demo.config
                     key_only Demo.empty_world _ _) _);
      [discriminate|reflexivity|reflexivity].
Defined.

(** C3 as stated does not hold: the request carries the configured static
    key and a bearer token that fails verification, and [multiAuth] admits
    it instead of answering 401. *)
Lemma multiAuth_bad_bearer_not_rejected :
  x_api_key key_and_bad_bearer = Some (apiKey Demo.config)
  /\ @verifyToken Demo.platform Demo.config "not-a-token" Demo.empty_world
     = (Ok None, Demo.empty_world)
  /\ ~ (exists message w',
          @auth.multiAuth Demo.platform Demo.config key_and_bad_bearer Demo.empty_world
          = (Ok (Respond 401 message), w')).
Proof.
  split; [reflexivity|]. split; [reflexivity|].
  intros (message & w' & E). vm_compute in E. discriminate.
Qed.

Lemma no_static_key_configured_witness :
  apiKey no_key_config = ""
  /\ exists key s,
       x_api_key session_request = Some key /\ live_session key session_world s
       /\ set_user (session_principal session_k1) session_request
          = set_user (session_principal s) session_request.
Proof.
  split; [reflexivity|].
  refine (proj1 (proj2 (@no_static_key_configured Demo.platform no_key_config _))
                session_request session_world
                (set_user (session_principal session_k1) session_request)
                (log (DbRead "session") session_world) _);
    reflexivity.
Defined.

(** ** Authorization by permission *)

Section Authorization.
Context `{Platform}.

Lemma user_with_role_up i w :
  dbDown w = false ->
  prisma.user_with_role i w =
    (Ok (match List.find (prisma.has_id prisma.user i) (users w) with
         | None => None
         | Some u =>
             Some (u, List.find (prisma.has_id prisma.role (User.roleId u)) (roles w))
         end),
     log (DbRead "user") w).
Proof. intros E. unfold prisma.user_with_role. rewrite query_up by exact E. reflexivity. Qed.

Lemma permissions_value_set text items w :
  permission_set text items -> permissions_value text w = (Ok (JArr items), w).
Proof.
  intros [[Hf ->]|(s & -> & Ht & Hp)]; unfold permissions_value.
  - destruct text as [s|]; [|reflexivity]. cbn in Hf. rewrite Hf. reflexivity.
  - rewrite Ht. unfold JSON.parse. rewrite Hp. reflexivity.
Qed.

(** [every] stops with [false] as soon as one required permission is not
    in the array. *)
Lemma every_missing items required missing w :
  missing ∈ required -> holds items missing = false ->
  every required (fun perm => js_includes (JArr items) perm) w = (Ok false, w).
Proof.
  intros Hin Hm. induction required as [|p rest IH]; [inversion Hin|].
  cbn [every]. unfold bind. cbn [js_includes ret].
  fold (holds items p). destruct (holds items p) eqn:Hp; [|reflexivity].
  apply IH. apply elem_of_cons in Hin as [->|Hin]; [congruence|exact Hin].
Qed.

Lemma every_all items required w :
  (forall p, p ∈ required -> holds items p = true) ->
  every required (fun perm => js_includes (JArr items) perm) w = (Ok true, w).
Proof.
  induction required as [|p rest IH]; intros Hall; [reflexivity|].
  cbn [every]. unfold bind. cbn [js_includes ret]. fold (holds items p).
  rewrite Hall by constructor. apply IH. intros q Hq. apply Hall. constructor. exact Hq.
Qed.

(** C4.  A principal with role ["api"] passes whatever is required and
    whatever the database holds.  For any other principal whose user row
    and role row are found: if one required permission is not in the
    role's permission set, the answer is 403, whatever else the set
    holds. *)
Theorem authorizePermission_all_or_nothing required req u w :
  user req = Some u ->
  (JwtPayload.role (claims u) = "api" ->
   auth.authorizePermission required req w = (Ok (Next req), w))
  /\ (JwtPayload.role (claims u) <> "api" ->
      forall usr r items missing,
        dbDown w = false ->
        List.find (prisma.has_id prisma.user (JwtPayload.id (claims u))) (users w)
          = Some usr ->
        List.find (prisma.has_id prisma.role (User.roleId usr)) (roles w) = Some r ->
        permission_set (Role.permissions r) items ->
        missing ∈ required -> holds items missing = false ->
        auth.authorizePermission required req w
        = (Ok (Respond 403 "Insufficient permissions"), log (DbRead "user") w)).
Proof.
  intros Hu. unfold auth.authorizePermission. rewrite Hu. split.
  - intros ->. reflexivity.
  - intros Hrole usr r items missing Hdb Husr Hr Hset Hin Hmiss.
    apply String.eqb_neq in Hrole. rewrite Hrole.
    unfold try_catch.
    rewrite (bind_step _ _ _ _ _ (user_with_role_up _ _ Hdb)).
    rewrite Husr, Hr.
    rewrite (bind_step _ _ _ (Role.permissions r) (log (DbRead "user") w)) by reflexivity.
    rewrite (bind_step _ _ _ _ _ (permissions_value_set _ _ _ Hset)).
    rewrite (bind_step _ _ _ _ _ (every_missing _ _ _ _ Hin Hmiss)).
    reflexivity.
Qed.


End Authorization.

Lemma authorizePermission_all_or_nothing_witness :
  (user (request_of api_principal) = Some api_principal
   /\ JwtPayload.role (claims api_principal) = "api"
   /\ @auth.authorizePermission Demo.platform ["write:comments"]
        (request_of api_principal) alice_world
      = (Ok (Next (request_of api_principal)), alice_world))
  /\ (user (request_of alice_principal) = Some alice_principal
      /\ JwtPayload.role (claims alice_principal) <> "api"
      /\ "write:comments" ∈ ["read:users"; "write:comments"]
      /\ holds [JStr "read:users"; JStr "read:comments"] "write:comments" = false
      /\ @auth.authorizePermission Demo.platform ["read:users"; "write:comments"]
           (request_of alice_principal) alice_world
         = (Ok (Respond 403 "Insufficient permissions"),
            log (DbRead "user") alice_world)).
Proof.
  split.
  - split; [reflexivity|]. split; [reflexivity|].
    apply (proj1 (@authorizePermission_all_or_nothing Demo.platform ["write:comments"]
                    (request_of api_principal) api_principal alice_world eq_refl));
      reflexivity.
  - split; [reflexivity|]. split; [discriminate|].
    split; [constructor; constructor|]. split; [reflexivity|].
    refine (proj2 (@authorizePermission_all_or_nothing Demo.platform
                     ["read:users"; "write:comments"] (request_of alice_principal)
                     alice_principal alice_world _) _
                  alice_user editor_role [JStr "read:users"; JStr "read:comments"]
                  "write:comments" _ _ _ _ _ _);
      try reflexivity; try discriminate.
    + right. eexists. split; [reflexivity|]. split; reflexivity.
    + constructor. constructor.
Defined.



(** ** Tokens *)

Lemma append_cons c (a b : string) : (String c a +:+ b = String c (a +:+ b))%string.
Proof. reflexivity. Qed.

Lemma append_nil (b : string) : (EmptyString +:+ b = b)%string.
Proof. reflexivity. Qed.

Lemma append_assoc (a b c : string) : ((a +:+ b) +:+ c = a +:+ (b +:+ c))%string.
Proof.
  induction a as [|x a IH]; [reflexivity|].
  rewrite !append_cons. f_equal. exact IH.
Qed.

Lemma segments_nonempty s : jwt.segments s <> [].
Proof.
  destruct s as [|c s]; cbn; [discriminate|].
  destruct (Ascii.eqb c "."); [discriminate|].
  destruct (jwt.segments s); discriminate.
Qed.

Lemma segments_dotfree s : dotfree s = true -> jwt.segments s = [s].
Proof.
  induction s as [|c s IH]; cbn; [reflexivity|].
  intros Hd. apply andb_true_iff in Hd as [Hc Hs]. apply negb_true_iff in Hc.
  rewrite Hc, (IH Hs). reflexivity.
Qed.

Lemma segments_app_dot a rest :
  dotfree a = true ->
  jwt.segments (a +:+ String "." rest) = a :: jwt.segments rest.
Proof.
  induction a as [|c a IH]; [reflexivity|]. rewrite append_cons. cbn.
  intros Hd. apply andb_true_iff in Hd as [Hc Hs]. apply negb_true_iff in Hc.
  rewrite Hc, (IH Hs). reflexivity.
Qed.

Lemma altered1_neq a b : altered1 a b = true -> a <> b.
Proof.
  revert b. induction a as [|c a IH]; intros [|d b]; cbn; try discriminate.
  destruct (Ascii.eqb_spec c d) as [->|Hcd]; intros Ha E.
  - injection E as E. exact (IH b Ha E).
  - injection E as E _. contradiction.
Qed.

Lemma altered1_app_neq a b z :
  altered1 a b = true -> (a +:+ z)%string <> (b +:+ z)%string.
Proof.
  revert b. induction a as [|c a IH]; intros [|d b]; cbn; try discriminate.
  rewrite !append_cons.
  destruct (Ascii.eqb_spec c d) as [->|Hcd]; intros Ha E.
  - injection E as E. exact (IH b Ha E).
  - injection E as E _. contradiction.
Qed.

(** A replaced character that keeps the number of segments changes exactly
    one segment, by one character. *)
Lemma altered1_segments a b :
  altered1 a b = true ->
  List.length (jwt.segments a) = List.length (jwt.segments b) ->
  exists pre x y post,
    jwt.segments a = pre ++ x :: post /\ jwt.segments b = pre ++ y :: post
    /\ altered1 x y = true.
Proof.
  revert b. induction a as [|c a IH]; intros [|d b]; cbn [altered1]; try discriminate.
  destruct (Ascii.eqb_spec c d) as [->|Hcd]; intros Ha Hlen.
  - cbn [jwt.segments] in *.
    destruct (Ascii.eqb d ".") eqn:Hdot.
    + cbn in Hlen. injection Hlen as Hlen.
      destruct (IH b Ha Hlen) as (pre & x & y & post & Ea & Eb & Hxy).
      exists (EmptyString :: pre), x, y, post. rewrite Ea, Eb. auto.
    + assert (List.length (jwt.segments a) = List.length (jwt.segments b)) as Hlen'.
      { destruct (jwt.segments a) eqn:Ea; [destruct (segments_nonempty _ Ea)|].
        destruct (jwt.segments b) eqn:Eb; [destruct (segments_nonempty _ Eb)|].
        exact Hlen. }
      destruct (IH b Ha Hlen') as (pre & x & y & post & Ea & Eb & Hxy).
      rewrite Ea, Eb. destruct pre as [|q pre]; cbn.
      * exists [], (String d x), (String d y), post. cbn.
        rewrite Ascii.eqb_refl. auto.
      * exists (String d q :: pre), x, y, post. auto.
  - apply String.eqb_eq in Ha. subst b. cbn [jwt.segments] in *.
    destruct (jwt.segments a) as [|x post] eqn:Ea; [destruct (segments_nonempty _ Ea)|].
    destruct (Ascii.eqb c ".") eqn:Hc, (Ascii.eqb d ".") eqn:Hd; cbn in Hlen.
    + apply Ascii.eqb_eq in Hc, Hd. congruence.
    + lia.
    + lia.
    + exists [], (String c x), (String d x), post. cbn.
      apply Ascii.eqb_neq in Hcd. rewrite Hcd, String.eqb_refl. auto.
Qed.

Section Tokens.
Context `{Platform}.
Variable config : Config.

Lemma segments_sign payload secret ttl t :
  dotfree (segment_encode (signed_claims payload t ttl)) = true ->
  dotfree (hmac secret (jwt.header +:+ "." +:+ segment_encode (signed_claims payload t ttl)))
    = true ->
  jwt.segments (jwt.sign payload secret ttl t)
  = [ jwt.header; segment_encode (signed_claims payload t ttl);
      hmac secret (jwt.header +:+ "." +:+ segment_encode (signed_claims payload t ttl)) ].
Proof.
  intros Hseg Htag. unfold jwt.sign. fold (signed_claims payload t ttl).
  rewrite !append_assoc.
  rewrite !(append_cons "." EmptyString), !append_nil in *.
  rewrite segments_app_dot by reflexivity.
  rewrite segments_app_dot by exact Hseg.
  rewrite segments_dotfree by exact Htag. reflexivity.
Qed.

(** C5 (amended).  Verifying a token right after signing it returns the
    signed claims unchanged, field for field, together with the
    issued-at and the expiry that signing adds; once the validity has
    elapsed, verifying the same token returns [null]. *)
Theorem verify_after_sign payload w :
  0 < jwt_expiresIn config ->
  segment_decode (segment_encode (signed_claims payload (clock w) (jwt_expiresIn config)))
    = Some (signed_claims payload (clock w) (jwt_expiresIn config)) ->
  dotfree (segment_encode (signed_claims payload (clock w) (jwt_expiresIn config))) = true ->
  dotfree (hmac (jwt_secret config)
             (jwt.header +:+ "." +:+
              segment_encode (signed_claims payload (clock w) (jwt_expiresIn config))))
    = true ->
  exists token,
    generateToken config payload w = (Ok token, w)
    /\ verifyToken config token w
       = (Ok (Some (signed_claims payload (clock w) (jwt_expiresIn config))), w)
    /\ claims (signed_claims payload (clock w) (jwt_expiresIn config)) = payload
    /\ forall w', clock w + jwt_expiresIn config <= clock w' ->
                  verifyToken config token w' = (Ok None, w').
Proof.
  intros Hpos Hdec Hseg Htag.
  exists (jwt.sign payload (jwt_secret config) (jwt_expiresIn config) (clock w)).
  split; [reflexivity|].
  assert (forall t,
    jwt.verify (jwt.sign payload (jwt_secret config) (jwt_expiresIn config) (clock w))
               (jwt_secret config) t
    = if clock w + jwt_expiresIn config <=? t then inr jwt.TokenExpiredError
      else inl (signed_claims payload (clock w) (jwt_expiresIn config))) as Hv.
  { intros t. unfold jwt.verify. rewrite segments_sign by assumption.
    rewrite Hdec, String.eqb_refl. reflexivity. }
  split; [|split; [reflexivity|]].
  - rewrite verifyToken_run, Hv.
    destruct (Z.leb_spec (clock w + jwt_expiresIn config) (clock w)); [lia|reflexivity].
  - intros w' Hlate. rewrite verifyToken_run, Hv.
    destruct (Z.leb_spec (clock w + jwt_expiresIn config) (clock w')); [reflexivity|lia].
Qed.

Lemma verify_Ok token secret t d :
  jwt.verify token secret t = inl d ->
  exists h p s,
    jwt.segments token = [h; p; s] /\ segment_decode p = Some d
    /\ s = hmac secret (h +:+ "." +:+ p)
    /\ forall e, exp d = Some e -> t < e.
Proof.
  unfold jwt.verify.
  destruct (jwt.segments token) as [|h [|p [|s [|? ?]]]]; try discriminate.
  destruct (segment_decode p) as [d'|] eqn:Hd; [|discriminate].
  destruct (String.eqb_spec s (hmac secret (h +:+ "." +:+ p))) as [Hs|]; [|discriminate].
  intros E. exists h, p, s.
  destruct (exp d') as [e|] eqn:He.
  - destruct (Z.leb_spec e t); [discriminate|]. injection E as <-.
    split; [reflexivity|]. split; [exact Hd|]. split; [exact Hs|].
    intros e' E'. rewrite He in E'. injection E' as <-. lia.
  - injection E as <-.
    split; [reflexivity|]. split; [exact Hd|]. split; [exact Hs|].
    intros e' E'. congruence.
Qed.

(** C6.  Take a token that verifies at some time.  Any copy of it with
    one character replaced fails verification at every time (as long as
    the changed signing input does not produce the same tag), and the
    token itself fails once its expiry is reached.  The package reports
    the first as a [JsonWebTokenError] and the second as a
    [TokenExpiredError]; [verifyToken] returns the same [null] for both. *)
Theorem verifyToken_uniform_invalid token d w0 :
  verifyToken config token w0 = (Ok (Some d), w0) ->
  (forall token' w,
     altered1 token token' = true ->
     (signing_input token' <> signing_input token ->
      hmac (jwt_secret config) (signing_input token')
      <> hmac (jwt_secret config) (signing_input token)) ->
     (exists message,
        jwt.verify token' (jwt_secret config) (clock w)
        = inr (jwt.JsonWebTokenError message))
     /\ verifyToken config token' w = (Ok None, w))
  /\ (forall e w,
        exp d = Some e -> e <= clock w ->
        jwt.verify token (jwt_secret config) (clock w) = inr jwt.TokenExpiredError
        /\ verifyToken config token w = (Ok None, w)).
Proof.
  intros Hok. rewrite verifyToken_run in Hok.
  destruct (jwt.verify token (jwt_secret config) (clock w0)) as [d0|] eqn:Hv;
    [|discriminate].
  injection Hok as ->.
  apply verify_Ok in Hv as (h & p & s & Hseg & Hdec & Hs & _).
  split.
  - intros token' w Halt Hcoll.
    assert (exists message,
              jwt.verify token' (jwt_secret config) (clock w)
              = inr (jwt.JsonWebTokenError message)) as [message Hm].
    { unfold jwt.verify.
      destruct (jwt.segments token') as [|h' [|p' [|s' [|? ?]]]] eqn:Hseg';
        try (eexists; reflexivity).
      destruct (segment_decode p') as [d'|]; [|eexists; reflexivity].
      destruct (String.eqb_spec s' (hmac (jwt_secret config) (h' +:+ "." +:+ p')))
        as [Hs'|]; [|eexists; reflexivity].
      exfalso.
      destruct (altered1_segments _ _ Halt) as (pre & x & y & post & Ea & Eb & Hxy).
      { rewrite Hseg, Hseg'. reflexivity. }
      unfold signing_input in Hcoll. rewrite Hseg, Hseg' in Hcoll.
      rewrite Hseg in Ea. rewrite Hseg' in Eb.
      destruct pre as [|q1 [|q2 [|q3 pre]]]; cbn in Ea, Eb; simplify_eq.
      - apply Hcoll; [|congruence].
        apply not_eq_sym, altered1_app_neq. exact Hxy.
      - apply Hcoll; [|congruence].
        intros E. apply String.app_inj in E. apply String.app_inj in E.
        revert E. apply not_eq_sym, altered1_neq. exact Hxy.
      - apply altered1_neq in Hxy. congruence.
      - destruct pre; discriminate. }
    split; [eauto|]. rewrite verifyToken_run, Hm. reflexivity.
  - intros e w He Hlate.
    assert (jwt.verify token (jwt_secret config) (clock w) = inr jwt.TokenExpiredError)
      as Hexp.
    { unfold jwt.verify. rewrite Hseg, Hdec, <- Hs, String.eqb_refl, He.
      destruct (Z.leb_spec e (clock w)); [reflexivity|lia]. }
    split; [exact Hexp|]. rewrite verifyToken_run, Hexp. reflexivity.
Qed.

End Tokens.

Lemma verify_after_sign_witness :
  0 < jwt_expiresIn Demo.config
  /\ exists token,
       @generateToken Demo.platform Demo.config Demo.alice Demo.empty_world
       = (Ok token, Demo.empty_world)
       /\ @verifyToken Demo.platform Demo.config token Demo.empty_world
          = (Ok (Some (signed_claims Demo.alice 1000 3600)), Demo.empty_world)
       /\ claims (signed_claims Demo.alice 1000 3600) = Demo.alice
       /\ forall w', 1000 + 3600 <= clock w' ->
                     @verifyToken Demo.platform Demo.config token w' = (Ok None, w').
Proof.
  split; [reflexivity|].
  apply (@verify_after_sign Demo.platform Demo.config Demo.alice Demo.empty_world);
    reflexivity.
Defined.

(** C5 as stated does not hold: what verification returns right after
    signing is not the signed claim set alone; it carries [iat] and [exp]
    as well. *)
Lemma verify_after_sign_has_extra_fields :
  @generateToken Demo.platform Demo.config Demo.alice Demo.empty_world
  = (Ok alice_token, Demo.empty_world)
  /\ @verifyToken Demo.platform Demo.config alice_token Demo.empty_world
     <> (Ok (Some (mkPrincipal Demo.alice None None)), Demo.empty_world).
Proof.
  split; [reflexivity|]. intros E. vm_compute in E. discriminate.
Qed.

Lemma verifyToken_uniform_invalid_witness :
  @verifyToken Demo.platform Demo.config alice_token Demo.empty_world
  = (Ok (Some (signed_claims Demo.alice 1000 3600)), Demo.empty_world)
  /\ altered1 alice_token alice_token_altered = true
  /\ @verifyToken Demo.platform Demo.config alice_token_altered Demo.empty_world
     = (Ok None, Demo.empty_world)
  /\ @verifyToken Demo.platform Demo.config alice_token later_world
     = (Ok None, later_world).
Proof.
  pose proof (@verifyToken_uniform_invalid Demo.platform Demo.config alice_token
                (signed_claims Demo.alice 1000 3600) Demo.empty_world eq_refl)
    as [Haltered Hexpired].
  split; [reflexivity|]. split; [reflexivity|]. split.
  - apply Haltered; [reflexivity|].
    intros _ E. vm_compute in E. discriminate.
  - apply (Hexpired 4600 later_world); [reflexivity|]. cbn. lia.
Defined.

(** ** Write paths: mutation first, then invalidation *)

Lemma steps_refl w : steps w w [].
Proof. unfold steps. rewrite app_nil_r. auto. Qed.

Lemma steps_trans w w1 w2 e1 e2 :
  steps w w1 e1 -> steps w1 w2 e2 -> steps w w2 (e1 ++ e2).
Proof.
  intros [T1 C1] [T2 C2]. unfold steps. rewrite T2, T1, app_assoc. split; congruence.
Qed.

Lemma plain_role : plain_table prisma.role.
Proof. intros l w. auto. Qed.

Lemma plain_admin : plain_table prisma.admin.
Proof. intros l w. auto. Qed.

Lemma plain_user : plain_table prisma.user.
Proof. intros l w. auto. Qed.

#[local] Hint Resolve plain_role plain_admin plain_user : core.

Lemma log_steps e w : steps w (log e w) [e].
Proof. unfold steps. auto. Qed.

Lemma findFirst_steps {A} (tb : prisma.Table A) p w a w1 :
  prisma.findFirst tb p w = (Ok a, w1) -> steps w w1 [DbRead (prisma.model tb)].
Proof.
  intros E. apply query_Ok in E as [_ E]. injection E as _ <-. apply log_steps.
Qed.

Lemma role_with_count_steps i w a w1 :
  prisma.role_with_count i w = (Ok a, w1) -> steps w w1 [DbRead "role"].
Proof.
  intros E. apply query_Ok in E as [_ E]. injection E as _ <-. apply log_steps.
Qed.

Lemma create_steps {A} (tb : prisma.Table A) row w a w1 :
  plain_table tb ->
  prisma.create tb row w = (Ok a, w1) ->
  steps w w1 [DbWrite (prisma.model tb) "create"].
Proof.
  intros Hp E. apply query_Ok in E as [_ E]. injection E as _ <-.
  destruct (Hp (prisma.rows tb (log (DbWrite (prisma.model tb) "create") w) ++ [row])
               (log (DbWrite (prisma.model tb) "create") w)) as [T C].
  unfold steps. rewrite T, C. auto.
Qed.

Lemma update_steps {A} (tb : prisma.Table A) i f w a w1 :
  plain_table tb ->
  prisma.update tb i f w = (Ok a, w1) ->
  steps w w1 [DbWrite (prisma.model tb) "update"].
Proof.
  intros Hp E. apply query_Ok in E as [_ E].
  destruct (List.find _ _); [|discriminate]. injection E as _ <-.
  match goal with |- steps _ (prisma.put _ ?l ?w0) _ => destruct (Hp l w0) as [T C] end.
  unfold steps. rewrite T, C. auto.
Qed.

Lemma updateMany_steps {A} (tb : prisma.Table A) p f w a w1 :
  plain_table tb ->
  prisma.updateMany tb p f w = (Ok a, w1) ->
  steps w w1 [DbWrite (prisma.model tb) "updateMany"].
Proof.
  intros Hp E. apply query_Ok in E as [_ E]. injection E as _ <-.
  match goal with |- steps _ (prisma.put _ ?l ?w0) _ => destruct (Hp l w0) as [T C] end.
  unfold steps. rewrite T, C. auto.
Qed.

Lemma delete_steps {A} (tb : prisma.Table A) i w a w1 :
  plain_table tb ->
  prisma.delete tb i w = (Ok a, w1) ->
  steps w w1 [DbWrite (prisma.model tb) "delete"].
Proof.
  intros Hp E. apply query_Ok in E as [_ E].
  destruct (List.find _ _); [|discriminate]. injection E as _ <-.
  match goal with |- steps _ (prisma.put _ ?l ?w0) _ => destruct (Hp l w0) as [T C] end.
  unfold steps. rewrite T, C. auto.
Qed.

Lemma cache_delete_steps key w u w1 :
  isConnected w = true ->
  CacheService.delete key w = (Ok u, w1) -> steps w w1 [Redis (DEL key)].
Proof.
  intros Hc E. destruct (delete_spec key w) as (w' & E' & Hstep & T).
  rewrite E' in E. injection E as _ <-. rewrite Hc in T.
  unfold steps. split; [exact T|]. apply Hstep.
Qed.

Lemma cache_deletePattern_steps pattern w u w1 :
  isConnected w = true ->
  CacheService.deletePattern pattern w = (Ok u, w1) ->
  exists ks, steps w w1 (Redis (KEYS pattern) :: del_events ks).
Proof.
  intros Hc E. destruct (deletePattern_spec pattern w) as (w' & ks & E' & Hstep & T).
  rewrite E' in E. injection E as _ <-. rewrite Hc in T.
  exists ks. unfold steps. split; [exact T|]. apply Hstep.
Qed.

(** [take H a w1 Hc]: the first computation of the [bind] in [H] returned
    [a] in world [w1]. *)
Tactic Notation "take" hyp(H) ident(a) ident(w1) ident(Hc) :=
  apply bind_Ok in H as (a & w1 & Hc & H).

Section WritePaths.
Context `{Platform}.
Variable config : Config.
Variable schema : Schema.

Lemma cache_get_steps key w :
  isConnected w = true ->
  exists v w1, CacheService.get key w = (Ok v, w1) /\ steps w w1 [Redis (GET key)].
Proof.
  intros Hc.
  unfold CacheService.get, bind, try_catch, redis.isReady, redis.get, redis.command.
  rewrite Hc. cbn. destruct (redisDown w); cbn.
  - eexists _, _. split; [reflexivity|]. unfold steps. auto.
  - destruct (store w !! key) as [e|]; [destruct (redis.live (clock w) e)|];
      try (eexists _, _; split; [reflexivity|]; unfold steps; auto).
    destruct (truthy_string (e_data e));
      [|eexists _, _; split; [reflexivity|]; unfold steps; auto].
    unfold JSON.parse. destruct (JSON_parse (e_data e)); cbn;
      eexists _, _; (split; [reflexivity|]); unfold steps; auto.
Qed.

Lemma cache_set_steps key v ttl w :
  exists w1 evs,
    CacheService.set config key v ttl w = (Ok tt, w1)
    /\ steps w w1 evs /\ List.forallb quiet evs = true.
Proof.
  unfold CacheService.set, bind, try_catch, redis.isReady, redis.set.
  destruct (isConnected w) eqn:Hc; cbn.
  - destruct (num_or ttl (CacheService.defaultTTL config) =? 0); cbn.
    + unfold redis.set_plain, redis.command. cbn.
      destruct (redisDown w); cbn; eexists _, [_]; (split; [reflexivity|]);
        unfold steps; cbn; auto.
    + unfold redis.setEx. cbn.
      destruct (redisDown w || _); cbn; eexists _, [_]; (split; [reflexivity|]);
        unfold steps; cbn; auto.
  - exists w, []. split; [reflexivity|]. split; [apply steps_refl|reflexivity].
Qed.

(** Reading a role through the cache writes nothing to the database and
    invalidates nothing. *)
Lemma getById_quiet id w v w1 :
  isConnected w = true ->
  RoleService.getById config id w = (Ok v, w1) ->
  exists evs, steps w w1 evs /\ List.forallb quiet evs = true.
Proof.
  intros Hc E. unfold RoleService.getById, CacheService.getOrSet in E.
  destruct (cache_get_steps ("role:" +:+ id) w Hc) as (c & w0 & Hget & S0).
  rewrite (bind_step _ _ _ _ _ Hget) in E.
  destruct (truthy c).
  - injection E as _ <-. exists [Redis (GET ("role:" +:+ id))]. auto.
  - apply bind_Ok in E as (data & w2 & Hfetch & E).
    apply bind_Ok in Hfetch as (found & w3 & Hfind & Hfetch).
    apply role_with_count_steps in Hfind as S1.
    destruct found as [[r n]|]; [|discriminate].
    apply bind_Ok in Hfetch as (perms & w4 & Hperm & Hfetch).
    apply permissions_value_pure in Hperm as ->.
    injection Hfetch as _ <-.
    destruct (cache_set_steps ("role:" +:+ id) data None w3) as (w5 & evs & Hset & S2 & Q).
    rewrite (bind_step _ _ _ _ _ Hset) in E. injection E as _ <-.
    exists (([Redis (GET ("role:" +:+ id))] ++ [DbRead "role"]) ++ evs). split.
    + eauto using steps_trans.
    + cbn. exact Q.
Qed.


Lemma settled_dels ks :
  List.forallb (fun x => negb (is_mutation x)) (del_events ks) = true.
Proof. induction ks as [|k ks IH]; [reflexivity|exact IH]. Qed.

Lemma settled_quiet evs rest :
  List.forallb quiet evs = true -> settled (evs ++ rest) = settled rest.
Proof.
  induction evs as [|e evs IH]; [reflexivity|]. cbn [List.forallb app settled].
  intros Q. apply andb_true_iff in Q as [Qe Q]. unfold quiet in Qe.
  apply andb_true_iff in Qe as [_ Qi]. apply negb_true_iff in Qi. rewrite Qi.
  exact (IH Q).
Qed.

(** One run of each write path, decomposed into its steps. *)
Lemma RoleService_create_steps newId data w r w1 :
  isConnected w = true ->
  RoleService.create schema newId data w = (Ok r, w1) ->
  exists ks,
    steps w w1 ([DbRead "role"; DbWrite "role" "create"; Redis (KEYS "roles:*")]
                ++ del_events ks).
Proof.
  intros Hc E. unfold RoleService.create in E.
  take E existing wa Ha. apply findFirst_steps in Ha as Sa.
  destruct existing; [discriminate|].
  take E rl wb Hb. apply create_steps in Hb as Sb; [|auto].
  take E u wc Hd.
  apply cache_deletePattern_steps in Hd as [ks Sc];
    [|rewrite (proj2 Sb), (proj2 Sa); exact Hc].
  take E perms wd He. apply permissions_value_pure in He as ->.
  injection E as _ <-. exists ks.
  exact (steps_trans _ _ _ _ _ (steps_trans _ _ _ _ _ Sa Sb) Sc).
Qed.

Lemma RoleService_update_steps id data w r w1 :
  isConnected w = true ->
  RoleService.update id data w = (Ok r, w1) ->
  exists ks,
    steps w w1 ([DbWrite "role" "update"; Redis (DEL ("role:" +:+ id));
                 Redis (KEYS "roles:*")] ++ del_events ks).
Proof.
  intros Hc E. unfold RoleService.update in E.
  take E rl wa Ha. apply update_steps in Ha as Sa; [|auto].
  take E u wb Hb.
  apply cache_delete_steps in Hb as Sb; [|rewrite (proj2 Sa); exact Hc].
  take E u' wc Hd.
  apply cache_deletePattern_steps in Hd as [ks Sc];
    [|rewrite (proj2 Sb), (proj2 Sa); exact Hc].
  take E perms wd He. apply permissions_value_pure in He as ->.
  injection E as _ <-. exists ks.
  exact (steps_trans _ _ _ _ _ (steps_trans _ _ _ _ _ Sa Sb) Sc).
Qed.

Lemma RoleService_delete_steps id w r w1 :
  isConnected w = true ->
  RoleService.delete id w = (Ok r, w1) ->
  exists ks,
    steps w w1 ([DbRead "role"; DbWrite "role" "delete"; Redis (DEL ("role:" +:+ id));
                 Redis (KEYS "roles:*")] ++ del_events ks).
Proof.
  intros Hc E. unfold RoleService.delete in E.
  take E found w0 H0. apply role_with_count_steps in H0 as S0.
  destruct found as [[r0 n]|]; [|discriminate].
  destruct (n >? 0); [discriminate|].
  take E rl wa Ha. apply delete_steps in Ha as Sa; [|auto].
  take E u wb Hb.
  apply cache_delete_steps in Hb as Sb; [|rewrite (proj2 Sa), (proj2 S0); exact Hc].
  take E u' wc Hd.
  apply cache_deletePattern_steps in Hd as [ks Sc];
    [|rewrite (proj2 Sb), (proj2 Sa), (proj2 S0); exact Hc].
  injection E as _ <-. exists ks.
  exact (steps_trans _ _ _ _ _
           (steps_trans _ _ _ _ _ (steps_trans _ _ _ _ _ S0 Sa) Sb) Sc).
Qed.

Lemma RoleService_setDefault_steps id w r w1 :
  isConnected w = true ->
  RoleService.setDefault id w = (Ok r, w1) ->
  exists ks,
    steps w w1 ([DbWrite "role" "updateMany"; DbWrite "role" "update";
                 Redis (KEYS "roles:*")] ++ del_events ks).
Proof.
  intros Hc E. unfold RoleService.setDefault in E.
  take E u0 w0 H0. apply updateMany_steps in H0 as S0; [|auto].
  take E rl wa Ha. apply update_steps in Ha as Sa; [|auto].
  take E u' wc Hd.
  apply cache_deletePattern_steps in Hd as [ks Sc];
    [|rewrite (proj2 Sa), (proj2 S0); exact Hc].
  injection E as _ <-. exists ks.
  exact (steps_trans _ _ _ _ _ (steps_trans _ _ _ _ _ S0 Sa) Sc).
Qed.

Lemma AdminService_create_steps newId data w r w1 :
  isConnected w = true ->
  AdminService.create schema newId data w = (Ok r, w1) ->
  exists ks,
    steps w w1 ([DbRead "admin"; DbWrite "admin" "create"; Redis (KEYS "admins:*")]
                ++ del_events ks).
Proof.
  intros Hc E. unfold AdminService.create in E.
  take E existing wa Ha. apply findFirst_steps in Ha as Sa.
  destruct existing; [discriminate|].
  take E adm wb Hb. apply create_steps in Hb as Sb; [|auto].
  take E u wc Hd.
  apply cache_deletePattern_steps in Hd as [ks Sc];
    [|rewrite (proj2 Sb), (proj2 Sa); exact Hc].
  injection E as _ <-. exists ks.
  exact (steps_trans _ _ _ _ _ (steps_trans _ _ _ _ _ Sa Sb) Sc).
Qed.

Lemma AdminService_update_steps id data w r w1 :
  isConnected w = true ->
  AdminService.update id data w = (Ok r, w1) ->
  steps w w1 [DbWrite "admin" "update"; Redis (DEL ("admin:" +:+ id))].
Proof.
  intros Hc E. unfold AdminService.update in E.
  take E adm wa Ha. apply update_steps in Ha as Sa; [|auto].
  take E u wb Hb.
  apply cache_delete_steps in Hb as Sb; [|rewrite (proj2 Sa); exact Hc].
  take E perms wd He. apply permissions_value_pure in He as ->.
  injection E as _ <-.
  exact (steps_trans _ _ _ _ _ Sa Sb).
Qed.

Lemma AdminService_delete_steps id w r w1 :
  isConnected w = true ->
  AdminService.delete id w = (Ok r, w1) ->
  exists ks,
    steps w w1 ([DbWrite "admin" "delete"; Redis (DEL ("admin:" +:+ id));
                 Redis (KEYS "admins:*")] ++ del_events ks).
Proof.
  intros Hc E. unfold AdminService.delete in E.
  take E adm wa Ha. apply delete_steps in Ha as Sa; [|auto].
  take E u wb Hb.
  apply cache_delete_steps in Hb as Sb; [|rewrite (proj2 Sa); exact Hc].
  take E u' wc Hd.
  apply cache_deletePattern_steps in Hd as [ks Sc];
    [|rewrite (proj2 Sb), (proj2 Sa); exact Hc].
  injection E as _ <-. exists ks.
  exact (steps_trans _ _ _ _ _ (steps_trans _ _ _ _ _ Sa Sb) Sc).
Qed.

Lemma AdminService_toggleUserStatus_steps userId w r w1 :
  isConnected w = true ->
  AdminService.toggleUserStatus userId w = (Ok r, w1) ->
  steps w w1 [DbRead "user"; DbWrite "user" "update"; Redis (DEL ("user:" +:+ userId))].
Proof.
  intros Hc E. unfold AdminService.toggleUserStatus in E.
  take E found w0 H0. apply findFirst_steps in H0 as S0.
  destruct found as [u0|]; [|discriminate].
  take E updated wa Ha. apply update_steps in Ha as Sa; [|auto].
  take E u wb Hb.
  apply cache_delete_steps in Hb as Sb; [|rewrite (proj2 Sa), (proj2 S0); exact Hc].
  injection E as _ <-.
  exact (steps_trans _ _ _ _ _ (steps_trans _ _ _ _ _ S0 Sa) Sb).
Qed.

Lemma UserService_create_steps newId data w r w1 :
  isConnected w = true ->
  UserService.create schema newId data w = (Ok r, w1) ->
  exists reads ks,
    List.forallb quiet reads = true
    /\ steps w w1 (reads ++ [DbWrite "user" "create"; Redis (KEYS "users:*")]
                   ++ del_events ks).
Proof.
  intros Hc E. unfold UserService.create in E.
  take E existing wa Ha. apply findFirst_steps in Ha as Sa.
  destruct existing; [discriminate|].
  take E roleId w0 H0.
  assert (exists reads, List.forallb quiet reads = true /\ steps w w0 reads)
    as (reads & Q & S0).
  { destruct (opt_truthy (CreateUserDto.roleId data)).
    - injection H0 as _ <-. exists [DbRead "user"]. auto.
    - take H0 d wd Hd. apply findFirst_steps in Hd as Sd.
      destruct d; [|discriminate]. injection H0 as _ <-.
      exists ([DbRead "user"] ++ [DbRead "role"]). split; [reflexivity|].
      exact (steps_trans _ _ _ _ _ Sa Sd). }
  take E usr wb Hb. apply create_steps in Hb as Sb; [|auto].
  take E u wc Hd.
  apply cache_deletePattern_steps in Hd as [ks Sc];
    [|rewrite (proj2 Sb), (proj2 S0); exact Hc].
  injection E as _ <-. exists reads, ks. split; [exact Q|].
  pose proof (steps_trans _ _ _ _ _ (steps_trans _ _ _ _ _ S0 Sb) Sc) as S.
  rewrite <- app_assoc in S. exact S.
Qed.

Lemma UserService_update_steps id data w r w1 :
  isConnected w = true ->
  UserService.update id data w = (Ok r, w1) ->
  steps w w1 [DbWrite "user" "update"; Redis (DEL ("user:" +:+ id))].
Proof.
  intros Hc E. unfold UserService.update in E.
  take E usr wa Ha. apply update_steps in Ha as Sa; [|auto].
  take E u wb Hb.
  apply cache_delete_steps in Hb as Sb; [|rewrite (proj2 Sa); exact Hc].
  injection E as _ <-.
  exact (steps_trans _ _ _ _ _ Sa Sb).
Qed.

Lemma UserService_delete_steps id w r w1 :
  isConnected w = true ->
  UserService.delete id w = (Ok r, w1) ->
  exists ks,
    steps w w1 ([DbWrite "user" "delete"; Redis (DEL ("user:" +:+ id));
                 Redis (KEYS "users:*")] ++ del_events ks).
Proof.
  intros Hc E. unfold UserService.delete in E.
  take E usr wa Ha. apply delete_steps in Ha as Sa; [|auto].
  take E u wb Hb.
  apply cache_delete_steps in Hb as Sb; [|rewrite (proj2 Sa); exact Hc].
  take E u' wc Hd.
  apply cache_deletePattern_steps in Hd as [ks Sc];
    [|rewrite (proj2 Sb), (proj2 Sa); exact Hc].
  injection E as _ <-. exists ks.
  exact (steps_trans _ _ _ _ _ (steps_trans _ _ _ _ _ Sa Sb) Sc).
Qed.

Lemma UserService_changeRole_steps userId roleId w r w1 :
  isConnected w = true ->
  UserService.changeRole config userId roleId w = (Ok r, w1) ->
  exists reads,
    List.forallb quiet reads = true
    /\ steps w w1 (reads ++ [DbWrite "user" "update"; Redis (DEL ("user:" +:+ userId))]).
Proof.
  intros Hc E. unfold UserService.changeRole in E.
  take E rl w0 H0. apply getById_quiet in H0 as (reads & S0 & Q); [|exact Hc].
  take E usr wa Ha. apply update_steps in Ha as Sa; [|auto].
  take E u wb Hb.
  apply cache_delete_steps in Hb as Sb; [|rewrite (proj2 Sa), (proj2 S0); exact Hc].
  injection E as _ <-. exists reads. split; [exact Q|].
  pose proof (steps_trans _ _ _ _ _ (steps_trans _ _ _ _ _ S0 Sa) Sb) as S.
  rewrite <- app_assoc in S. exact S.
Qed.


Lemma mutation_first_quiet reads rest :
  List.forallb quiet reads = true ->
  mutation_first rest = true -> mutation_first (reads ++ rest) = true.
Proof.
  intros Q Hm. unfold mutation_first in *. apply andb_true_iff in Hm as [Hex Hs].
  rewrite existsb_app, Hex, orb_true_r, settled_quiet by exact Q. exact Hs.
Qed.

Lemma invalidates_key_app key reads rest :
  invalidates_key key rest = true -> invalidates_key key (reads ++ rest) = true.
Proof.
  unfold invalidates_key. intros E. rewrite existsb_app, E. apply orb_true_r.
Qed.

Lemma invalidates_pattern_app pattern reads rest :
  invalidates_pattern pattern rest = true ->
  invalidates_pattern pattern (reads ++ rest) = true.
Proof.
  unfold invalidates_pattern. intros E. rewrite existsb_app, E. apply orb_true_r.
Qed.

(** The order of the events of a write path.  Every entity write path
    that completes behind a ready cache has written to the database
    before it sends an invalidation command, and does not write to the
    database afterwards; the commands it sends are those of
    [invalidation]. *)
Lemma write_paths_mutate_then_send p w u w1 :
  isConnected w = true ->
  run config schema p w = (Ok u, w1) ->
  exists evs,
    trace w1 = trace w ++ evs
    /\ mutation_first evs = true
    /\ invalidation p evs = true.
Proof.
  intros Hc E. unfold run in E.
  destruct p; take E r w2 Hrun; apply ret_Ok in E as [_ ->].
  - apply RoleService_create_steps in Hrun as (ks & T & _); [|exact Hc].
    eexists. split; [exact T|]. cbn.
    unfold mutation_first. cbn. rewrite settled_dels. auto.
  - apply RoleService_update_steps in Hrun as (ks & T & _); [|exact Hc].
    eexists. split; [exact T|]. cbn.
    unfold mutation_first. cbn. rewrite settled_dels, String.eqb_refl. auto.
  - apply RoleService_delete_steps in Hrun as (ks & T & _); [|exact Hc].
    eexists. split; [exact T|]. cbn.
    unfold mutation_first. cbn. rewrite settled_dels, String.eqb_refl. auto.
  - apply RoleService_setDefault_steps in Hrun as (ks & T & _); [|exact Hc].
    eexists. split; [exact T|]. cbn.
    unfold mutation_first. cbn. rewrite settled_dels. auto.
  - apply AdminService_create_steps in Hrun as (ks & T & _); [|exact Hc].
    eexists. split; [exact T|]. cbn.
    unfold mutation_first. cbn. rewrite settled_dels. auto.
  - apply AdminService_update_steps in Hrun as (T & _); [|exact Hc].
    eexists. split; [exact T|]. cbn. rewrite String.eqb_refl. auto.
  - apply AdminService_delete_steps in Hrun as (ks & T & _); [|exact Hc].
    eexists. split; [exact T|]. cbn.
    unfold mutation_first. cbn. rewrite settled_dels, String.eqb_refl. auto.
  - apply AdminService_toggleUserStatus_steps in Hrun as (T & _); [|exact Hc].
    eexists. split; [exact T|]. cbn. rewrite String.eqb_refl. auto.
  - apply UserService_create_steps in Hrun as (reads & ks & Q & T & _); [|exact Hc].
    eexists. split; [exact T|]. split.
    + apply mutation_first_quiet; [exact Q|].
      unfold mutation_first. cbn. rewrite settled_dels. reflexivity.
    + cbn [invalidation collection_pattern]. apply invalidates_pattern_app. reflexivity.
  - apply UserService_update_steps in Hrun as (T & _); [|exact Hc].
    eexists. split; [exact T|]. cbn. rewrite String.eqb_refl. auto.
  - apply UserService_delete_steps in Hrun as (ks & T & _); [|exact Hc].
    eexists. split; [exact T|]. cbn.
    unfold mutation_first. cbn. rewrite settled_dels, String.eqb_refl. auto.
  - apply UserService_changeRole_steps in Hrun as (reads & Q & T & _); [|exact Hc].
    eexists. split; [exact T|]. split.
    + apply mutation_first_quiet; [exact Q|]. reflexivity.
    + cbn [invalidation entity_key]. apply invalidates_key_app.
      cbn. rewrite String.eqb_refl. reflexivity.
Qed.

End WritePaths.

(** C7.  The code breaks the claim on [setDefault].  The role r1 is not
    the default; [getById] reads it once and caches its view under
    [role:r1].  [setDefault] then makes r1 the default in the database and
    sends the [KEYS] of [roles:*], but no [DEL] of [role:r1]: the entry
    stays, and the next [getById] returns the old view, which says
    [isDefault: false], without reading the database.  The sibling
    [update], from the same state, removes the entry, and the next
    [getById] reads the database again.  With a cached listing beside the
    view, [setDefault] removes the listing and leaves the view; [update]
    removes both. *)
Theorem setDefault_serves_stale_role_view :
  exists w1 r w2,
    @RoleService.getById view_platform Demo.config "r1" editor_only_world
    = (Ok editor_view, w1)
    /\ field "isDefault" editor_view = Some (JBool false)
    /\ RoleService.setDefault "r1" w1 = (Ok r, w2)
    /\ Role.id r = "r1" /\ Role.isDefault r = true /\ defaults w2 = [r]
    /\ trace w2 = trace w1 ++ [DbWrite "role" "updateMany"; DbWrite "role" "update";
                               Redis (KEYS "roles:*")]
    /\ stored "role:r1" w2 = Some (Demo.print editor_view)
    /\ @RoleService.getById view_platform Demo.config "r1" w2
       = (Ok editor_view, log (Redis (GET "role:r1")) w2)
    /\ (exists updated w3 fresh w4,
          @RoleService.update view_platform "r1" new_name_dto w1 = (Ok updated, w3)
          /\ stored "role:r1" w3 = None
          /\ @RoleService.getById view_platform Demo.config "r1" w3 = (Ok fresh, w4)
          /\ field "name" fresh = Some (JStr "Chief")
          /\ trace w4 = trace w3 ++ [Redis (GET "role:r1"); DbRead "role";
                                     Redis (SETEX "role:r1" 3600)])
    /\ stored "roles:page:1" (snd (RoleService.setDefault "r1" (with_listing w1))) = None
    /\ stored "role:r1" (snd (RoleService.setDefault "r1" (with_listing w1)))
       = Some (Demo.print editor_view)
    /\ stored "roles:page:1"
         (snd (@RoleService.update view_platform "r1" new_name_dto (with_listing w1)))
       = None
    /\ stored "role:r1"
         (snd (@RoleService.update view_platform "r1" new_name_dto (with_listing w1)))
       = None.
Proof.
  eexists _, _, _. split; [vm_compute; reflexivity|].
  split; [reflexivity|]. split; [vm_compute; reflexivity|].
  split; [reflexivity|]. split; [reflexivity|]. split; [reflexivity|].
  split; [reflexivity|]. split; [vm_compute; reflexivity|].
  split; [vm_compute; reflexivity|]. split.
  - eexists _, _, _, _. split; [vm_compute; reflexivity|].
    split; [vm_compute; reflexivity|]. split; [vm_compute; reflexivity|].
    split; reflexivity.
  - repeat split; vm_compute; reflexivity.
Qed.

(** ** Further properties of the cache service *)

Section CacheServiceMore.
Context `{Platform}.
Variable config : Config.

Lemma clear_spec w :
  exists w',
    CacheService.clear w = (Ok tt, w') /\ cache_step w w'
    /\ (isConnected w = true -> redisDown w = false -> store w' = ∅).
Proof.
  unfold CacheService.clear, bind, try_catch, redis.isReady, redis.flush, redis.command.
  destruct (isConnected w) eqn:Hc; cbn.
  - destruct (redisDown w) eqn:Hd; cbn; eexists; (split; [reflexivity|]);
      unfold cache_step; cbn; split; auto 10; intros; congruence.
  - exists w. unfold cache_step. split; [reflexivity|]. split; [auto 10|]. congruence.
Qed.

Lemma get_spec key w :
  exists v w', CacheService.get key w = (Ok v, w') /\ cache_step w w' /\ store w' = store w.
Proof.
  unfold CacheService.get, bind, try_catch, redis.isReady, redis.get, redis.command.
  destruct (isConnected w) eqn:Hc; cbn.
  - destruct (redisDown w) eqn:Hd; cbn.
    + eexists _, _. split; [reflexivity|]. unfold cache_step. cbn. auto 10.
    + destruct (store w !! key) as [e|]; [destruct (redis.live (clock w) e)|];
        try (eexists _, _; split; [reflexivity|]; unfold cache_step; cbn; auto 10).
      destruct (truthy_string (e_data e));
        [|eexists _, _; split; [reflexivity|]; unfold cache_step; cbn; auto 10].
      unfold JSON.parse. destruct (JSON_parse (e_data e)); cbn;
        eexists _, _; (split; [reflexivity|]); unfold cache_step; cbn; auto 10.
  - exists JNull, w. unfold cache_step. auto 10.
Qed.

Lemma set_spec key v ttl w :
  exists w', CacheService.set config key v ttl w = (Ok tt, w') /\ cache_step w w'.
Proof.
  unfold CacheService.set, bind, try_catch, redis.isReady, redis.set.
  destruct (isConnected w) eqn:Hc; cbn.
  - destruct (num_or ttl (CacheService.defaultTTL config) =? 0); cbn.
    + unfold redis.set_plain, redis.command. cbn.
      destruct (redisDown w); cbn; eexists; (split; [reflexivity|]);
        unfold cache_step; cbn; auto 10.
    + unfold redis.setEx. cbn.
      destruct (redisDown w || _); cbn; eexists; (split; [reflexivity|]);
        unfold cache_step; cbn; auto 10.
  - exists w. unfold cache_step. auto 10.
Qed.

(** X1.  No operation of the cache service throws, whatever the state of
    the connection and of the server: a rejected Redis command and a cached
    text that does not parse are swallowed.  None of them touches the
    database or the readiness flag. *)
Theorem cache_operations_never_throw key value ttl pattern w :
  (exists v w', CacheService.get key w = (Ok v, w') /\ cache_step w w')
  /\ (exists w', CacheService.set config key value ttl w = (Ok tt, w') /\ cache_step w w')
  /\ (exists w', CacheService.delete key w = (Ok tt, w') /\ cache_step w w')
  /\ (exists w', CacheService.deletePattern pattern w = (Ok tt, w') /\ cache_step w w')
  /\ (exists w', CacheService.clear w = (Ok tt, w') /\ cache_step w w').
Proof.
  split; [|split; [|split; [|split]]].
  - destruct (get_spec key w) as (v & w' & E & S & _). eauto.
  - apply set_spec.
  - destruct (delete_spec key w) as (w' & E & S & _). eauto.
  - destruct (deletePattern_spec pattern w) as (w' & ks & E & S & _). eauto.
  - destruct (clear_spec w) as (w' & E & S & _). eauto.
Qed.

Lemma stored_with_clock key t w deadline d :
  store w !! key = Some (mkEntry d (Some deadline)) ->
  stored key (with_clock t w) = if t <? deadline then Some d else None.
Proof. intros E. unfold stored. cbn. rewrite E. reflexivity. Qed.

(** X2.  The read-through cycle.  On a miss the producer runs and its
    value is written under the key; from then until the time to live has
    elapsed, a call with the same key returns the value whatever producer
    it is given, and sends nothing but the [GET]; once the time to live has
    elapsed the producer of the call runs again.  (The value is truthy and
    survives the round trip through its JSON text.) *)
Theorem getOrSet_read_through key fetcher ttl w v w1 :
  isConnected w = true -> redisDown w = false ->
  stored key w = None ->
  fetcher (log (Redis (GET key)) w) = (Ok v, w1) ->
  isConnected w1 = true -> redisDown w1 = false ->
  0 < num_or ttl (cache_ttl config) ->
  JSON_stringify v <> "" -> JSON_parse (JSON_stringify v) = Some v -> truthy v = true ->
  exists w2,
    CacheService.getOrSet config key fetcher ttl w = (Ok v, w2)
    /\ (forall t fetcher' ttl',
          t < clock w1 + num_or ttl (cache_ttl config) ->
          CacheService.getOrSet config key fetcher' ttl' (with_clock t w2)
          = (Ok v, log (Redis (GET key)) (with_clock t w2)))
    /\ (forall t fetcher' ttl',
          clock w1 + num_or ttl (cache_ttl config) <= t ->
          CacheService.getOrSet config key fetcher' ttl' (with_clock t w2)
          = compute_and_store config key fetcher' ttl'
              (log (Redis (GET key)) (with_clock t w2))).
Proof.
  intros Hc Hd Hs Hf Hc1 Hd1 Hpos Hne Hp Ht.
  destruct (set_stores config key v ttl w1 Hc1 Hd1 Hpos)
    as (w2 & Hset & Hst & _ & Hc2 & Hd2).
  exists w2. split; [|split].
  - rewrite getOrSet_miss by assumption. unfold compute_and_store.
    rewrite (bind_step _ _ _ _ _ Hf), (bind_step _ _ _ _ _ Hset). reflexivity.
  - intros t fetcher' ttl' Hlt.
    apply getOrSet_hit with (d := JSON_stringify v); try assumption.
    rewrite (stored_with_clock _ _ _ _ _ Hst).
    destruct (Z.ltb_spec t (clock w1 + num_or ttl (cache_ttl config))); [reflexivity|lia].
  - intros t fetcher' ttl' Hge.
    apply getOrSet_miss; try assumption.
    rewrite (stored_with_clock _ _ _ _ _ Hst).
    destruct (Z.ltb_spec t (clock w1 + num_or ttl (cache_ttl config))); [lia|reflexivity].
Qed.

(** X3.  Invalidation forces recomputation: behind a ready cache and a
    reachable server, after [delete(key)], after a [deletePattern] whose
    pattern matches the key, and after [clear], the next [getOrSet] for the
    key runs its producer. *)
Theorem getOrSet_after_invalidation key pattern fetcher ttl w :
  isConnected w = true -> redisDown w = false ->
  (forall w', CacheService.delete key w = (Ok tt, w') ->
     CacheService.getOrSet config key fetcher ttl w'
     = compute_and_store config key fetcher ttl (log (Redis (GET key)) w'))
  /\ (redis.matches pattern key = true ->
      forall w', CacheService.deletePattern pattern w = (Ok tt, w') ->
        CacheService.getOrSet config key fetcher ttl w'
        = compute_and_store config key fetcher ttl (log (Redis (GET key)) w'))
  /\ (forall w', CacheService.clear w = (Ok tt, w') ->
        CacheService.getOrSet config key fetcher ttl w'
        = compute_and_store config key fetcher ttl (log (Redis (GET key)) w')).
Proof.
  intros Hc Hd. split; [|split].
  - intros w' E. destruct (delete_spec key w) as (w0 & E0 & S & _).
    pose proof (delete_removes key w Hc Hd key) as R. rewrite E in R. cbn in R.
    rewrite String.eqb_refl in R.
    destruct S as (_ & _ & _ & _ & _ & _ & C & D). rewrite E in E0.
    injection E0 as <-.
    apply getOrSet_miss; [congruence|congruence|exact R].
  - intros Hm w' E. destruct (deletePattern_spec pattern w) as (w0 & ks & E0 & S & _).
    pose proof (deletePattern_removes pattern w Hc Hd key) as R. rewrite E in R.
    cbn in R. rewrite Hm in R.
    destruct S as (_ & _ & _ & _ & _ & _ & C & D). rewrite E in E0.
    injection E0 as <-.
    apply getOrSet_miss; [congruence|congruence|exact R].
  - intros w' E. destruct (clear_spec w) as (w0 & E0 & S & Hempty).
    rewrite E in E0. injection E0 as <-.
    destruct S as (_ & _ & _ & _ & _ & _ & C & D).
    apply getOrSet_miss; [congruence|congruence|].
    unfold stored. rewrite (Hempty Hc Hd), lookup_empty. reflexivity.
Qed.

(** A producer that fails on a miss: its exception is the exception of
    [getOrSet], and nothing is sent to Redis after it. *)
Lemma getOrSet_miss_throw key fetcher ttl w e w1 :
  isConnected w = true -> redisDown w = false ->
  stored key w = None ->
  fetcher (log (Redis (GET key)) w) = (Throw e, w1) ->
  CacheService.getOrSet config key fetcher ttl w = (Throw e, w1).
Proof.
  intros Hc Hd Hs Hf. rewrite getOrSet_miss by assumption.
  unfold compute_and_store. apply bind_throw. exact Hf.
Qed.

(** X4.  What the invalidations remove, behind a ready cache and a
    reachable server: [delete] the key and nothing else, [deletePattern]
    the keys that match the pattern and nothing else, [clear] every key. *)
Theorem invalidation_effects key pattern w :
  isConnected w = true -> redisDown w = false ->
  (forall k, stored k (snd (CacheService.delete key w))
             = if String.eqb k key then None else stored k w)
  /\ (forall k, stored k (snd (CacheService.deletePattern pattern w))
                = if redis.matches pattern k then None else stored k w)
  /\ (forall k, stored k (snd (CacheService.clear w)) = None).
Proof.
  intros Hc Hd. split; [|split].
  - apply delete_removes; assumption.
  - apply deletePattern_removes; assumption.
  - intros k. destruct (clear_spec w) as (w' & E & _ & Hempty). rewrite E. cbn.
    unfold stored. rewrite (Hempty Hc Hd), lookup_empty. reflexivity.
Qed.

(** X5.  The time to live of a write: a missing or zero [ttlSeconds] is
    replaced by the configured default; when that is zero as well, the
    entry is written without expiry and is served at every later time. *)
Theorem set_time_to_live key v ttl w :
  isConnected w = true -> redisDown w = false ->
  exists w',
    CacheService.set config key v ttl w = (Ok tt, w')
    /\ (0 < num_or ttl (cache_ttl config) ->
        forall t, stored key (with_clock t w')
                  = if t <? clock w + num_or ttl (cache_ttl config)
                    then Some (JSON_stringify v) else None)
    /\ (num_or ttl (cache_ttl config) = 0 ->
        forall t, stored key (with_clock t w') = Some (JSON_stringify v))
    /\ (ttl = None \/ ttl = Some 0 -> num_or ttl (cache_ttl config) = cache_ttl config).
Proof.
  intros Hc Hd.
  unfold CacheService.set, bind, try_catch, redis.isReady, redis.set,
    CacheService.defaultTTL, JSON.stringify.
  rewrite Hc. cbn.
  destruct (Z.eqb_spec (num_or ttl (cache_ttl config)) 0) as [E|E]; cbn.
  - unfold redis.set_plain, redis.command. cbn. rewrite Hd. cbn.
    eexists. split; [reflexivity|]. split; [lia|]. split.
    + intros _ t. unfold stored. cbn. rewrite lookup_insert_eq. reflexivity.
    + intros [->| ->]; reflexivity.
  - unfold redis.setEx. cbn. rewrite Hd. cbn.
    destruct (Z.leb_spec (num_or ttl (cache_ttl config)) 0) as [Hle|Hgt]; cbn.
    + eexists. split; [reflexivity|]. split; [lia|]. split; [contradiction|].
      intros [->| ->]; reflexivity.
    + eexists. split; [reflexivity|]. split; [|split; [contradiction|]].
      * intros _ t. unfold stored. cbn. rewrite lookup_insert_eq. reflexivity.
      * intros [->| ->]; reflexivity.
Qed.

End CacheServiceMore.

Lemma getOrSet_read_through_witness :
  isConnected Demo.empty_world = true
  /\ stored "answer" Demo.empty_world = None
  /\ exists w2,
       @CacheService.getOrSet Demo.platform Demo.config "answer"
         (marked "producer" (JNum 42)) None Demo.empty_world = (Ok (JNum 42), w2)
       /\ @CacheService.getOrSet Demo.platform Demo.config "answer"
            (marked "other" (JNum 1)) None (with_clock 4599 w2)
          = (Ok (JNum 42), log (Redis (GET "answer")) (with_clock 4599 w2))
       /\ @CacheService.getOrSet Demo.platform Demo.config "answer"
            (marked "other" (JNum 1)) None (with_clock 4600 w2)
          = @compute_and_store Demo.platform Demo.config "answer" (marked "other" (JNum 1)) None
              (log (Redis (GET "answer")) (with_clock 4600 w2)).
Proof.
  split; [reflexivity|]. split; [reflexivity|].
  destruct (@getOrSet_read_through Demo.platform Demo.config "answer"
              (marked "producer" (JNum 42)) None Demo.empty_world (JNum 42)
              (log (Called "producer") (log (Redis (GET "answer")) Demo.empty_world)))
    as (w2 & E & Hhit & Hmiss);
    try reflexivity; try discriminate; try (cbn; lia).
  exists w2. split; [exact E|]. split.
  - apply Hhit. cbn. lia.
  - apply Hmiss. cbn. lia.
Defined.

Lemma getOrSet_after_invalidation_witness :
  isConnected listing_world = true /\ redisDown listing_world = false
  /\ redis.matches "roles:*" "roles:page:1" = true
  /\ stored "roles:page:1" listing_world = Some "[]"
  /\ forall w',
       CacheService.deletePattern "roles:*" listing_world = (Ok tt, w') ->
       @CacheService.getOrSet Demo.platform Demo.config "roles:page:1"
         (marked "producer" (JArr [])) None w'
       = @compute_and_store Demo.platform Demo.config "roles:page:1" (marked "producer" (JArr [])) None
           (log (Redis (GET "roles:page:1")) w').
Proof.
  split; [reflexivity|]. split; [reflexivity|]. split; [reflexivity|].
  split; [reflexivity|].
  apply (proj1 (proj2 (@getOrSet_after_invalidation Demo.platform Demo.config
                         "roles:page:1" "roles:*" (marked "producer" (JArr [])) None
                         listing_world eq_refl eq_refl)) eq_refl).
Defined.

Lemma invalidation_effects_witness :
  isConnected listing_world = true /\ redisDown listing_world = false
  /\ stored "roles:page:2" (snd (CacheService.deletePattern "roles:*" listing_world))
     = None
  /\ stored "role:r1" (snd (CacheService.deletePattern "roles:*" listing_world))
     = Some "42"
  /\ stored "role:r1" (snd (CacheService.delete "role:r1" listing_world)) = None.
Proof.
  pose proof (invalidation_effects "role:r1" "roles:*" listing_world eq_refl eq_refl)
    as (Hdel & Hpat & _).
  split; [reflexivity|]. split; [reflexivity|]. split; [|split].
  - rewrite Hpat. reflexivity.
  - rewrite Hpat. reflexivity.
  - rewrite Hdel. reflexivity.
Defined.

Lemma set_time_to_live_witness :
  isConnected Demo.empty_world = true /\ redisDown Demo.empty_world = false
  /\ exists w',
       @CacheService.set Demo.platform (mkConfig "" "s" 3600 0) "k" (JNum 1) (Some 0)
         Demo.empty_world = (Ok tt, w')
       /\ forall t, stored "k" (with_clock t w') = Some "1".
Proof.
  split; [reflexivity|]. split; [reflexivity|].
  destruct (@set_time_to_live Demo.platform (mkConfig "" "s" 3600 0) "k" (JNum 1)
              (Some 0) Demo.empty_world eq_refl eq_refl) as (w' & E & _ & Hnone & _).
  exists w'. split; [exact E|]. apply Hnone. reflexivity.
Defined.

(** ** Further properties of the role service *)

Lemma find_cleared i (l : list Role.t) :
  List.find (prisma.has_id prisma.role i)
    (List.map (fun x => if Role.isDefault x then RoleService.set_isDefault false x else x) l)
  = option_map (fun x => if Role.isDefault x then RoleService.set_isDefault false x else x)
      (List.find (prisma.has_id prisma.role i) l).
Proof.
  induction l as [|x l IH]; [reflexivity|]. cbn [List.map List.find].
  assert (prisma.has_id prisma.role i
            (if Role.isDefault x then RoleService.set_isDefault false x else x)
          = prisma.has_id prisma.role i x) as ->.
  { destruct (Role.isDefault x); reflexivity. }
  destruct (prisma.has_id prisma.role i x); [reflexivity|exact IH].
Qed.

Lemma map_id_update (f : Role.t -> Role.t) i (l : list Role.t) :
  (forall x, Role.id (f x) = Role.id x) ->
  List.map Role.id (List.map (fun x => if prisma.has_id prisma.role i x then f x else x) l)
  = List.map Role.id l.
Proof.
  intros Hf. rewrite List.map_map. apply List.map_ext. intros x.
  destruct (prisma.has_id prisma.role i x); [apply Hf|reflexivity].
Qed.

(** The table after a completed [setDefault]. *)
Lemma setDefault_Ok_roles id w r w' :
  RoleService.setDefault id w = (Ok r, w') ->
  roles w'
  = List.map (fun x => if prisma.has_id prisma.role id x
                       then RoleService.set_isDefault true x else x)
      (List.map (fun x => if Role.isDefault x then RoleService.set_isDefault false x else x)
         (roles w))
  /\ users w' = users w.
Proof.
  intros Hrun. unfold RoleService.setDefault in Hrun.
  apply bind_Ok in Hrun as (u & w1 & Hmany & Hrun).
  apply query_Ok in Hmany as [Hdb Hmany]. injection Hmany as _ <-.
  apply bind_Ok in Hrun as (r1 & w2 & Hupd & Hrun).
  apply query_Ok in Hupd as [_ Hupd].
  cbn [prisma.rows prisma.role prisma.put roles with_roles log] in Hupd.
  destruct (List.find _ _) as [r0|]; [|discriminate].
  injection Hupd as <- <-.
  apply bind_Ok in Hrun as (u2 & w3 & Hdel & Hrun).
  apply ret_Ok in Hrun as [-> ->].
  match type of Hdel with
  | _ ?w0 = _ => destruct (deletePattern_spec "roles:*" w0) as (w2 & ks & Hdel' & Hstep & _)
  end.
  rewrite Hdel' in Hdel. injection Hdel as _ <-.
  destruct Hstep as (Hroles & _ & Husers & _). rewrite Hroles, Husers. auto.
Qed.

(** X6.  A completed [setDefault(id)] leaves exactly one default role, the
    one with this id, and changes nothing but the [isDefault] flags: the
    roles keep their ids and their order, and the users are untouched.
    (Ids are unique in the table.) *)
Theorem setDefault_makes_unique_default id w r w' :
  NoDup (List.map Role.id (roles w)) ->
  RoleService.setDefault id w = (Ok r, w') ->
  defaults w' = [r] /\ Role.id r = id
  /\ List.map Role.id (roles w') = List.map Role.id (roles w)
  /\ List.map Role.permissions (roles w') = List.map Role.permissions (roles w)
  /\ users w' = users w.
Proof.
  intros Hnd Hrun.
  destruct (setDefault_exactly_one id w r w' Hnd Hrun) as (Hd & Hid & _).
  destruct (setDefault_Ok_roles id w r w' Hrun) as (Hroles & Husers).
  split; [exact Hd|]. split; [exact Hid|]. split; [|split; [|exact Husers]].
  - rewrite Hroles, map_id_update by reflexivity. apply map_cleared_ids.
  - rewrite Hroles, !List.map_map. apply List.map_ext. intros x.
    destruct (Role.isDefault x); cbn;
      match goal with |- context [if ?b then _ else _] => destruct b end; reflexivity.
Qed.

(** X7.  [setDefault] with an id that no role has is rejected by the
    database (P2025) only after the old default has been cleared: no role
    is the default afterwards, and no cache invalidation is sent. *)
Theorem setDefault_unknown_id id w :
  dbDown w = false ->
  List.find (prisma.has_id prisma.role id) (roles w) = None ->
  exists w',
    RoleService.setDefault id w = (Throw (PrismaError "P2025"), w')
    /\ defaults w' = []
    /\ store w' = store w
    /\ trace w' = trace w ++ [DbWrite "role" "updateMany"; DbWrite "role" "update"].
Proof.
  intros Hdb Hfind. unfold RoleService.setDefault.
  unfold bind at 1. unfold prisma.updateMany. rewrite query_up by exact Hdb.
  cbn [prisma.rows prisma.role prisma.put roles with_roles log].
  unfold bind at 1. unfold prisma.update. rewrite query_up by exact Hdb.
  cbn [prisma.rows prisma.role prisma.put roles with_roles log].
  rewrite find_cleared, Hfind. cbn [option_map].
  eexists. split; [reflexivity|]. split; [|split].
  - unfold defaults. cbn. apply filter_isDefault_cleared.
  - reflexivity.
  - cbn. rewrite <- app_assoc. reflexivity.
Qed.

Section RoleServiceMore.
Context `{Platform}.
Variable config : Config.
Variable schema : Schema.

Lemma permissions_value_then {A} text (f : jsval -> A) w :
  snd (bind (permissions_value text) (fun p => ret (f p)) w) = w.
Proof.
  unfold bind, permissions_value, JSON.parse.
  destruct text as [s|]; [destruct (truthy_string s); [destruct (JSON_parse s)|]|];
    reflexivity.
Qed.

(** X8.  [create] refuses a role whose name or slug is taken with a 400,
    before anything is written or invalidated; otherwise it appends one
    row with the given id, name and slug, the JSON text of the
    permissions, and the requested default flag ([false] when absent). *)
Theorem create_checks_name_and_slug newId data w :
  dbDown w = false ->
  (forall existing,
     List.find (fun r => String.eqb (Role.name r) (CreateRoleDto.name data)
                         || String.eqb (Role.slug r) (CreateRoleDto.slug data))
               (roles w) = Some existing ->
     RoleService.create schema newId data w
     = (Throw (ApiError "Role with this name or slug already exists" 400),
        log (DbRead "role") w))
  /\ (List.find (fun r => String.eqb (Role.name r) (CreateRoleDto.name data)
                          || String.eqb (Role.slug r) (CreateRoleDto.slug data))
                (roles w) = None ->
      roles (snd (RoleService.create schema newId data w))
      = roles w ++
        [Role.mk newId (CreateRoleDto.name data) (CreateRoleDto.slug data)
                 (CreateRoleDto.description data)
                 (permissions_text (CreateRoleDto.permissions data))
                 (match CreateRoleDto.isDefault data with Some b => b | None => false end)
                 (role_isActive_default schema)]).
Proof.
  intros Hdb. split.
  - intros existing Hfind. unfold RoleService.create.
    unfold bind at 1. unfold prisma.findFirst. rewrite query_up by exact Hdb.
    cbn [prisma.rows prisma.role roles log]. rewrite Hfind. reflexivity.
  - intros Hfind. unfold RoleService.create.
    unfold bind at 1. unfold prisma.findFirst. rewrite query_up by exact Hdb.
    cbn [prisma.rows prisma.role roles log]. rewrite Hfind.
    unfold bind at 1. unfold prisma.create. rewrite query_up by exact Hdb.
    cbn [prisma.rows prisma.role prisma.put roles with_roles log].
    match goal with
    | |- roles (snd (bind _ _ ?w0)) = _ =>
        destruct (deletePattern_spec "roles:*" w0) as (w2 & ks & Hdel & Hstep & _)
    end.
    rewrite (bind_step _ _ _ _ _ Hdel).
    destruct Hstep as (Hroles & _). cbn in Hroles.
    assert (forall b : bool, b || false = b) as Hb by (intros []; reflexivity).
    rewrite permissions_value_then. rewrite Hroles.
    destruct (CreateRoleDto.isDefault data); [rewrite Hb|]; reflexivity.
Qed.

(** X9.  [delete] never removes a role that users reference: an unknown id
    is answered 404 and a referenced role 400, both before any write; a
    role without users is removed, and only that role. *)
Theorem delete_guards_referenced_roles id w :
  dbDown w = false ->
  (List.find (prisma.has_id prisma.role id) (roles w) = None ->
   RoleService.delete id w
   = (Throw (ApiError "Role not found" 404), log (DbRead "role") w))
  /\ (forall r,
        List.find (prisma.has_id prisma.role id) (roles w) = Some r ->
        members id w <> [] ->
        RoleService.delete id w
        = (Throw (ApiError "Cannot delete role with assigned users" 400),
           log (DbRead "role") w))
  /\ (forall r,
        List.find (prisma.has_id prisma.role id) (roles w) = Some r ->
        members id w = [] ->
        exists w',
          RoleService.delete id w = (Ok "Role deleted successfully", w')
          /\ roles w'
             = List.filter (fun x => negb (prisma.has_id prisma.role id x)) (roles w)
          /\ users w' = users w).
Proof.
  intros Hdb. unfold RoleService.delete, prisma.role_with_count.
  split; [|split].
  - intros Hfind. unfold bind at 1. rewrite query_up by exact Hdb.
    cbn [roles users log]. rewrite Hfind. reflexivity.
  - intros r Hfind Hm. unfold bind at 1. rewrite query_up by exact Hdb.
    cbn [roles users log]. rewrite Hfind. fold (members id w).
    destruct (members id w) as [|u l]; [contradiction|].
    destruct (Z.gtb_spec (Z.of_nat (List.length (u :: l))) 0) as [_|Hle];
      [reflexivity|cbn [List.length] in Hle; lia].
  - intros r Hfind Hm. unfold bind at 1. rewrite query_up by exact Hdb.
    cbn [roles users log]. rewrite Hfind. fold (members id w). rewrite Hm.
    change (Z.of_nat (List.length (@nil User.t)) >? 0) with false. cbv iota.
    unfold bind at 1. unfold prisma.delete. rewrite query_up by exact Hdb.
    cbn [prisma.rows prisma.role prisma.put roles with_roles log]. rewrite Hfind.
    match goal with
    | |- context [bind (CacheService.delete ?k) _ ?w0] =>
        destruct (delete_spec k w0) as (wa & Ea & Sa & _)
    end.
    rewrite (bind_step _ _ _ _ _ Ea).
    destruct (deletePattern_spec "roles:*" wa) as (wb & ks & Eb & Sb & _).
    rewrite (bind_step _ _ _ _ _ Eb).
    exists wb. split; [reflexivity|].
    destruct Sa as (Ra & _ & Ua & _). destruct Sb as (Rb & _ & Ub & _).
    rewrite Rb, Ra, Ub, Ua. auto.
Qed.

(** X10.  [update] with an id that no role has is rejected (P2025) and
    nothing is invalidated; a completed [update] returns the role with
    this id and leaves the ids, the slugs and the default flags of all
    roles as they were. *)
Theorem update_keeps_identity id data w :
  (dbDown w = false ->
   List.find (prisma.has_id prisma.role id) (roles w) = None ->
   RoleService.update id data w
   = (Throw (PrismaError "P2025"), log (DbWrite "role" "update") w))
  /\ (forall r perms w',
        RoleService.update id data w = (Ok (r, perms), w') ->
        Role.id r = id
        /\ List.map Role.id (roles w') = List.map Role.id (roles w)
        /\ List.map Role.slug (roles w') = List.map Role.slug (roles w)
        /\ List.map Role.isDefault (roles w') = List.map Role.isDefault (roles w)).
Proof.
  split.
  - intros Hdb Hfind. unfold RoleService.update.
    unfold bind at 1. unfold prisma.update. rewrite query_up by exact Hdb.
    cbn [prisma.rows prisma.role roles log]. rewrite Hfind. reflexivity.
  - intros r perms w' Hrun.
    pose proof (update_keeps_defaults id data w (r, perms) w' Hrun) as Hdef.
    unfold RoleService.update in Hrun.
    apply bind_Ok in Hrun as (r1 & w1 & Hupd & Hrun).
    apply query_Ok in Hupd as [_ Hupd].
    cbn [prisma.rows prisma.role prisma.put roles with_roles log] in Hupd.
    destruct (List.find _ _) as [r0|] eqn:Hfind; [|discriminate].
    injection Hupd as <- <-.
    apply bind_Ok in Hrun as (u1 & w2 & Hdel & Hrun).
    apply bind_Ok in Hrun as (u2 & w3 & Hpat & Hrun).
    apply bind_Ok in Hrun as (p & w4 & Hperm & Hrun).
    apply permissions_value_pure in Hperm as ->.
    injection Hrun as <- _ <-.
    match type of Hdel with
    | _ ?w0 = _ => destruct (delete_spec ("role:" +:+ id) w0) as (wa & Ea & Sa & _)
    end.
    rewrite Ea in Hdel. injection Hdel as _ <-.
    destruct (deletePattern_spec "roles:*" wa) as (wb & ks & Eb & Sb & _).
    rewrite Eb in Hpat. injection Hpat as _ <-.
    destruct Sa as (Ra & _). destruct Sb as (Rb & _).
    split; [|split; [|split; [|exact Hdef]]].
    + apply find_some in Hfind as [_ Hid]. apply String.eqb_eq in Hid. exact Hid.
    + rewrite Rb, Ra. cbn. rewrite List.map_map. apply List.map_ext. intros x.
      match goal with |- context [if ?b then _ else _] => destruct b end; reflexivity.
    + rewrite Rb, Ra. cbn. rewrite List.map_map. apply List.map_ext. intros x.
      match goal with |- context [if ?b then _ else _] => destruct b end; reflexivity.
Qed.

End RoleServiceMore.

(** ** Further properties of the entity services *)

Section EntityServicesMore.
Context `{Platform}.
Variable config : Config.
Variable schema : Schema.

(** X11.  A lookup by id that finds no row is not cached: behind a ready
    cache with nothing under the key, [getById] of each service reads the
    database, throws its 404, and sends no write to Redis, so the next
    call reads the database again. *)
Theorem getById_not_found_is_not_cached id w :
  isConnected w = true -> redisDown w = false -> dbDown w = false ->
  (stored ("role:" +:+ id) w = None ->
   List.find (prisma.has_id prisma.role id) (roles w) = None ->
   RoleService.getById config id w
   = (Throw (ApiError "Role not found" 404),
      log (DbRead "role") (log (Redis (GET ("role:" +:+ id))) w)))
  /\ (stored ("admin:" +:+ id) w = None ->
      List.find (prisma.has_id prisma.admin id) (admins w) = None ->
      AdminService_getById config id w
      = (Throw (ApiError "Admin not found" 404),
         log (DbRead "admin") (log (Redis (GET ("admin:" +:+ id))) w)))
  /\ (stored ("user:" +:+ id) w = None ->
      List.find (prisma.has_id prisma.user id) (users w) = None ->
      UserService_getById config id w
      = (Throw (ApiError "User not found" 404),
         log (DbRead "user") (log (Redis (GET ("user:" +:+ id))) w))).
Proof.
  intros Hc Hd Hdb. split; [|split]; intros Hs Hfind.
  - unfold RoleService.getById. apply getOrSet_miss_throw; try assumption.
    unfold prisma.role_with_count. unfold bind. rewrite query_up by exact Hdb.
    cbn [roles users log]. rewrite Hfind. reflexivity.
  - unfold AdminService_getById. apply getOrSet_miss_throw; try assumption.
    unfold prisma.findUnique, prisma.findFirst. unfold bind.
    rewrite query_up by exact Hdb.
    cbn [prisma.rows prisma.admin admins log]. rewrite Hfind. reflexivity.
  - unfold UserService_getById. apply getOrSet_miss_throw; try assumption.
    unfold prisma.user_with_role. unfold bind. rewrite query_up by exact Hdb.
    cbn [roles users log]. rewrite Hfind. reflexivity.
Qed.

(** X12.  Registration.  A taken email is refused with a 400 before
    anything is written.  With a free email and no role id in the request
    (absent or empty), the new user gets the first role that is both the
    default and active, and the password is stored hashed; when no role is
    both, the registration is refused with a 400 and no user is created. *)
Theorem UserService_create_assigns_default_role newId data w :
  dbDown w = false ->
  (forall u,
     List.find (fun u => String.eqb (User.email u) (CreateUserDto.email data)) (users w)
       = Some u ->
     UserService.create schema newId data w
     = (Throw (ApiError "User with this email already exists" 400),
        log (DbRead "user") w))
  /\ (List.find (fun u => String.eqb (User.email u) (CreateUserDto.email data)) (users w)
        = None ->
      opt_truthy (CreateUserDto.roleId data) = false ->
      (forall d,
         List.find (fun r => Role.isDefault r && Role.isActive r) (roles w) = Some d ->
         exists u w',
           UserService.create schema newId data w = (Ok u, w')
           /\ u = User.mk newId (CreateUserDto.email data)
                    (hashPassword (CreateUserDto.password data))
                    (CreateUserDto.name data) (CreateUserDto.phone data) None
                    (Role.id d) (user_isActive_default schema)
           /\ users w' = users w ++ [u])
      /\ (List.find (fun r => Role.isDefault r && Role.isActive r) (roles w) = None ->
          UserService.create schema newId data w
          = (Throw (ApiError "No default role found. Please create a default role first." 400),
             log (DbRead "role") (log (DbRead "user") w)))).
Proof.
  intros Hdb. unfold UserService.create, RoleService.getDefaultRole. split.
  - intros u Hfind. unfold bind at 1. unfold prisma.findUnique, prisma.findFirst.
    rewrite query_up by exact Hdb.
    cbn [prisma.rows prisma.user users log]. rewrite Hfind. reflexivity.
  - intros Hfind Hrole.
    assert (forall k : option User.t -> M User.t,
      bind (prisma.findUnique prisma.user
              (fun u => String.eqb (User.email u) (CreateUserDto.email data))) k w
      = k None (log (DbRead "user") w)) as Hstep.
    { intros k. unfold bind, prisma.findUnique, prisma.findFirst.
      rewrite query_up by exact Hdb.
      cbn [prisma.rows prisma.user users log]. rewrite Hfind. reflexivity. }
    rewrite Hstep. rewrite Hrole. split.
    + intros d Hd.
      unfold bind at 1. unfold bind at 1. unfold prisma.findFirst.
      rewrite query_up by exact Hdb.
      cbn [prisma.rows prisma.role roles log]. rewrite Hd. cbn [ret].
      unfold bind at 1. unfold prisma.create. rewrite query_up by exact Hdb.
      cbn [prisma.rows prisma.user prisma.put users with_users log].
      match goal with
      | |- context [bind (CacheService.deletePattern ?p) _ ?w0] =>
          destruct (deletePattern_spec p w0) as (w2 & ks & Hdel & Hstp & _)
      end.
      rewrite (bind_step _ _ _ _ _ Hdel).
      eexists _, w2. split; [reflexivity|]. split; [reflexivity|].
      destruct Hstp as (_ & _ & Hu & _). rewrite Hu. reflexivity.
    + intros Hd.
      unfold bind at 1. unfold bind at 1. unfold prisma.findFirst.
      rewrite query_up by exact Hdb.
      cbn [prisma.rows prisma.role roles log]. rewrite Hd. reflexivity.
Qed.

Lemma unique_row (l : list User.t) x y :
  NoDup (List.map User.id l) -> In x l -> In y l -> User.id x = User.id y -> x = y.
Proof.
  induction l as [|z l IH]; intros Hnd Hx Hy Hid; [destruct Hx|].
  cbn in Hnd. apply NoDup_cons in Hnd as [Hz Hnd].
  destruct Hx as [->|Hx], Hy as [->|Hy]; auto.
  - exfalso. apply Hz. rewrite Hid. apply list_elem_of_In, in_map. exact Hy.
  - exfalso. apply Hz. rewrite <- Hid. apply list_elem_of_In, in_map. exact Hx.
Qed.

Lemma toggle_Ok userId w u1 w1 :
  AdminService.toggleUserStatus userId w = (Ok u1, w1) ->
  exists u0,
    List.find (prisma.has_id prisma.user userId) (users w) = Some u0
    /\ u1 = AdminService.set_isActive (negb (User.isActive u0)) u0
    /\ users w1
       = List.map (fun x => if prisma.has_id prisma.user userId x
                            then AdminService.set_isActive (negb (User.isActive u0)) x
                            else x) (users w).
Proof.
  intros Hrun. unfold AdminService.toggleUserStatus in Hrun.
  apply bind_Ok in Hrun as (found & w0 & Hfind & Hrun).
  apply query_Ok in Hfind as [Hdb Hfind]. injection Hfind as <- <-.
  cbn [prisma.rows prisma.user users log] in Hrun.
  destruct (List.find _ (users w)) as [u0|] eqn:Hf; [|discriminate].
  apply bind_Ok in Hrun as (upd & wa & Hupd & Hrun).
  apply query_Ok in Hupd as [_ Hupd].
  cbn [prisma.rows prisma.user prisma.put users with_users log] in Hupd.
  rewrite Hf in Hupd. injection Hupd as <- <-.
  apply bind_Ok in Hrun as (u & wb & Hdel & Hrun). injection Hrun as <- <-.
  match type of Hdel with
  | _ ?w0 = _ => destruct (delete_spec ("user:" +:+ userId) w0) as (wc & Ec & Sc & _)
  end.
  rewrite Ec in Hdel. injection Hdel as _ <-.
  destruct Sc as (_ & _ & Hu & _). exists u0. rewrite Hu. auto.
Qed.

(** X13.  Toggling the status of a user twice restores the user table.
    (Ids are unique in the table.) *)
Theorem toggleUserStatus_twice userId w u1 w1 u2 w2 :
  NoDup (List.map User.id (users w)) ->
  AdminService.toggleUserStatus userId w = (Ok u1, w1) ->
  AdminService.toggleUserStatus userId w1 = (Ok u2, w2) ->
  User.isActive u1 = negb (User.isActive u2) /\ users w2 = users w.
Proof.
  intros Hnd H1 H2.
  apply toggle_Ok in H1 as (u0 & Hf0 & -> & Hw1).
  apply toggle_Ok in H2 as (u0' & Hf1 & -> & Hw2).
  assert (u0' = AdminService.set_isActive (negb (User.isActive u0)) u0) as ->.
  { rewrite Hw1 in Hf1. clear - Hf0 Hf1.
    induction (users w) as [|x l IH]; [discriminate|].
    cbn [List.find List.map] in *.
    destruct (prisma.has_id prisma.user userId x) eqn:Hx.
    - injection Hf0 as <-.
      assert (prisma.has_id prisma.user userId
                (AdminService.set_isActive (negb (User.isActive x)) x) = true) as E
        by exact Hx.
      rewrite E in Hf1. injection Hf1 as <-. reflexivity.
    - rewrite Hx in Hf1. exact (IH Hf0 Hf1). }
  split; [cbn; destruct (User.isActive u0); reflexivity|].
  rewrite Hw2, Hw1, List.map_map.
  rewrite <- (List.map_id (users w)) at 2. apply List.map_ext_in. intros x Hin.
  destruct (prisma.has_id prisma.user userId x) eqn:Hx.
  - assert (prisma.has_id prisma.user userId
              (AdminService.set_isActive (negb (User.isActive u0)) x) = true) as ->
      by exact Hx.
    assert (x = u0) as ->.
    { apply find_some in Hf0 as [Hin0 Hid0].
      apply (unique_row (users w)); auto.
      unfold prisma.has_id in *. cbn in *.
      apply String.eqb_eq in Hx, Hid0. congruence. }
    destruct u0 as [? ? ? ? ? ? ? a]. cbn. destruct a; reflexivity.
  - rewrite Hx. reflexivity.
Qed.

(** X14.  [changeRole] checks the role before it writes: with nothing
    cached under the role's key and no such role in the table, it throws
    the 404 of the role lookup and the user table is untouched. *)
Theorem changeRole_unknown_role userId roleId w :
  isConnected w = true -> redisDown w = false -> dbDown w = false ->
  stored ("role:" +:+ roleId) w = None ->
  List.find (prisma.has_id prisma.role roleId) (roles w) = None ->
  exists w',
    UserService.changeRole config userId roleId w
    = (Throw (ApiError "Role not found" 404), w')
    /\ users w' = users w
    /\ List.existsb is_mutation (trace w') = List.existsb is_mutation (trace w).
Proof.
  intros Hc Hd Hdb Hs Hfind. unfold UserService.changeRole.
  assert (RoleService.getById config roleId w
          = (Throw (ApiError "Role not found" 404),
             log (DbRead "role") (log (Redis (GET ("role:" +:+ roleId))) w))) as E.
  { unfold RoleService.getById. apply getOrSet_miss_throw; try assumption.
    unfold prisma.role_with_count. unfold bind. rewrite query_up by exact Hdb.
    cbn [roles users log]. rewrite Hfind. reflexivity. }
  rewrite (bind_throw _ _ _ _ _ E). eexists. split; [reflexivity|].
  split; [reflexivity|]. cbn. rewrite !existsb_app. cbn. rewrite !orb_false_r.
  reflexivity.
Qed.

End EntityServicesMore.

(** ** Bearer tokens, login and the guards of a route *)

Lemma prefix_split (p s : string) :
  String.prefix p s = true ->
  s = (p +:+ String.substring (String.length p) (String.length s - String.length p) s)%string.
Proof.
  revert s. induction p as [|c p IH]; intros s Hp.
  - rewrite append_nil. cbn [String.length]. rewrite Nat.sub_0_r.
    clear Hp. induction s as [|d s IHs]; [reflexivity|].
    cbn [String.length String.substring]. f_equal. exact IHs.
  - destruct s as [|d s]; [discriminate|]. cbn [String.prefix] in Hp.
    destruct (Ascii.ascii_dec c d) as [->|]; [|discriminate].
    rewrite append_cons. cbn [String.length String.substring Nat.sub]. f_equal.
    apply IH, Hp.
Qed.

Lemma substring_all (s : string) :
  String.substring 0 (String.length s) s = s.
Proof.
  induction s as [|d s IHs]; [reflexivity|].
  cbn [String.length String.substring]. f_equal. exact IHs.
Qed.

Lemma extract_bearer `{Platform} (token : string) :
  extractTokenFromHeader (Some ("Bearer " +:+ token)%string) = Some token.
Proof.
  unfold extractTokenFromHeader.
  rewrite !append_cons, append_nil. cbn [truthy_string String.eqb negb orb].
  cbn [String.prefix String.length Nat.sub String.substring].
  repeat (destruct (Ascii.ascii_dec _ _); [|congruence]).
  replace (String.prefix "" token) with true by (destruct token; reflexivity).
  cbn [negb]. rewrite Nat.sub_0_r, substring_all. reflexivity.
Qed.

Lemma extract_Some `{Platform} (authHeader : option string) (token : string) :
  extractTokenFromHeader authHeader = Some token ->
  authHeader = Some ("Bearer " +:+ token)%string.
Proof.
  unfold extractTokenFromHeader. destruct authHeader as [h|]; [|discriminate].
  destruct (truthy_string h); cbn [negb orb]; [|discriminate].
  destruct (String.prefix "Bearer " h) eqn:Hp; cbn [negb]; [|discriminate].
  intros [= <-]. f_equal. apply (prefix_split _ _ Hp).
Qed.

(** X15.  [extractTokenFromHeader] returns a token exactly for a header
    that starts with the seven characters [Bearer ], and the token is
    the rest of the header, whatever it holds (the empty string
    included); a missing header, another scheme or another case of the
    letters gives no token. *)
Theorem extractTokenFromHeader_inversion `{Platform} (authHeader : option string)
    (token : string) :
  extractTokenFromHeader authHeader = Some token
  <-> authHeader = Some ("Bearer " +:+ token)%string.
Proof.
  split; [apply extract_Some|]. intros ->. apply extract_bearer.
Qed.

Section Guards.
Context `{Platform}.
Variable config : Config.

Lemma truthy_string_neq s : truthy_string s = true <-> s <> "".
Proof.
  unfold truthy_string. rewrite negb_true_iff. apply String.eqb_neq.
Qed.

Lemma sign_truthy payload secret ttl t :
  truthy_string (jwt.sign payload secret ttl t) = true.
Proof. unfold jwt.sign, jwt.header. rewrite !append_cons. reflexivity. Qed.

(** Verification of a token that [jwt.sign] made, at any time. *)
Lemma verify_sign payload secret ttl t t' :
  codec_ok secret payload t ttl ->
  jwt.verify (jwt.sign payload secret ttl t) secret t'
  = if t + ttl <=? t' then inr jwt.TokenExpiredError
    else inl (signed_claims payload t ttl).
Proof.
  intros (Hdec & Hseg & Htag). unfold jwt.verify.
  rewrite segments_sign by assumption.
  rewrite Hdec, String.eqb_refl. reflexivity.
Qed.

Lemma authenticate_run req w :
  auth.authenticate config req w =
    (Ok (match extractTokenFromHeader (authorization req) with
         | None => sendUnauthorized "Access token is required"
         | Some token =>
             if negb (truthy_string token)
             then sendUnauthorized "Access token is required"
             else match jwt.verify token (jwt_secret config) (clock w) with
                  | inl d => Next (set_user d req)
                  | inr _ => sendUnauthorized "Invalid or expired token"
                  end
         end), w).
Proof.
  unfold auth.authenticate.
  destruct (extractTokenFromHeader (authorization req)) as [tok|]; [|reflexivity].
  destruct (truthy_string tok); [|reflexivity]. cbn [negb].
  rewrite (bind_step _ _ _ _ _ (verifyToken_run config tok w)).
  destruct (jwt.verify tok (jwt_secret config) (clock w)); reflexivity.
Qed.

Lemma try_bearer_run req w :
  auth.try_bearer config req w =
    (Ok (match extractTokenFromHeader (authorization req) with
         | None => None
         | Some token =>
             if truthy_string token
             then match jwt.verify token (jwt_secret config) (clock w) with
                  | inl d => Some d
                  | inr _ => None
                  end
             else None
         end), w).
Proof.
  unfold auth.try_bearer.
  destruct (extractTokenFromHeader (authorization req)) as [tok|]; [|reflexivity].
  destruct (truthy_string tok); [|reflexivity]. apply verifyToken_run.
Qed.

(** A request that [authenticate] lets through carried a verified,
    non-empty bearer token, and nothing else happened. *)
Lemma authenticate_Next req w r w' :
  auth.authenticate config req w = (Ok (Next r), w') ->
  exists token d,
    authorization req = Some ("Bearer " +:+ token)%string
    /\ token <> ""
    /\ jwt.verify token (jwt_secret config) (clock w) = inl d
    /\ r = set_user d req /\ w' = w.
Proof.
  rewrite authenticate_run. intros E. injection E as E <-.
  destruct (extractTokenFromHeader (authorization req)) as [tok|] eqn:Hx;
    [|discriminate].
  apply extract_Some in Hx.
  destruct (truthy_string tok) eqn:Ht; [|discriminate]. cbn [negb] in E.
  destruct (jwt.verify tok (jwt_secret config) (clock w)) as [d|] eqn:Hv;
    [|discriminate].
  injection E as <-. exists tok, d. rewrite truthy_string_neq in Ht. auto.
Qed.

Variable comparePassword : string -> string -> bool.

(** X16.  The tokens of a login open the guarded routes.  When an active
    admin logs in with the right password, the access token, sent back as
    a bearer token, passes [authenticate] with the admin's id, email and
    role and the type [admin] until its time to live is over, and is
    refused with a 401 from then on.  The refresh token passes
    [authenticate] just the same, for thirty days. *)
Theorem admin_login_tokens_authenticate data a w :
  dbDown w = false ->
  List.find (fun x => String.eqb (Admin.email x) (LoginDto.email data)) (admins w)
    = Some a ->
  Admin.isActive a = true ->
  comparePassword (LoginDto.password data) (Admin.password a) = true ->
  codec_ok (jwt_secret config) (admin_claims a) (clock w) (jwt_expiresIn config) ->
  codec_ok (jwt_secret config) (admin_claims a) (clock w) thirty_days ->
  exists token refreshToken,
    AdminService_login config comparePassword data w
    = (Ok (a, token, refreshToken), log (DbRead "admin") w)
    /\ forall w',
         (clock w' < clock w + jwt_expiresIn config ->
          auth.authenticate config (bearer token) w'
          = (Ok (Next (set_user
                         (signed_claims (admin_claims a) (clock w) (jwt_expiresIn config))
                         (bearer token))), w'))
         /\ (clock w + jwt_expiresIn config <= clock w' ->
             auth.authenticate config (bearer token) w'
             = (Ok (Respond 401 "Invalid or expired token"), w'))
         /\ (clock w' < clock w + thirty_days ->
             auth.authenticate config (bearer refreshToken) w'
             = (Ok (Next (set_user
                            (signed_claims (admin_claims a) (clock w) thirty_days)
                            (bearer refreshToken))), w')).
Proof.
  intros Hdb Hfind Hact Hpw Hacc Href.
  exists (jwt.sign (admin_claims a) (jwt_secret config) (jwt_expiresIn config) (clock w)),
         (jwt.sign (admin_claims a) (jwt_secret config) thirty_days (clock w)).
  split.
  - unfold AdminService_login, prisma.findUnique, prisma.findFirst.
    unfold bind at 1. rewrite query_up by exact Hdb.
    cbn [prisma.rows prisma.admin admins log]. rewrite Hfind, Hact, Hpw.
    reflexivity.
  - intros w'. repeat split; intros Ht; rewrite authenticate_run;
      unfold bearer; cbn [authorization]; rewrite extract_bearer, sign_truthy;
      cbn [negb]; rewrite verify_sign by assumption.
    + destruct (Z.leb_spec (clock w + jwt_expiresIn config) (clock w')); [lia|].
      reflexivity.
    + destruct (Z.leb_spec (clock w + jwt_expiresIn config) (clock w')); [|lia].
      reflexivity.
    + destruct (Z.leb_spec (clock w + thirty_days) (clock w')); [lia|].
      reflexivity.
Qed.

(** X17.  A failed login does not say why it failed.  Whether no account
    has the email, the account is inactive or the password is wrong,
    [login] of both services throws the same 401 [Invalid credentials]
    after one read of the table, and signs nothing. *)
Theorem login_failures_are_uniform data w :
  dbDown w = false ->
  ((forall a,
      List.find (fun x => String.eqb (Admin.email x) (LoginDto.email data)) (admins w)
        = Some a ->
      Admin.isActive a && comparePassword (LoginDto.password data) (Admin.password a)
        = false) ->
   AdminService_login config comparePassword data w
   = (Throw (ApiError "Invalid credentials" 401), log (DbRead "admin") w))
  /\ ((forall u,
         List.find (fun x => String.eqb (User.email x) (LoginDto.email data)) (users w)
           = Some u ->
         User.isActive u && comparePassword (LoginDto.password data) (User.password u)
           = false) ->
      UserService_login config comparePassword data w
      = (Throw (ApiError "Invalid credentials" 401), log (DbRead "user") w)).
Proof.
  intros Hdb. split; intros Hbad.
  - unfold AdminService_login, prisma.findUnique, prisma.findFirst.
    unfold bind at 1. rewrite query_up by exact Hdb.
    cbn [prisma.rows prisma.admin admins log].
    destruct (List.find _ (admins w)) as [a|]; [|reflexivity].
    specialize (Hbad a eq_refl).
    destruct (Admin.isActive a); [|reflexivity]. cbn [andb negb] in *.
    rewrite Hbad. reflexivity.
  - unfold UserService_login, user_by_email_with_role.
    unfold bind at 1. rewrite query_up by exact Hdb. cbn [users roles log].
    destruct (List.find _ (users w)) as [u|]; [|reflexivity].
    specialize (Hbad u eq_refl).
    destruct (User.isActive u); [|reflexivity]. cbn [andb negb] in *.
    rewrite Hbad. reflexivity.
Qed.

(** X18.  [optionalAuth] never refuses and never throws: it lets every
    request through, with the principal that [authenticate] would have
    attached when [authenticate] would have let it through, and as it
    came otherwise. *)
Theorem optionalAuth_never_rejects req w :
  auth.optionalAuth config req w
  = (Ok (Next (match fst (auth.authenticate config req w) with
               | Ok (Next r) => r
               | _ => req
               end)), w).
Proof.
  unfold auth.optionalAuth.
  rewrite (bind_step _ _ _ _ _ (try_bearer_run req w)), authenticate_run.
  cbn [fst].
  destruct (extractTokenFromHeader (authorization req)) as [tok|]; [|reflexivity].
  destruct (truthy_string tok); [|reflexivity]. cbn [negb].
  destruct (jwt.verify tok (jwt_secret config) (clock w)); reflexivity.
Qed.

(** X19.  A request that [authenticate] lets through is let through by
    [multiAuth] with the same principal, whatever API key it carries, and
    without a call to the database. *)
Theorem multiAuth_accepts_bearer_of_authenticate req r w w' :
  auth.authenticate config req w = (Ok (Next r), w') ->
  auth.multiAuth config req w = (Ok (Next r), w') /\ w' = w.
Proof.
  intros Ha. apply authenticate_Next in Ha as (tok & d & Hh & Ht & Hv & -> & ->).
  split; [|reflexivity]. unfold auth.multiAuth.
  rewrite (bind_step _ _ _ _ _ (try_bearer_run req w)).
  rewrite Hh, extract_bearer. apply truthy_string_neq in Ht. rewrite Ht, Hv.
  reflexivity.
Qed.

Lemma authenticateApiKey_Next req w r w' :
  auth.authenticateApiKey config req w = (Ok (Next r), w') ->
  (x_api_key req = Some (apiKey config) /\ apiKey config <> ""
   /\ r = set_user system_principal req /\ w' = w)
  \/ (exists key s,
        x_api_key req = Some key /\ dbDown w = false
        /\ List.find (fun s => String.eqb (Session.token s) key
                               && (clock w <=? Session.expiresAt s)) (sessions w)
           = Some s
        /\ r = set_user (session_principal s) req).
Proof.
  unfold auth.authenticateApiKey.
  destruct (x_api_key req) as [key|] eqn:Hk; cbn [opt_truthy or_keep negb];
    [|discriminate].
  destruct (truthy_string key) eqn:Ht; cbn [negb]; [|discriminate].
  destruct (truthy_string (apiKey config) && String.eqb key (apiKey config)) eqn:Hs.
  - apply andb_true_iff in Hs as [Hs1 Hs2]. apply String.eqb_eq in Hs2 as ->.
    intros E. injection E as <- <-. left. rewrite truthy_string_neq in Hs1. auto.
  - rewrite (bind_step _ _ _ _ _ (find_session_run key w)).
    destruct (dbDown w); [discriminate|].
    destruct (List.find _ (sessions w)) as [s|] eqn:Hf; [|discriminate].
    intros E. injection E as <- <-. right. exists key, s. auto.
Qed.

(** X20.  The key-based principals skip the permission check.  A request
    that [authenticateApiKey] lets through passes [authorizePermission]
    for every list of required permissions, in every state of the
    database and without reading it; it passes [authorizeRole] exactly
    when the role [api] is among the allowed ones. *)
Theorem api_key_requests_pass_permission_checks req r w w1 :
  auth.authenticateApiKey config req w = (Ok (Next r), w1) ->
  (forall required w2, auth.authorizePermission required r w2 = (Ok (Next r), w2))
  /\ (forall allowed,
        auth.authorizeRole allowed r = Next r <-> includes allowed "api" = true).
Proof.
  intros Ha.
  assert (exists p, user r = Some p /\ JwtPayload.role (claims p) = "api")
    as (p & Hp & Hrole).
  { apply authenticateApiKey_Next in Ha
      as [(_ & _ & -> & _)|(key & s & _ & _ & _ & ->)]; eexists; split; reflexivity. }
  split.
  - intros required w2. unfold auth.authorizePermission. rewrite Hp, Hrole.
    reflexivity.
  - intros allowed. unfold auth.authorizeRole. rewrite Hp, Hrole.
    destruct (includes allowed "api"); cbn [negb]; split; auto; discriminate.
Qed.

(** X21.  [authenticateApiKey] with the database down: the call does not
    throw; the only request that gets through is the one with the
    configured, non-empty static key, as the system principal and with no
    call to the database; every other request is answered 401. *)
Theorem authenticateApiKey_database_down req w :
  dbDown w = true ->
  exists o w',
    auth.authenticateApiKey config req w = (Ok o, w')
    /\ match o with
       | Next r =>
           x_api_key req = Some (apiKey config) /\ apiKey config <> ""
           /\ r = set_user system_principal req /\ w' = w
       | Respond status _ => status = 401
       end.
Proof.
  intros Hdb. unfold auth.authenticateApiKey.
  destruct (x_api_key req) as [key|] eqn:Hk; cbn [opt_truthy or_keep negb];
    [|eexists _, _; split; [reflexivity|reflexivity]].
  destruct (truthy_string key) eqn:Ht; cbn [negb];
    [|eexists _, _; split; [reflexivity|reflexivity]].
  destruct (truthy_string (apiKey config) && String.eqb key (apiKey config)) eqn:Hs.
  - apply andb_true_iff in Hs as [Hs1 Hs2]. apply String.eqb_eq in Hs2 as ->.
    eexists _, _. split; [reflexivity|]. rewrite truthy_string_neq in Hs1. auto.
  - rewrite (bind_step _ _ _ _ _ (find_session_run key w)). rewrite Hdb.
    eexists _, _. split; [reflexivity|reflexivity].
Qed.

(** X22.  The guards of [POST /api/admin/create] in a row.  The request
    reaches the handler exactly when it carries a non-empty bearer token
    that verifies and whose claims have the type [admin] and the role
    [SUPER_ADMIN]; the request then carries these claims, and the guards
    have changed nothing else.  The guards never throw, and a refusal is
    a 401 or a 403. *)
Theorem admin_create_guard_passes_super_admin req w :
  (forall r w',
     admin_create_guard config req w = (Ok (Next r), w')
     <-> exists token d,
           authorization req = Some ("Bearer " +:+ token)%string
           /\ token <> ""
           /\ jwt.verify token (jwt_secret config) (clock w) = inl d
           /\ JwtPayload.type (claims d) = "admin"
           /\ JwtPayload.role (claims d) = "SUPER_ADMIN"
           /\ r = set_user d req /\ w' = w)
  /\ exists o,
       admin_create_guard config req w = (Ok o, w)
       /\ match o with
          | Next _ => True
          | Respond status _ => status = 401 \/ status = 403
          end.
Proof.
  assert (forall d : Principal,
            and_then (auth.authorizeType ["admin"] (set_user d req))
              (fun r2 => ret (auth.authorizeRole ["SUPER_ADMIN"] r2)) w
            = (Ok (if String.eqb (JwtPayload.type (claims d)) "admin"
                   then if String.eqb (JwtPayload.role (claims d)) "SUPER_ADMIN"
                        then Next (set_user d req)
                        else Respond 403 "You do not have permission to access this resource"
                   else Respond 403 "You do not have permission to access this resource"),
               w)) as Hrest.
  { intros d. unfold auth.authorizeType, auth.authorizeRole, includes.
    cbn [user set_user List.existsb orb].
    rewrite !orb_false_r.
    destruct (String.eqb (JwtPayload.type (claims d)) "admin"); [|reflexivity].
    cbn [negb and_then user set_user]. 
    destruct (String.eqb (JwtPayload.role (claims d)) "SUPER_ADMIN"); reflexivity. }
  unfold admin_create_guard.
  rewrite (bind_step _ _ _ _ _ (authenticate_run req w)).
  split.
  - intros r w'. split.
    + destruct (extractTokenFromHeader (authorization req)) as [tok|] eqn:Hx;
        [|discriminate].
      apply extract_Some in Hx.
      destruct (truthy_string tok) eqn:Ht; [|discriminate]. cbn [negb].
      destruct (jwt.verify tok (jwt_secret config) (clock w)) as [d|] eqn:Hv;
        [|discriminate].
      cbn [and_then]. rewrite Hrest.
      destruct (String.eqb (JwtPayload.type (claims d)) "admin") eqn:Hty;
        [|discriminate].
      destruct (String.eqb (JwtPayload.role (claims d)) "SUPER_ADMIN") eqn:Hro;
        [|discriminate].
      intros E. injection E as <- <-. exists tok, d.
      apply String.eqb_eq in Hty, Hro. rewrite truthy_string_neq in Ht.
      repeat split; auto.
    + intros (tok & d & Hh & Ht & Hv & Hty & Hro & -> & ->).
      rewrite Hh, extract_bearer. apply truthy_string_neq in Ht. rewrite Ht, Hv.
      cbn [negb and_then]. rewrite Hrest, Hty, Hro. reflexivity.
  - destruct (extractTokenFromHeader (authorization req)) as [tok|];
      [|eexists; split; [reflexivity|left; reflexivity]].
    destruct (truthy_string tok); cbn [negb];
      [|eexists; split; [reflexivity|left; reflexivity]].
    destruct (jwt.verify tok (jwt_secret config) (clock w)) as [d|];
      [|eexists; split; [reflexivity|left; reflexivity]].
    cbn [and_then]. rewrite Hrest. eexists. split; [reflexivity|].
    destruct (String.eqb (JwtPayload.type (claims d)) "admin"); [|right; reflexivity].
    destruct (String.eqb (JwtPayload.role (claims d)) "SUPER_ADMIN");
      [exact I|right; reflexivity].
Qed.

End Guards.

(** ** Permissions and the status of a user *)

Section Status.
Context `{Platform}.
Variable config : Config.
Variable comparePassword : string -> string -> bool.

(** X23.  [authorizePermission] lets a principal through when the role
    of its user row holds every required permission.  The role is the one
    the row points to now, not the one named in the token, and the row's
    [isActive] flag is not looked at. *)
Theorem authorizePermission_passes_holder required req u usr r items w :
  user req = Some u ->
  JwtPayload.role (claims u) <> "api" ->
  dbDown w = false ->
  List.find (prisma.has_id prisma.user (JwtPayload.id (claims u))) (users w) = Some usr ->
  List.find (prisma.has_id prisma.role (User.roleId usr)) (roles w) = Some r ->
  permission_set (Role.permissions r) items ->
  (forall p, p ∈ required -> holds items p = true) ->
  auth.authorizePermission required req w = (Ok (Next req), log (DbRead "user") w).
Proof.
  intros Hu Hrole Hdb Husr Hr Hset Hall. unfold auth.authorizePermission.
  rewrite Hu. apply String.eqb_neq in Hrole. rewrite Hrole. unfold try_catch.
  rewrite (bind_step _ _ _ _ _ (user_with_role_up _ _ Hdb)).
  rewrite Husr, Hr.
  rewrite (bind_step _ _ _ (Role.permissions r) (log (DbRead "user") w)) by reflexivity.
  rewrite (bind_step _ _ _ _ _ (permissions_value_set _ _ _ Hset)).
  rewrite (bind_step _ _ _ _ _ (every_all _ _ _ Hall)).
  reflexivity.
Qed.

Lemma toggle_frame userId w u1 w1 :
  AdminService.toggleUserStatus userId w = (Ok u1, w1) ->
  roles w1 = roles w /\ dbDown w1 = dbDown w /\ clock w1 = clock w
  /\ dbDown w = false.
Proof.
  intros Hrun. unfold AdminService.toggleUserStatus in Hrun.
  apply bind_Ok in Hrun as (found & w0 & Hfind & Hrun).
  apply query_Ok in Hfind as [Hdb Hfind]. injection Hfind as <- <-.
  cbn [prisma.rows prisma.user users log] in Hrun.
  destruct (List.find _ (users w)) as [u0|] eqn:Hf; [|discriminate].
  apply bind_Ok in Hrun as (upd & wa & Hupd & Hrun).
  apply query_Ok in Hupd as [_ Hupd].
  cbn [prisma.rows prisma.user prisma.put users with_users log] in Hupd.
  rewrite Hf in Hupd. injection Hupd as <- <-.
  apply bind_Ok in Hrun as (u & wb & Hdel & Hrun). injection Hrun as <- <-.
  match type of Hdel with
  | _ ?w0 = _ => destruct (delete_spec ("user:" +:+ userId) w0) as (wc & Ec & Sc & _)
  end.
  rewrite Ec in Hdel. injection Hdel as _ <-.
  destruct Sc as (Hr & _ & _ & _ & Hd & Hc & _). rewrite Hr, Hd, Hc. auto.
Qed.

Lemma find_toggled (test : User.t -> bool) (f : User.t -> User.t)
    (l : list User.t) :
  (forall x, test (f x) = test x) ->
  List.find test (List.map f l) = option_map f (List.find test l).
Proof.
  intros Hf. induction l as [|x l IH]; [reflexivity|].
  cbn [List.map List.find]. rewrite Hf. destruct (test x); [reflexivity|exact IH].
Qed.

Lemma stateless_ret {A} (a : A) : stateless (ret a).
Proof. exists (Ok a). reflexivity. Qed.

Lemma stateless_throw {A} e : stateless (@throw A e).
Proof. exists (Throw e). reflexivity. Qed.

Lemma stateless_bind {A B} (c : M A) (k : A -> M B) :
  stateless c -> (forall a, stateless (k a)) -> stateless (bind c k).
Proof.
  intros [[a|e] Hc] Hk.
  - destruct (Hk a) as [r Hr]. exists r. intros w. unfold bind. rewrite Hc. apply Hr.
  - exists (Throw e). intros w. unfold bind. rewrite Hc. reflexivity.
Qed.

Lemma stateless_try_catch {A} (c : M A) (h : Exn -> M A) :
  stateless c -> (forall e, stateless (h e)) -> stateless (try_catch c h).
Proof.
  intros [[a|e] Hc] Hh.
  - exists (Ok a). intros w. unfold try_catch. rewrite Hc. reflexivity.
  - destruct (Hh e) as [r Hr]. exists r. intros w. unfold try_catch. rewrite Hc.
    apply Hr.
Qed.

Lemma stateless_permissions_value text : stateless (permissions_value text).
Proof.
  unfold permissions_value, JSON.parse.
  destruct text as [s|]; [destruct (truthy_string s); [destruct (JSON_parse s)|]|];
    eexists; reflexivity.
Qed.

Lemma stateless_every {A} (xs : list A) (test : A -> M bool) :
  (forall x, stateless (test x)) -> stateless (every xs test).
Proof.
  intros Ht. induction xs as [|x rest IH]; [apply stateless_ret|].
  cbn [every]. apply stateless_bind; [apply Ht|].
  intros [|]; [exact IH|apply stateless_ret].
Qed.

Lemma stateless_js_includes v perm : stateless (js_includes v perm).
Proof. destruct v; eexists; reflexivity. Qed.

Lemma try_catch_bind_step {A B} (q : M A) (k : A -> M B) h w a w' :
  q w = (Ok a, w') -> try_catch (bind q k) h w = try_catch (k a) h w'.
Proof. intros E. unfold try_catch, bind. rewrite E. reflexivity. Qed.

(** X24.  Deactivating a user closes the login, not the tokens already
    issued.  After [toggleUserStatus] has switched an active user off, a
    login with the right password is refused with the 401 of every other
    failed login; [authenticate] answers each request as it did before;
    and [authorizePermission] reaches the same verdict as before for
    every request, that user's included. *)
Theorem deactivation_keeps_issued_tokens userId data u0 w u1 w1 :
  List.find (prisma.has_id prisma.user userId) (users w) = Some u0 ->
  List.find (fun x => String.eqb (User.email x) (LoginDto.email data)) (users w)
    = Some u0 ->
  User.isActive u0 = true ->
  AdminService.toggleUserStatus userId w = (Ok u1, w1) ->
  User.isActive u1 = false
  /\ UserService_login config comparePassword data w1
     = (Throw (ApiError "Invalid credentials" 401), log (DbRead "user") w1)
  /\ (forall req,
        fst (auth.authenticate config req w1) = fst (auth.authenticate config req w))
  /\ (forall required req,
        fst (auth.authorizePermission required req w1)
        = fst (auth.authorizePermission required req w)).
Proof.
  intros Hid Hemail Hact Hrun.
  destruct (toggle_frame _ _ _ _ Hrun) as (Hroles & Hdb1 & Hclock & Hdb).
  apply toggle_Ok in Hrun as (u0' & Hf0 & -> & Hw1).
  rewrite Hid in Hf0. injection Hf0 as <-. rewrite Hact in *. cbn [negb] in *.
  set (f := fun x => if prisma.has_id prisma.user userId x
                     then AdminService.set_isActive false x else x) in *.
  assert (forall x, User.email (f x) = User.email x) as Hfe.
  { intros x. unfold f. destruct (prisma.has_id prisma.user userId x); reflexivity. }
  assert (forall x, User.id (f x) = User.id x) as Hfi.
  { intros x. unfold f. destruct (prisma.has_id prisma.user userId x); reflexivity. }
  assert (forall x, User.roleId (f x) = User.roleId x) as Hfr.
  { intros x. unfold f. destruct (prisma.has_id prisma.user userId x); reflexivity. }
  assert (f u0 = AdminService.set_isActive false u0) as Hfu.
  { unfold f. apply find_some in Hid as [_ ->]. reflexivity. }
  split; [reflexivity|]. split; [|split].
  - unfold UserService_login, user_by_email_with_role.
    unfold bind at 1. rewrite query_up by (rewrite Hdb1; exact Hdb).
    cbn [users roles log]. rewrite Hw1.
    rewrite (find_toggled _ f) by (intros x; rewrite Hfe; reflexivity).
    rewrite Hemail. cbn [option_map]. rewrite Hfu. reflexivity.
  - intros req. rewrite !authenticate_run. cbn [fst]. rewrite Hclock. reflexivity.
  - intros required req. unfold auth.authorizePermission.
    destruct (user req) as [u|]; [|reflexivity].
    destruct (String.eqb (JwtPayload.role (claims u)) "api"); [reflexivity|].
    rewrite (try_catch_bind_step _ _ _ _ _ _
               (user_with_role_up _ w1 ltac:(rewrite Hdb1; exact Hdb))).
    rewrite (try_catch_bind_step _ _ _ _ _ _ (user_with_role_up _ w Hdb)).
    rewrite Hw1, Hroles.
    rewrite (find_toggled _ f)
      by (intros x; unfold prisma.has_id; cbn [prisma.key prisma.user];
          rewrite Hfi; reflexivity).
    destruct (List.find (prisma.has_id prisma.user (JwtPayload.id (claims u))) (users w))
      as [usr|];
      [|reflexivity].
    cbn [option_map]. rewrite Hfr.
    match goal with
    | |- fst (?c _) = fst (?c _) =>
        assert (stateless c) as [res Hres]; [|rewrite !Hres; reflexivity]
    end.
    apply stateless_try_catch; [|intros e; apply stateless_ret].
    apply stateless_bind.
    { destruct (List.find _ (roles w)); [apply stateless_ret|apply stateless_throw]. }
    intros text. apply stateless_bind; [apply stateless_permissions_value|].
    intros v. apply stateless_bind.
    { apply stateless_every. intros p. apply stateless_js_includes. }
    intros [|]; apply stateless_ret.
Qed.

End Status.

(** ** The cache of responses *)

Section ResponseCache.
Context `{Platform}.
Variable config : Config.
Variable schema : Schema.

Lemma lookup_response_up key w :
  redisDown w = false ->
  lookup_response key w =
    (Ok (match stored key w with
         | Some d =>
             if truthy_string d
             then match JSON_parse d with Some v => Hit v | None => Failed end
             else Miss
         | None => Miss
         end),
     log (Redis (GET key)) w).
Proof.
  intros Hd. unfold lookup_response, try_catch, bind, redis.get, redis.command.
  cbn. rewrite Hd. unfold stored. cbn.
  destruct (store w !! key) as [e|]; [|reflexivity].
  destruct (redis.live (clock w) e); [|reflexivity].
  destruct (truthy_string (e_data e)); [|reflexivity].
  unfold JSON.parse. destruct (JSON_parse (e_data e)); reflexivity.
Qed.

Lemma lookup_response_down key w :
  redisDown w = true ->
  lookup_response key w = (Ok Failed, log (Redis (GET key)) w).
Proof.
  intros Hd. unfold lookup_response, try_catch, bind, redis.get, redis.command.
  cbn. rewrite Hd. reflexivity.
Qed.

Lemma cacheMiddleware_ready ttl url next w :
  isConnected w = true ->
  cacheMiddleware config ttl "GET" url next w
  = (found <- lookup_response ("cache:" +:+ url) ;;
     match found with
     | Hit parsed => ret (mkResponse 200 parsed)
     | Miss => r <- next ;; caching_json config ("cache:" +:+ url) ttl r
     | Failed => next
     end) w.
Proof.
  intros Hc. unfold cacheMiddleware.
  change (String.eqb "GET" "GET") with true. cbn [negb].
  unfold bind at 1. unfold redis.isReady at 1. rewrite Hc. reflexivity.
Qed.

(** A stored response is replayed. *)
Lemma cacheMiddleware_hit ttl url next w text body :
  isConnected w = true -> redisDown w = false ->
  stored ("cache:" +:+ url) w = Some text -> text <> "" ->
  JSON_parse text = Some body ->
  cacheMiddleware config ttl "GET" url next w
  = (Ok (mkResponse 200 body), log (Redis (GET ("cache:" +:+ url))) w).
Proof.
  intros Hc Hd Hs Ht Hp. rewrite cacheMiddleware_ready by exact Hc.
  rewrite (bind_step _ _ _ _ _ (lookup_response_up _ _ Hd)).
  rewrite Hs. apply truthy_string_neq in Ht. rewrite Ht, Hp. reflexivity.
Qed.

Lemma caching_json_stores key ttl r w :
  redisDown w = false -> 0 < num_or ttl (cache_ttl config) ->
  200 <= statusCode r < 300 ->
  exists w',
    caching_json config key ttl r w = (Ok r, w')
    /\ store w' !! key
       = Some (mkEntry (JSON_stringify (payload r))
                       (Some (clock w + num_or ttl (cache_ttl config))))
    /\ isConnected w' = isConnected w /\ redisDown w' = false.
Proof.
  intros Hd Hpos [Hlo Hhi]. unfold caching_json.
  destruct (Z.leb_spec 200 (statusCode r)); [|lia].
  destruct (Z.ltb_spec (statusCode r) 300); [|lia]. cbn [andb].
  unfold bind, try_catch, redis.set, redis.setEx, JSON.stringify.
  destruct (Z.eqb_spec (num_or ttl (cache_ttl config)) 0) as [E|E]; [lia|]. cbn.
  rewrite Hd. cbn.
  destruct (Z.leb_spec (num_or ttl (cache_ttl config)) 0); [lia|]. cbn.
  eexists. split; [reflexivity|]. cbn. rewrite lookup_insert_eq. auto.
Qed.

(** X25.  The first answer to a URL is the answer to everyone who asks
    next.  On a GET with nothing cached under the URL, the handler runs
    and its 2xx response goes out and is stored; until the time to live
    is over, every further GET of the same URL is answered from the
    store, with the stored body and the status 200 (whatever 2xx status
    the first response had), and the handler of that request does not
    run. *)
Theorem cacheMiddleware_replays_first_response ttl url next w r w1 :
  isConnected w = true -> redisDown w = false ->
  stored ("cache:" +:+ url) w = None ->
  next (log (Redis (GET ("cache:" +:+ url))) w) = (Ok r, w1) ->
  200 <= statusCode r < 300 ->
  isConnected w1 = true -> redisDown w1 = false ->
  0 < num_or ttl (cache_ttl config) ->
  JSON_stringify (payload r) <> "" ->
  JSON_parse (JSON_stringify (payload r)) = Some (payload r) ->
  exists w2,
    cacheMiddleware config ttl "GET" url next w = (Ok r, w2)
    /\ forall next' t,
         t < clock w1 + num_or ttl (cache_ttl config) ->
         cacheMiddleware config ttl "GET" url next' (with_clock t w2)
         = (Ok (mkResponse 200 (payload r)),
            log (Redis (GET ("cache:" +:+ url))) (with_clock t w2)).
Proof.
  intros Hc Hd Hs Hnext Hst Hc1 Hd1 Hpos Hne Hrt.
  destruct (caching_json_stores ("cache:" +:+ url) ttl r w1 Hd1 Hpos Hst)
    as (w2 & Hw2 & Hstore & Hc2 & Hd2).
  exists w2. split.
  - rewrite cacheMiddleware_ready by exact Hc.
    rewrite (bind_step _ _ _ _ _ (lookup_response_up _ _ Hd)). rewrite Hs.
    rewrite (bind_step _ _ _ _ _ Hnext). exact Hw2.
  - intros next' t Ht.
    apply cacheMiddleware_hit with (text := JSON_stringify (payload r));
      try assumption.
    + cbn. congruence.
    + rewrite (stored_with_clock _ _ _ _ _ Hstore).
      destruct (Z.ltb_spec t (clock w1 + num_or ttl (cache_ttl config))); [reflexivity|lia].
Qed.

(** X26.  When it cannot serve, the middleware steps aside.  If Redis
    rejects the lookup, or the text under the key does not parse, the
    request goes to the handler as if the middleware were not there, and
    the response is not stored.  On a miss, a response whose status is
    not 2xx goes out as it is and is not stored either.  In none of these
    cases does the middleware throw. *)
Theorem cacheMiddleware_steps_aside ttl url next w :
  isConnected w = true ->
  (redisDown w = true ->
   cacheMiddleware config ttl "GET" url next w
   = next (log (Redis (GET ("cache:" +:+ url))) w))
  /\ (forall text,
        redisDown w = false ->
        stored ("cache:" +:+ url) w = Some text -> text <> "" ->
        JSON_parse text = None ->
        cacheMiddleware config ttl "GET" url next w
        = next (log (Redis (GET ("cache:" +:+ url))) w))
  /\ (forall r w1,
        redisDown w = false ->
        stored ("cache:" +:+ url) w = None ->
        next (log (Redis (GET ("cache:" +:+ url))) w) = (Ok r, w1) ->
        ~ (200 <= statusCode r < 300) ->
        cacheMiddleware config ttl "GET" url next w = (Ok r, w1)).
Proof.
  intros Hc. split; [|split].
  - intros Hd. rewrite cacheMiddleware_ready by exact Hc.
    rewrite (bind_step _ _ _ _ _ (lookup_response_down _ _ Hd)). reflexivity.
  - intros text Hd Hs Ht Hp. rewrite cacheMiddleware_ready by exact Hc.
    rewrite (bind_step _ _ _ _ _ (lookup_response_up _ _ Hd)).
    rewrite Hs. apply truthy_string_neq in Ht. rewrite Ht, Hp. reflexivity.
  - intros r w1 Hd Hs Hnext Hst. rewrite cacheMiddleware_ready by exact Hc.
    rewrite (bind_step _ _ _ _ _ (lookup_response_up _ _ Hd)). rewrite Hs.
    rewrite (bind_step _ _ _ _ _ Hnext). unfold caching_json.
    destruct (Z.leb_spec 200 (statusCode r)); destruct (Z.ltb_spec (statusCode r) 300);
      cbn [andb]; try lia; reflexivity.
Qed.

End ResponseCache.

(** ** What the services leave in the cache of responses *)

Lemma keeps_refl w : keeps_responses w w.
Proof. repeat split. Qed.

Lemma keeps_trans w1 w2 w3 :
  keeps_responses w1 w2 -> keeps_responses w2 w3 -> keeps_responses w1 w3.
Proof.
  intros (Hs & Hc & Hi & Hd) (Hs' & Hc' & Hi' & Hd').
  split; [|repeat split; congruence].
  intros url. rewrite Hs'. apply Hs.
Qed.

Lemma keeps_log e w : keeps_responses w (log e w).
Proof. repeat split. Qed.

Lemma leaves_ret {A} (a : A) : leaves_responses (ret a).
Proof. intros w. apply keeps_refl. Qed.

Lemma leaves_throw {A} e : leaves_responses (@throw A e).
Proof. intros w. apply keeps_refl. Qed.

(** The second computation may rely on what the first one returns. *)
Lemma leaves_bind_with {A B} (Q : A -> Prop) (c : M A) (k : A -> M B) :
  leaves_responses c ->
  (forall w a w1, c w = (Ok a, w1) -> Q a) ->
  (forall a, Q a -> leaves_responses (k a)) ->
  leaves_responses (bind c k).
Proof.
  intros Hc HQ Hk w. unfold bind. specialize (Hc w).
  destruct (c w) as [[a|e] w1] eqn:E; [|exact Hc].
  eapply keeps_trans; [exact Hc|]. apply Hk. eapply HQ. exact E.
Qed.

Lemma leaves_bind {A B} (c : M A) (k : A -> M B) :
  leaves_responses c -> (forall a, leaves_responses (k a)) ->
  leaves_responses (bind c k).
Proof.
  intros Hc Hk. apply (leaves_bind_with (fun _ => True)); auto.
Qed.

Lemma leaves_try_catch {A} (c : M A) (h : Exn -> M A) :
  leaves_responses c -> (forall e, leaves_responses (h e)) ->
  leaves_responses (try_catch c h).
Proof.
  intros Hc Hh w. unfold try_catch. specialize (Hc w).
  destruct (c w) as [[a|e] w1]; [exact Hc|].
  eapply keeps_trans; [exact Hc|]. apply Hh.
Qed.

Lemma leaves_for_of {A} (xs : list A) (body : A -> M unit) :
  (forall x, x ∈ xs -> leaves_responses (body x)) ->
  leaves_responses (for_of xs body).
Proof.
  induction xs as [|x rest IH]; intros Hb; [apply leaves_ret|].
  cbn [for_of]. apply leaves_bind; [apply Hb; constructor|].
  intros _. apply IH. intros y Hy. apply Hb. constructor. exact Hy.
Qed.

Lemma leaves_query {A} e (run : World -> Result A * World) :
  (forall w, keeps_responses w (snd (run w))) ->
  leaves_responses (prisma.query e run).
Proof.
  intros Hrun w. unfold prisma.query. cbn.
  destruct (dbDown w); [apply keeps_log|].
  eapply keeps_trans; [apply (keeps_log e)|apply Hrun].
Qed.

Lemma leaves_findFirst {A} (tb : prisma.Table A) where_ :
  leaves_responses (prisma.findFirst tb where_).
Proof. apply leaves_query. intros w. apply keeps_refl. Qed.

Lemma leaves_role_with_count i : leaves_responses (prisma.role_with_count i).
Proof. apply leaves_query. intros w. apply keeps_refl. Qed.

(** Writing the rows of a table changes neither Redis nor the clock. *)
Lemma leaves_create_role row : leaves_responses (prisma.create prisma.role row).
Proof. apply leaves_query. intros w. repeat split. Qed.

Lemma leaves_create_admin row : leaves_responses (prisma.create prisma.admin row).
Proof. apply leaves_query. intros w. repeat split. Qed.

Lemma leaves_create_user row : leaves_responses (prisma.create prisma.user row).
Proof. apply leaves_query. intros w. repeat split. Qed.

Lemma leaves_update_role i data : leaves_responses (prisma.update prisma.role i data).
Proof.
  apply leaves_query. intros w. cbn. destruct (List.find _ _); repeat split.
Qed.

Lemma leaves_update_admin i data : leaves_responses (prisma.update prisma.admin i data).
Proof.
  apply leaves_query. intros w. cbn. destruct (List.find _ _); repeat split.
Qed.

Lemma leaves_update_user i data : leaves_responses (prisma.update prisma.user i data).
Proof.
  apply leaves_query. intros w. cbn. destruct (List.find _ _); repeat split.
Qed.

Lemma leaves_updateMany_role where_ data :
  leaves_responses (prisma.updateMany prisma.role where_ data).
Proof. apply leaves_query. intros w. repeat split. Qed.

Lemma leaves_delete_role i : leaves_responses (prisma.delete prisma.role i).
Proof.
  apply leaves_query. intros w. cbn. destruct (List.find _ _); repeat split.
Qed.

Lemma leaves_delete_admin i : leaves_responses (prisma.delete prisma.admin i).
Proof.
  apply leaves_query. intros w. cbn. destruct (List.find _ _); repeat split.
Qed.

Lemma leaves_delete_user i : leaves_responses (prisma.delete prisma.user i).
Proof.
  apply leaves_query. intros w. cbn. destruct (List.find _ _); repeat split.
Qed.

Lemma leaves_del key : service_key key -> leaves_responses (redis.del key).
Proof.
  intros Hk w. unfold redis.del, redis.command. cbn.
  destruct (redisDown w); [apply keeps_log|]. repeat split. cbn.
  intros url. apply lookup_delete_ne. apply Hk.
Qed.

Lemma leaves_set key value ttl :
  service_key key -> leaves_responses (redis.set key value ttl).
Proof.
  intros Hk w. unfold redis.set, redis.setEx, redis.set_plain, redis.command.
  destruct (negb (ttl =? 0)); cbn.
  - destruct (redisDown w || (ttl <=? 0)); [apply keeps_log|]. repeat split. cbn.
    intros url. apply lookup_insert_ne. apply Hk.
  - destruct (redisDown w); [apply keeps_log|]. repeat split. cbn.
    intros url. apply lookup_insert_ne. apply Hk.
Qed.

Lemma leaves_get key : leaves_responses (redis.get key).
Proof.
  intros w. unfold redis.get, redis.command. cbn.
  destruct (redisDown w); apply keeps_log.
Qed.

Lemma leaves_keys pattern : leaves_responses (redis.keys pattern).
Proof.
  intros w. unfold redis.keys, redis.command. cbn.
  destruct (redisDown w); apply keeps_log.
Qed.

Lemma keys_match pattern w ks w1 :
  redis.keys pattern w = (Ok ks, w1) ->
  forall k, k ∈ ks -> redis.matches pattern k = true.
Proof.
  unfold redis.keys, redis.command. cbn. destruct (redisDown w); [discriminate|].
  intros E. injection E as <- _. intros k Hk.
  apply list_elem_of_In, filter_In in Hk. apply Hk.
Qed.

Lemma leaves_isReady : leaves_responses redis.isReady.
Proof. intros w. apply keeps_refl. Qed.

Section ServiceKeys.
Context `{Platform}.
Variable config : Config.
Variable schema : Schema.

Lemma leaves_CacheService_delete key :
  service_key key -> leaves_responses (CacheService.delete key).
Proof.
  intros Hk. unfold CacheService.delete. apply leaves_bind; [apply leaves_isReady|].
  intros [|]; cbn [negb]; [|apply leaves_ret].
  apply leaves_try_catch; [apply leaves_del, Hk|intros e; apply leaves_ret].
Qed.

Lemma leaves_CacheService_deletePattern pattern :
  (forall k, redis.matches pattern k = true -> service_key k) ->
  leaves_responses (CacheService.deletePattern pattern).
Proof.
  intros Hp. unfold CacheService.deletePattern.
  apply leaves_bind; [apply leaves_isReady|].
  intros [|]; cbn [negb]; [|apply leaves_ret].
  apply leaves_try_catch; [|intros e; apply leaves_ret].
  apply (leaves_bind_with (fun ks => forall k, k ∈ ks -> redis.matches pattern k = true)).
  - apply leaves_keys.
  - intros w ks w1 E. exact (keys_match _ _ _ _ E).
  - intros ks Hks. apply leaves_for_of. intros k Hk. apply leaves_del, Hp, Hks, Hk.
Qed.

Lemma leaves_CacheService_get key : leaves_responses (CacheService.get key).
Proof.
  unfold CacheService.get. apply leaves_bind; [apply leaves_isReady|].
  intros [|]; cbn [negb]; [|apply leaves_ret].
  apply leaves_try_catch; [|intros e; apply leaves_ret].
  apply leaves_bind; [apply leaves_get|].
  intros [d|]; [|apply leaves_ret].
  destruct (truthy_string d); [|apply leaves_ret].
  unfold JSON.parse. destruct (JSON_parse d); [apply leaves_ret|apply leaves_throw].
Qed.

Lemma leaves_CacheService_set key value ttl :
  service_key key -> leaves_responses (CacheService.set config key value ttl).
Proof.
  intros Hk. unfold CacheService.set. apply leaves_bind; [apply leaves_isReady|].
  intros [|]; cbn [negb]; [|apply leaves_ret].
  apply leaves_try_catch; [apply leaves_set, Hk|intros e; apply leaves_ret].
Qed.

Lemma leaves_getOrSet key fetcher ttl :
  service_key key -> leaves_responses fetcher ->
  leaves_responses (CacheService.getOrSet config key fetcher ttl).
Proof.
  intros Hk Hf. unfold CacheService.getOrSet.
  apply leaves_bind; [apply leaves_CacheService_get|].
  intros cached. destruct (truthy cached); [apply leaves_ret|].
  apply leaves_bind; [exact Hf|]. intros data.
  apply leaves_bind; [apply leaves_CacheService_set, Hk|]. intros _. apply leaves_ret.
Qed.

Lemma leaves_permissions_value text : leaves_responses (permissions_value text).
Proof.
  unfold permissions_value, JSON.parse.
  destruct text as [s|]; [destruct (truthy_string s); [destruct (JSON_parse s)|]|];
    try apply leaves_ret; apply leaves_throw.
Qed.

End ServiceKeys.

Lemma role_key_service id : service_key ("role:" +:+ id).
Proof. intros url E. rewrite !append_cons in E. discriminate. Qed.

Lemma admin_key_service id : service_key ("admin:" +:+ id).
Proof. intros url E. rewrite !append_cons in E. discriminate. Qed.

Lemma user_key_service id : service_key ("user:" +:+ id).
Proof. intros url E. rewrite !append_cons in E. discriminate. Qed.

Lemma roles_pattern_service k : redis.matches "roles:*" k = true -> service_key k.
Proof. intros Hm url ->. rewrite !append_cons in Hm. discriminate. Qed.

Lemma admins_pattern_service k : redis.matches "admins:*" k = true -> service_key k.
Proof. intros Hm url ->. rewrite !append_cons in Hm. discriminate. Qed.

Lemma users_pattern_service k : redis.matches "users:*" k = true -> service_key k.
Proof. intros Hm url ->. rewrite !append_cons in Hm. discriminate. Qed.

Create HintDb leaves.

#[local] Hint Resolve leaves_ret leaves_throw leaves_findFirst leaves_role_with_count
  leaves_create_role leaves_create_admin leaves_create_user
  leaves_update_role leaves_update_admin leaves_update_user leaves_updateMany_role
  leaves_delete_role leaves_delete_admin leaves_delete_user
  leaves_CacheService_delete leaves_CacheService_deletePattern
  leaves_permissions_value
  role_key_service admin_key_service user_key_service
  roles_pattern_service admins_pattern_service users_pattern_service : leaves.

(** One step through the body of a service function. *)
Ltac leaves_step :=
  match goal with
  | |- leaves_responses (bind _ _) => apply leaves_bind; [|intros ?]
  | |- leaves_responses (match ?x with _ => _ end) => destruct x
  | |- leaves_responses (let _ := _ in _) => cbv zeta
  | |- leaves_responses _ => solve [eauto with leaves]
  end.

Section WritePaths.
Context `{Platform}.
Variable config : Config.
Variable schema : Schema.

Lemma leaves_RoleService_getById id :
  leaves_responses (RoleService.getById config id).
Proof.
  unfold RoleService.getById. apply leaves_getOrSet; [apply role_key_service|].
  repeat leaves_step.
Qed.

(** Whatever a write path does and however it ends, the cached responses,
    the clock and the connection are as before. *)
Lemma leaves_run p : leaves_responses (run config schema p).
Proof.
  destruct p; unfold run.
  - unfold RoleService.create. repeat leaves_step.
  - unfold RoleService.update. repeat leaves_step.
  - unfold RoleService.delete. repeat leaves_step.
  - unfold RoleService.setDefault. repeat leaves_step.
  - unfold AdminService.create. repeat leaves_step.
  - unfold AdminService.update. repeat leaves_step.
  - unfold AdminService.delete. repeat leaves_step.
  - unfold AdminService.toggleUserStatus. repeat leaves_step.
  - unfold UserService.create, RoleService.getDefaultRole. repeat leaves_step.
  - unfold UserService.update. repeat leaves_step.
  - unfold UserService.delete. repeat leaves_step.
  - unfold UserService.changeRole. apply leaves_bind; [|intros ?; apply leaves_ret].
    apply leaves_bind; [apply leaves_RoleService_getById|intros ?].
    repeat leaves_step.
Qed.

(** X27.  No write path of the services touches the cache of responses.
    Whatever a create, update, delete, [setDefault], [toggleUserStatus]
    or [changeRole] does and however it ends, every key of
    [cacheMiddleware] holds what it held; so a response stored before the
    write is still replayed after it, and the handler that would read the
    new state does not run. *)
Theorem write_paths_keep_cached_responses p w url :
  stored ("cache:" +:+ url) (snd (run config schema p w)) = stored ("cache:" +:+ url) w
  /\ forall ttl next text body,
       isConnected w = true -> redisDown w = false ->
       stored ("cache:" +:+ url) w = Some text -> text <> "" ->
       JSON_parse text = Some body ->
       cacheMiddleware config ttl "GET" url next (snd (run config schema p w))
       = (Ok (mkResponse 200 body),
          log (Redis (GET ("cache:" +:+ url))) (snd (run config schema p w))).
Proof.
  destruct (leaves_run p w) as (Hs & Hc & Hi & Hd).
  assert (stored ("cache:" +:+ url) (snd (run config schema p w))
          = stored ("cache:" +:+ url) w) as E.
  { unfold stored. rewrite Hs, Hc. reflexivity. }
  split; [exact E|].
  intros ttl next text body Hcon Hup Hst Hne Hp.
  apply cacheMiddleware_hit with (text := text); try congruence.
Qed.

(** X28.  The cached profile goes to whoever asks.  On
    [GET /api/admin/profile], the key of the cached response is the URL
    alone: once a response is stored under it, every request with a
    verified admin token is answered with that body, whoever the token
    names, and neither the handler nor the database is reached. *)
Theorem admin_profile_replayed_to_any_admin url req token d text body w :
  authorization req = Some ("Bearer " +:+ token)%string -> token <> "" ->
  jwt.verify token (jwt_secret config) (clock w) = inl d ->
  JwtPayload.type (claims d) = "admin" ->
  isConnected w = true -> redisDown w = false ->
  stored ("cache:" +:+ url) w = Some text -> text <> "" ->
  JSON_parse text = Some body ->
  admin_profile_route config url req w
  = (Ok (mkResponse 200 body), log (Redis (GET ("cache:" +:+ url))) w).
Proof.
  intros Hh Ht Hv Hty Hc Hd Hs Hne Hp. unfold admin_profile_route.
  rewrite (bind_step _ _ _ _ _ (authenticate_run config req w)).
  rewrite Hh, extract_bearer. apply truthy_string_neq in Ht. rewrite Ht, Hv.
  cbn [negb]. unfold auth.authorizeType, includes.
  cbn [user set_user List.existsb]. rewrite Hty. cbn [String.eqb orb negb].
  change (String.eqb "admin" "admin") with true. cbn [orb negb].
  apply cacheMiddleware_hit with (text := text); assumption.
Qed.

End WritePaths.

(** ** The rate limit *)

Lemma serve_other_client maxRequests windowMs ip ip' times m :
  ip <> ip' ->
  snd (RateLimit.serve maxRequests windowMs ip times m) !! ip' = m !! ip'.
Proof.
  intros Hne. revert m. induction times as [|t rest IH]; intros m; [reflexivity|].
  cbn [RateLimit.serve].
  destruct (RateLimit.simpleRateLimit maxRequests windowMs ip t m) as [v m1] eqn:E1.
  destruct (RateLimit.serve maxRequests windowMs ip rest m1) as [vs m2] eqn:E2.
  cbn [snd]. change m2 with (snd (vs, m2)). rewrite <- E2, IH.
  unfold RateLimit.simpleRateLimit in E1.
  destruct (m !! ip) as [r|].
  - destruct (t >? RateLimit.resetTime r).
    + injection E1 as _ <-. apply lookup_insert_ne. exact Hne.
    + destruct (RateLimit.count r >=? maxRequests); injection E1 as _ <-;
        [reflexivity|apply lookup_insert_ne; exact Hne].
  - injection E1 as _ <-. apply lookup_insert_ne. exact Hne.
Qed.

(** Inside a window that is already counting: the requests that pass are
    those that fit under the maximum. *)
Lemma serve_in_window maxRequests windowMs ip times m c R :
  m !! ip = Some (RateLimit.mkRecord c R) ->
  Forall (fun t => t <= R) times ->
  Z.of_nat (List.length (List.filter RateLimit.passed
              (fst (RateLimit.serve maxRequests windowMs ip times m))))
  = Z.min (Z.of_nat (List.length times)) (Z.max 0 (maxRequests - c)).
Proof.
  revert m c. induction times as [|t rest IH]; intros m c Hm Hall.
  - cbn. lia.
  - apply Forall_cons in Hall as [Ht Hall]. cbn [RateLimit.serve].
    unfold RateLimit.simpleRateLimit. rewrite Hm.
    cbn [RateLimit.resetTime RateLimit.count].
    destruct (Z.gtb_spec t R) as [|_]; [lia|].
    destruct (Z.geb_spec c maxRequests) as [Hfull|Hroom].
    + destruct (RateLimit.serve maxRequests windowMs ip rest m) as [vs m2] eqn:E2.
      cbn [fst List.filter RateLimit.passed].
      change vs with (fst (vs, m2)). rewrite <- E2.
      rewrite (IH m c Hm Hall). cbn [List.length]. lia.
    + destruct (RateLimit.serve maxRequests windowMs ip rest
                  (<[ip := RateLimit.mkRecord (c + 1) R]> m)) as [vs m2] eqn:E2.
      cbn [fst List.filter RateLimit.passed List.length].
      change vs with (fst (vs, m2)). rewrite <- E2.
      rewrite Nat2Z.inj_succ.
      rewrite (IH _ (c + 1) (lookup_insert_eq _ _ _) Hall). cbn [List.length]. lia.
Qed.

(** X29.  The bound of the rate limit.  When an address starts a window
    at time [t0] (it has no record, or its record has run out), then of
    its requests up to the end of that window, the first
    [max 1 maxRequests] pass and no more: the first request always
    passes, also with a maximum of zero.  The requests of one address
    leave the record of every other address as it was. *)
Theorem rate_limit_window_bound maxRequests windowMs ip t0 times m :
  (forall r, m !! ip = Some r -> RateLimit.resetTime r < t0) ->
  Forall (fun t => t <= t0 + windowMs) times ->
  Z.of_nat (List.length (List.filter RateLimit.passed
              (fst (RateLimit.serve maxRequests windowMs ip (t0 :: times) m))))
  = Z.min (Z.of_nat (List.length (t0 :: times))) (Z.max 1 maxRequests)
  /\ forall ip', ip <> ip' ->
       snd (RateLimit.serve maxRequests windowMs ip (t0 :: times) m) !! ip' = m !! ip'.
Proof.
  intros Hstart Hall. split; [|intros ip' Hne; apply serve_other_client, Hne].
  cbn [RateLimit.serve].
  assert (RateLimit.simpleRateLimit maxRequests windowMs ip t0 m
          = (RateLimit.Pass, <[ip := RateLimit.mkRecord 1 (t0 + windowMs)]> m)) as ->.
  { unfold RateLimit.simpleRateLimit. destruct (m !! ip) as [r|] eqn:Hm; [|reflexivity].
    specialize (Hstart r eq_refl).
    destruct (Z.gtb_spec t0 (RateLimit.resetTime r)); [reflexivity|lia]. }
  destruct (RateLimit.serve maxRequests windowMs ip times
              (<[ip := RateLimit.mkRecord 1 (t0 + windowMs)]> m)) as [vs m2] eqn:E2.
  cbn [fst List.filter RateLimit.passed List.length].
  change vs with (fst (vs, m2)). rewrite <- E2.
  rewrite !Nat2Z.inj_succ.
  rewrite (serve_in_window _ _ _ _ _ 1 (t0 + windowMs) (lookup_insert_eq _ _ _) Hall).
  lia.
Qed.

(** X30.  What a refusal says.  A request is refused only inside a
    running window whose count has reached the maximum, and the refusal
    changes nothing.  Every request of the address up to the end of the
    window is refused as well, the one exactly at the end included, and
    every one after the end passes and starts a new window.  Within the
    safe integers (a time that is not negative, a stored end of the
    window and a new end of the window that are safe), the advised
    [retryAfter] is the time left in the window in whole seconds, rounded
    up, which may be zero, and the new window has a count of one and ends
    [windowMs] after the request. *)
Theorem rate_limit_refusal maxRequests windowMs ip t m retryAfter m' :
  0 <= t ->
  (forall r, m !! ip = Some r -> RateLimit.resetTime r <= RateLimit.max_safe_integer) ->
  RateLimit.simpleRateLimit maxRequests windowMs ip t m
    = (RateLimit.TooMany retryAfter, m') ->
  m' = m
  /\ exists r,
       m !! ip = Some r
       /\ t <= RateLimit.resetTime r /\ maxRequests <= RateLimit.count r
       /\ RateLimit.safe_integer (RateLimit.resetTime r - t)
       /\ 0 <= retryAfter
       /\ 1000 * (retryAfter - 1) < RateLimit.resetTime r - t <= 1000 * retryAfter
       /\ (forall t', t' <= RateLimit.resetTime r ->
             exists s, RateLimit.simpleRateLimit maxRequests windowMs ip t' m
                       = (RateLimit.TooMany s, m))
       /\ (forall t', RateLimit.resetTime r < t' ->
             RateLimit.passed
               (fst (RateLimit.simpleRateLimit maxRequests windowMs ip t' m)) = true)
       /\ (forall t', RateLimit.resetTime r < t' ->
             RateLimit.safe_integer (t' + windowMs) ->
             RateLimit.simpleRateLimit maxRequests windowMs ip t' m
             = (RateLimit.Pass, <[ip := RateLimit.mkRecord 1 (t' + windowMs)]> m)).
Proof.
  intros Hpos Hsafe. unfold RateLimit.simpleRateLimit.
  destruct (m !! ip) as [r|] eqn:Hm; [|discriminate].
  specialize (Hsafe r eq_refl).
  destruct (Z.gtb_spec t (RateLimit.resetTime r)) as [|Hin]; [discriminate|].
  destruct (Z.geb_spec (RateLimit.count r) maxRequests) as [Hfull|]; [|discriminate].
  intros E. injection E as <- <-. split; [reflexivity|].
  exists r. split; [reflexivity|]. split; [lia|]. split; [lia|].
  split; [unfold RateLimit.safe_integer, RateLimit.max_safe_integer in *; lia|].
  assert (0 <= RateLimit.ceil_seconds (RateLimit.resetTime r - t)
          /\ 1000 * (RateLimit.ceil_seconds (RateLimit.resetTime r - t) - 1)
             < RateLimit.resetTime r - t
             <= 1000 * RateLimit.ceil_seconds (RateLimit.resetTime r - t)) as Hceil.
  { unfold RateLimit.ceil_seconds. Z.to_euclidean_division_equations. lia. }
  split; [apply Hceil|]. split; [apply Hceil|]. split; [|split].
  - intros t' Ht'. destruct (Z.gtb_spec t' (RateLimit.resetTime r)); [lia|].
    destruct (Z.geb_spec (RateLimit.count r) maxRequests); [|lia]. eexists. reflexivity.
  - intros t' Ht'. destruct (Z.gtb_spec t' (RateLimit.resetTime r)); [|lia].
    reflexivity.
  - intros t' Ht' _. destruct (Z.gtb_spec t' (RateLimit.resetTime r)); [|lia].
    reflexivity.
Qed.

(** ** The further properties on the demo platform *)

Lemma setDefault_makes_unique_default_witness :
  NoDup (List.map Role.id (roles two_roles_world))
  /\ exists r w',
       RoleService.setDefault "r2" two_roles_world = (Ok r, w')
       /\ defaults w' = [r] /\ Role.id r = "r2"
       /\ List.map Role.id (roles w') = List.map Role.id (roles two_roles_world)
       /\ List.map Role.permissions (roles w')
          = List.map Role.permissions (roles two_roles_world)
       /\ users w' = users two_roles_world.
Proof.
  assert (NoDup (List.map Role.id (roles two_roles_world))) as Hnd.
  { apply (bool_decide_unpack _). vm_compute. exact I. }
  split; [exact Hnd|]. eexists _, _. split; [reflexivity|].
  apply (setDefault_makes_unique_default "r2" two_roles_world _ _ Hnd eq_refl).
Defined.

Lemma setDefault_unknown_id_witness :
  dbDown two_roles_world = false
  /\ List.find (prisma.has_id prisma.role "zz") (roles two_roles_world) = None
  /\ exists w',
       RoleService.setDefault "zz" two_roles_world = (Throw (PrismaError "P2025"), w')
       /\ defaults w' = []
       /\ store w' = store two_roles_world
       /\ trace w' = trace two_roles_world
                     ++ [DbWrite "role" "updateMany"; DbWrite "role" "update"].
Proof.
  split; [reflexivity|]. split; [reflexivity|].
  apply (setDefault_unknown_id "zz" two_roles_world); reflexivity.
Defined.

Lemma create_checks_name_and_slug_witness :
  dbDown two_roles_world = false
  /\ @RoleService.create Demo.platform Demo.schema "r3" taken_role_dto two_roles_world
     = (Throw (ApiError "Role with this name or slug already exists" 400),
        log (DbRead "role") two_roles_world)
  /\ roles (snd (@RoleService.create Demo.platform Demo.schema "r3" chief_role_dto two_roles_world))
     = roles two_roles_world
       ++ [Role.mk "r3" "Chief" "chief" None
             (Some (Demo.print (JArr [JStr "read:users"]))) false true].
Proof.
  split; [reflexivity|]. split.
  - apply (proj1 (@create_checks_name_and_slug Demo.platform Demo.schema "r3" taken_role_dto
                    two_roles_world eq_refl) editor_role).
    reflexivity.
  - apply (proj2 (@create_checks_name_and_slug Demo.platform Demo.schema "r3" chief_role_dto
                    two_roles_world eq_refl)).
    reflexivity.
Defined.

Lemma delete_guards_referenced_roles_witness :
  dbDown two_roles_world = false
  /\ members "r1" two_roles_world = [alice_user]
  /\ RoleService.delete "zz" two_roles_world
     = (Throw (ApiError "Role not found" 404), log (DbRead "role") two_roles_world)
  /\ RoleService.delete "r1" two_roles_world
     = (Throw (ApiError "Cannot delete role with assigned users" 400),
        log (DbRead "role") two_roles_world)
  /\ exists w',
       RoleService.delete "r2" two_roles_world = (Ok "Role deleted successfully", w')
       /\ roles w' = [editor_role]
       /\ users w' = [alice_user].
Proof.
  split; [reflexivity|]. split; [reflexivity|]. split; [|split].
  - apply (proj1 (delete_guards_referenced_roles "zz" two_roles_world eq_refl)).
    reflexivity.
  - apply (proj1 (proj2 (delete_guards_referenced_roles "r1" two_roles_world eq_refl))
             editor_role); [reflexivity|discriminate].
  - apply (proj2 (proj2 (delete_guards_referenced_roles "r2" two_roles_world eq_refl))
             author_role); reflexivity.
Defined.

Lemma update_keeps_identity_witness :
  @RoleService.update Demo.platform "zz" rename_dto two_roles_world
  = (Throw (PrismaError "P2025"), log (DbWrite "role" "update") two_roles_world)
  /\ exists r perms w',
       @RoleService.update Demo.platform "r1" rename_dto two_roles_world = (Ok (r, perms), w')
       /\ Role.id r = "r1"
       /\ List.map Role.id (roles w') = ["r1"; "r2"]
       /\ List.map Role.slug (roles w') = ["editor"; "author"]
       /\ List.map Role.isDefault (roles w') = [true; false].
Proof.
  split.
  - apply (proj1 (@update_keeps_identity Demo.platform "zz" rename_dto two_roles_world));
      reflexivity.
  - eexists _, _, _. split; [reflexivity|].
    apply (proj2 (@update_keeps_identity Demo.platform "r1" rename_dto two_roles_world)
                 _ _ _ eq_refl).
Defined.

Lemma getById_not_found_is_not_cached_witness :
  isConnected Demo.empty_world = true /\ redisDown Demo.empty_world = false
  /\ dbDown Demo.empty_world = false
  /\ @RoleService.getById Demo.platform Demo.config "zz" Demo.empty_world
     = (Throw (ApiError "Role not found" 404),
        log (DbRead "role") (log (Redis (GET "role:zz")) Demo.empty_world))
  /\ @AdminService_getById Demo.platform Demo.config "zz" Demo.empty_world
     = (Throw (ApiError "Admin not found" 404),
        log (DbRead "admin") (log (Redis (GET "admin:zz")) Demo.empty_world))
  /\ @UserService_getById Demo.platform Demo.config "zz" Demo.empty_world
     = (Throw (ApiError "User not found" 404),
        log (DbRead "user") (log (Redis (GET "user:zz")) Demo.empty_world)).
Proof.
  pose proof (@getById_not_found_is_not_cached Demo.platform Demo.config "zz"
                Demo.empty_world eq_refl eq_refl eq_refl) as (Hr & Ha & Hu).
  split; [reflexivity|]. split; [reflexivity|]. split; [reflexivity|].
  split; [|split].
  - apply Hr; reflexivity.
  - apply Ha; reflexivity.
  - apply Hu; reflexivity.
Defined.

Lemma UserService_create_assigns_default_role_witness :
  dbDown two_roles_world = false /\ dbDown Demo.empty_world = false
  /\ @UserService.create Demo.platform Demo.schema "u2" alice_again_dto two_roles_world
     = (Throw (ApiError "User with this email already exists" 400),
        log (DbRead "user") two_roles_world)
  /\ (exists u w',
        @UserService.create Demo.platform Demo.schema "u2" bob_dto two_roles_world = (Ok u, w')
        /\ u = User.mk "u2" "bob@example.com" "hash:pw" "Bob" None None "r1" true
        /\ users w' = [alice_user; u])
  /\ @UserService.create Demo.platform Demo.schema "u2" bob_dto Demo.empty_world
     = (Throw (ApiError "No default role found. Please create a default role first." 400),
        log (DbRead "role") (log (DbRead "user") Demo.empty_world)).
Proof.
  split; [reflexivity|]. split; [reflexivity|]. split; [|split].
  - apply (proj1 (@UserService_create_assigns_default_role Demo.platform Demo.schema
                    "u2" alice_again_dto two_roles_world eq_refl) alice_user).
    reflexivity.
  - apply (proj1 (proj2 (@UserService_create_assigns_default_role Demo.platform
                           Demo.schema "u2" bob_dto two_roles_world eq_refl)
                        eq_refl eq_refl) editor_role).
    reflexivity.
  - apply (proj2 (proj2 (@UserService_create_assigns_default_role Demo.platform
                           Demo.schema "u2" bob_dto Demo.empty_world eq_refl)
                        eq_refl eq_refl)).
    reflexivity.
Defined.

Lemma toggleUserStatus_twice_witness :
  NoDup (List.map User.id (users alice_world))
  /\ exists u1 w1 u2 w2,
       AdminService.toggleUserStatus "u1" alice_world = (Ok u1, w1)
       /\ AdminService.toggleUserStatus "u1" w1 = (Ok u2, w2)
       /\ User.isActive u1 = negb (User.isActive u2)
       /\ users w2 = users alice_world.
Proof.
  assert (NoDup (List.map User.id (users alice_world))) as Hnd.
  { apply (bool_decide_unpack _). vm_compute. exact I. }
  split; [exact Hnd|]. eexists _, _, _, _.
  split; [reflexivity|]. split; [reflexivity|].
  apply (toggleUserStatus_twice "u1" alice_world _ _ _ _ Hnd eq_refl eq_refl).
Defined.

Lemma changeRole_unknown_role_witness :
  isConnected alice_world = true /\ redisDown alice_world = false
  /\ dbDown alice_world = false
  /\ stored "role:zz" alice_world = None
  /\ List.find (prisma.has_id prisma.role "zz") (roles alice_world) = None
  /\ exists w',
       @UserService.changeRole Demo.platform Demo.config "u1" "zz" alice_world
       = (Throw (ApiError "Role not found" 404), w')
       /\ users w' = users alice_world
       /\ List.existsb is_mutation (trace w')
          = List.existsb is_mutation (trace alice_world).
Proof.
  split; [reflexivity|]. split; [reflexivity|]. split; [reflexivity|].
  split; [reflexivity|]. split; [reflexivity|].
  apply (@changeRole_unknown_role Demo.platform Demo.config "u1" "zz" alice_world);
    reflexivity.
Defined.

Lemma admin_login_tokens_authenticate_witness :
  dbDown admin_world = false
  /\ exists token refreshToken,
       @AdminService_login refresh_platform Demo.config demo_compare root_login admin_world
       = (Ok (root_admin, token, refreshToken), log (DbRead "admin") admin_world)
       /\ @auth.authenticate refresh_platform Demo.config (bearer token)
            (with_clock 4599 Demo.empty_world)
          = (Ok (Next (set_user (signed_claims Demo.root 1000 3600) (bearer token))),
             with_clock 4599 Demo.empty_world)
       /\ @auth.authenticate refresh_platform Demo.config (bearer token)
            (with_clock 4600 Demo.empty_world)
          = (Ok (Respond 401 "Invalid or expired token"), with_clock 4600 Demo.empty_world)
       /\ @auth.authenticate refresh_platform Demo.config (bearer refreshToken)
            (with_clock 2592999 Demo.empty_world)
          = (Ok (Next (set_user (signed_claims Demo.root 1000 thirty_days)
                         (bearer refreshToken))),
             with_clock 2592999 Demo.empty_world).
Proof.
  split; [reflexivity|].
  destruct (@admin_login_tokens_authenticate refresh_platform Demo.config demo_compare
              root_login root_admin admin_world)
    as (token & refreshToken & Hlogin & Hauth);
    try reflexivity; try (repeat split; reflexivity).
  exists token, refreshToken. split; [exact Hlogin|]. split; [|split].
  - apply (proj1 (Hauth (with_clock 4599 Demo.empty_world))). cbn. lia.
  - apply (proj1 (proj2 (Hauth (with_clock 4600 Demo.empty_world)))). cbn. lia.
  - apply (proj2 (proj2 (Hauth (with_clock 2592999 Demo.empty_world)))).
    unfold thirty_days. cbn. lia.
Defined.

Lemma login_failures_are_uniform_witness :
  dbDown alice_world = false /\ dbDown admin_world = false
  /\ @AdminService_login Demo.platform Demo.config demo_compare root_bad_login admin_world
     = (Throw (ApiError "Invalid credentials" 401), log (DbRead "admin") admin_world)
  /\ @AdminService_login Demo.platform Demo.config demo_compare root_login alice_world
     = (Throw (ApiError "Invalid credentials" 401), log (DbRead "admin") alice_world)
  /\ @UserService_login Demo.platform Demo.config demo_compare alice_bad_login alice_world
     = (Throw (ApiError "Invalid credentials" 401), log (DbRead "user") alice_world).
Proof.
  split; [reflexivity|]. split; [reflexivity|]. split; [|split].
  - apply (proj1 (@login_failures_are_uniform Demo.platform Demo.config demo_compare
                    root_bad_login admin_world eq_refl)).
    intros a E. injection E as <-. reflexivity.
  - apply (proj1 (@login_failures_are_uniform Demo.platform Demo.config demo_compare
                    root_login alice_world eq_refl)).
    intros a E. discriminate.
  - apply (proj2 (@login_failures_are_uniform Demo.platform Demo.config demo_compare
                    alice_bad_login alice_world eq_refl)).
    intros u E. injection E as <-. reflexivity.
Defined.

Lemma multiAuth_accepts_bearer_of_authenticate_witness :
  @auth.authenticate Demo.platform Demo.config alice_bearer_wrong_key Demo.empty_world
  = (Ok (Next (set_user (signed_claims Demo.alice 1000 3600) alice_bearer_wrong_key)),
     Demo.empty_world)
  /\ @auth.multiAuth Demo.platform Demo.config alice_bearer_wrong_key Demo.empty_world
     = (Ok (Next (set_user (signed_claims Demo.alice 1000 3600) alice_bearer_wrong_key)),
        Demo.empty_world).
Proof.
  split; [reflexivity|].
  apply (@multiAuth_accepts_bearer_of_authenticate Demo.platform Demo.config
           alice_bearer_wrong_key _ Demo.empty_world Demo.empty_world).
  reflexivity.
Defined.

Lemma api_key_requests_pass_permission_checks_witness :
  auth.authenticateApiKey Demo.config key_only Demo.empty_world
  = (Ok (Next (set_user system_principal key_only)), Demo.empty_world)
  /\ @auth.authorizePermission Demo.platform ["delete:everything"]
       (set_user system_principal key_only) db_down_world
     = (Ok (Next (set_user system_principal key_only)), db_down_world)
  /\ auth.authorizeRole ["SUPER_ADMIN"] (set_user system_principal key_only)
     <> Next (set_user system_principal key_only).
Proof.
  pose proof (@api_key_requests_pass_permission_checks Demo.platform Demo.config key_only
                (set_user system_principal key_only) Demo.empty_world Demo.empty_world
                eq_refl) as [Hperm Hrole].
  split; [reflexivity|]. split; [apply Hperm|].
  intros E. apply Hrole in E. discriminate.
Defined.

Lemma authenticateApiKey_database_down_witness :
  dbDown db_down_world = true
  /\ exists o w',
       auth.authenticateApiKey Demo.config session_request db_down_world
       = (Ok o, w')
       /\ match o with
          | Next r =>
              x_api_key session_request = Some (apiKey Demo.config)
              /\ apiKey Demo.config <> ""
              /\ r = set_user system_principal session_request /\ w' = db_down_world
          | Respond status _ => status = 401
          end.
Proof.
  split; [reflexivity|].
  apply (authenticateApiKey_database_down Demo.config session_request
           db_down_world).
  reflexivity.
Defined.

Lemma admin_create_guard_passes_super_admin_witness :
  @admin_create_guard Demo.platform Demo.config (bearer root_token) Demo.empty_world
  = (Ok (Next (set_user (signed_claims Demo.root 1000 3600) (bearer root_token))),
     Demo.empty_world).
Proof.
  apply (proj1 (@admin_create_guard_passes_super_admin Demo.platform Demo.config (bearer root_token)
                  Demo.empty_world)).
  exists root_token, (signed_claims Demo.root 1000 3600).
  repeat split; try reflexivity. discriminate.
Defined.

Lemma authorizePermission_passes_holder_witness :
  user (request_of alice_principal) = Some alice_principal
  /\ JwtPayload.role (claims alice_principal) <> "api"
  /\ dbDown alice_world = false
  /\ @auth.authorizePermission Demo.platform ["read:comments"; "read:users"]
       (request_of alice_principal) alice_world
     = (Ok (Next (request_of alice_principal)), log (DbRead "user") alice_world).
Proof.
  split; [reflexivity|]. split; [discriminate|]. split; [reflexivity|].
  apply (@authorizePermission_passes_holder Demo.platform
           ["read:comments"; "read:users"] (request_of alice_principal) alice_principal
           alice_user editor_role [JStr "read:users"; JStr "read:comments"] alice_world);
    try reflexivity; try discriminate.
  - right. eexists. split; [reflexivity|]. split; reflexivity.
  - intros p Hp. apply elem_of_cons in Hp as [->|Hp]; [reflexivity|].
    apply elem_of_cons in Hp as [->|Hp]; [reflexivity|]. inversion Hp.
Defined.

Lemma deactivation_keeps_issued_tokens_witness :
  User.isActive alice_user = true
  /\ exists u1 w1,
       AdminService.toggleUserStatus "u1" alice_world = (Ok u1, w1)
       /\ User.isActive u1 = false
       /\ @UserService_login Demo.platform Demo.config demo_compare alice_login w1
          = (Throw (ApiError "Invalid credentials" 401), log (DbRead "user") w1)
       /\ fst (@auth.authenticate Demo.platform Demo.config (bearer alice_token) w1)
          = Ok (Next (set_user (signed_claims Demo.alice 1000 3600) (bearer alice_token)))
       /\ fst (@auth.authorizePermission Demo.platform ["read:users"]
                 (request_of alice_principal) w1)
          = Ok (Next (request_of alice_principal)).
Proof.
  split; [reflexivity|]. eexists _, _. split; [reflexivity|].
  pose proof (@deactivation_keeps_issued_tokens Demo.platform Demo.config demo_compare
                "u1" alice_login alice_user alice_world _ _ eq_refl eq_refl eq_refl
                eq_refl) as (Hoff & Hlogin & Hauth & Hperm).
  split; [exact Hoff|]. split; [exact Hlogin|]. split.
  - rewrite Hauth. reflexivity.
  - rewrite Hperm. reflexivity.
Defined.

Lemma cacheMiddleware_replays_first_response_witness :
  isConnected Demo.empty_world = true /\ redisDown Demo.empty_world = false
  /\ stored "cache:/api/roles" Demo.empty_world = None
  /\ exists w2,
       @cacheMiddleware Demo.platform Demo.config (Some 300) "GET" "/api/roles" created
         Demo.empty_world
       = (Ok (mkResponse 201 (JStr "ok")), w2)
       /\ @cacheMiddleware Demo.platform Demo.config (Some 300) "GET" "/api/roles"
            not_found (with_clock 1299 w2)
          = (Ok (mkResponse 200 (JStr "ok")),
             log (Redis (GET "cache:/api/roles")) (with_clock 1299 w2)).
Proof.
  split; [reflexivity|]. split; [reflexivity|]. split; [reflexivity|].
  destruct (@cacheMiddleware_replays_first_response Demo.platform Demo.config (Some 300)
              "/api/roles" created Demo.empty_world (mkResponse 201 (JStr "ok"))
              (log (Redis (GET "cache:/api/roles")) Demo.empty_world))
    as (w2 & Hfirst & Hnext);
    try reflexivity; try discriminate; try (cbn; lia).
  exists w2. split; [exact Hfirst|]. apply Hnext. cbn. lia.
Defined.

Lemma cacheMiddleware_steps_aside_witness :
  isConnected redis_down_world = true /\ redisDown redis_down_world = true
  /\ @cacheMiddleware Demo.platform Demo.config (Some 300) "GET" "/api/roles" created
       redis_down_world
     = created (log (Redis (GET "cache:/api/roles")) redis_down_world)
  /\ stored "cache:/api/roles" garbled_world = Some "{"
  /\ @cacheMiddleware Demo.platform Demo.config (Some 300) "GET" "/api/roles" created
       garbled_world
     = created (log (Redis (GET "cache:/api/roles")) garbled_world)
  /\ @cacheMiddleware Demo.platform Demo.config (Some 300) "GET" "/api/roles" not_found
       Demo.empty_world
     = (Ok (mkResponse 404 (JStr "ok")),
        log (Redis (GET "cache:/api/roles")) Demo.empty_world).
Proof.
  split; [reflexivity|]. split; [reflexivity|]. split; [|split; [reflexivity|split]].
  - apply (proj1 (@cacheMiddleware_steps_aside Demo.platform Demo.config (Some 300)
                    "/api/roles" created redis_down_world eq_refl)).
    reflexivity.
  - apply (proj1 (proj2 (@cacheMiddleware_steps_aside Demo.platform Demo.config
                           (Some 300) "/api/roles" created garbled_world eq_refl))
             "{"); try reflexivity. discriminate.
  - apply (proj2 (proj2 (@cacheMiddleware_steps_aside Demo.platform Demo.config
                           (Some 300) "/api/roles" not_found Demo.empty_world eq_refl)));
      try reflexivity. cbn. lia.
Defined.

Lemma write_paths_keep_cached_responses_witness :
  isConnected cached_listing_world = true /\ redisDown cached_listing_world = false
  /\ List.map Role.name
       (roles (snd (@run Demo.platform Demo.config Demo.schema
                      (RoleUpdate "r1" rename_dto) cached_listing_world)))
     = ["Chief"]
  /\ @cacheMiddleware Demo.platform Demo.config (Some 300) "GET" "/api/roles" not_found
       (snd (@run Demo.platform Demo.config Demo.schema (RoleUpdate "r1" rename_dto)
               cached_listing_world))
     = (Ok (mkResponse 200 roles_listing),
        log (Redis (GET "cache:/api/roles"))
          (snd (@run Demo.platform Demo.config Demo.schema (RoleUpdate "r1" rename_dto)
                  cached_listing_world))).
Proof.
  split; [reflexivity|]. split; [reflexivity|]. split; [reflexivity|].
  apply (proj2 (@write_paths_keep_cached_responses Demo.platform Demo.config Demo.schema
                  (RoleUpdate "r1" rename_dto) cached_listing_world "/api/roles")
               (Some 300) not_found (Demo.print roles_listing) roles_listing);
    try reflexivity. discriminate.
Defined.

Lemma admin_profile_replayed_to_any_admin_witness :
  isConnected profile_cached_world = true /\ redisDown profile_cached_world = false
  /\ JwtPayload.id Demo.root = "a1"
  /\ @admin_profile_route Demo.platform Demo.config "/api/admin/profile"
       (bearer root_token) profile_cached_world
     = (Ok (mkResponse 200 cached_body),
        log (Redis (GET "cache:/api/admin/profile")) profile_cached_world).
Proof.
  split; [reflexivity|]. split; [reflexivity|]. split; [reflexivity|].
  apply (@admin_profile_replayed_to_any_admin Demo.platform Demo.config
           "/api/admin/profile" (bearer root_token) root_token
           (signed_claims Demo.root 1000 3600) (Demo.print cached_body) cached_body
           profile_cached_world);
    try reflexivity; discriminate.
Defined.

Lemma rate_limit_window_bound_witness :
  List.map RateLimit.passed
    (fst (RateLimit.serve 2 60000 "10.0.0.1" [0; 10; 20; 60000] ∅))
  = [true; true; false; false]
  /\ Z.of_nat (List.length (List.filter RateLimit.passed
                 (fst (RateLimit.serve 2 60000 "10.0.0.1" [0; 10; 20; 60000] ∅))))
     = 2
  /\ Z.of_nat (List.length (List.filter RateLimit.passed
                 (fst (RateLimit.serve 0 60000 "10.0.0.1" [0; 10] ∅))))
     = 1.
Proof.
  assert (forall r, (∅ : gmap string RateLimit.record) !! "10.0.0.1" = Some r ->
                    RateLimit.resetTime r < 0) as Hnew.
  { intros r E. rewrite lookup_empty in E. discriminate. }
  split; [reflexivity|]. split.
  - apply (proj1 (rate_limit_window_bound 2 60000 "10.0.0.1" 0 [10; 20; 60000] ∅ Hnew
                    ltac:(repeat constructor; lia))).
  - apply (proj1 (rate_limit_window_bound 0 60000 "10.0.0.1" 0 [10] ∅ Hnew
                    ltac:(repeat constructor; lia))).
Defined.

Lemma rate_limit_refusal_witness :
  0 <= 59001
  /\ RateLimit.safe_integer (60001 + 60000)
  /\ RateLimit.simpleRateLimit 5 60000 "10.0.0.1" 59001 busy_counts
     = (RateLimit.TooMany 1, busy_counts)
  /\ RateLimit.simpleRateLimit 5 60000 "10.0.0.1" 60000 busy_counts
     = (RateLimit.TooMany 0, busy_counts)
  /\ RateLimit.simpleRateLimit 5 60000 "10.0.0.1" 60001 busy_counts
     = (RateLimit.Pass, <["10.0.0.1" := RateLimit.mkRecord 1 120001]> busy_counts).
Proof.
  assert (busy_counts !! "10.0.0.1" = Some (RateLimit.mkRecord 5 60000)) as E
    by reflexivity.
  assert (RateLimit.safe_integer (60001 + 60000)) as Hsum
    by (unfold RateLimit.safe_integer, RateLimit.max_safe_integer; lia).
  assert (forall r, busy_counts !! "10.0.0.1" = Some r ->
                    RateLimit.resetTime r <= RateLimit.max_safe_integer) as Hsafe.
  { intros r Hr. rewrite E in Hr. injection Hr as <-.
    unfold RateLimit.max_safe_integer. cbn. lia. }
  destruct (rate_limit_refusal 5 60000 "10.0.0.1" 59001 busy_counts 1 busy_counts
              ltac:(lia) Hsafe eq_refl)
    as (_ & r & Hr & _ & _ & _ & _ & _ & _ & _ & Hafter).
  split; [lia|]. split; [exact Hsum|]. split; [reflexivity|]. split; [reflexivity|].
  rewrite E in Hr. injection Hr as <-. apply (Hafter 60001); [cbn; lia|exact Hsum].
Defined.
